(** * The AI monitor service of TuyaOpen (tuya_ai_monitor.c)

    A shallow embedding of [src/tuya_ai_basic/monitor/tuya_ai_monitor.c]:
    the client table and its subscription bitmap, the packet-writer
    adapter, the inbound packet handlers, the frame codec of the socket
    read handler, the fan-out dispatcher and the lifecycle controller.

    Conventions.  A C integer of width w is a [Z] and its wrap-around is
    written out ([u8], [u16], [u32], [u64]).  A byte is a [Z] in [0,256).
    A pointer into a buffer is the list of the bytes from the pointer to
    the end of its allocation; a read that leaves the allocation has no
    defined result and is [None].  Global objects ([g_ai_monitor_server],
    [s_monitor_writer_cfg]) and the effects on the SDK (packets handed to
    the encoder, the log facility, timers) are threaded explicitly. *)

From stdpp Require Import base option list numbers.

Open Scope Z_scope.

(** ** Machine integers and byte order *)

Definition u8 (x : Z) : Z := x mod 2 ^ 8.
Definition u16 (x : Z) : Z := x mod 2 ^ 16.
Definition u32 (x : Z) : Z := x mod 2 ^ 32.
Definition u64 (x : Z) : Z := x mod 2 ^ 64.

(** Big-endian (network order) value of a run of bytes: what UNI_NTOHS,
    UNI_NTOHL and UNI_NTOHLL yield after the bytes were copied from the
    wire into an integer of the host. *)
Definition be_decode (bs : list Z) : Z :=
  fold_left (fun acc b => acc * 256 + b) bs 0.

(** The [n] bytes of [x] in network order. *)
Fixpoint be_encode (n : nat) (x : Z) : list Z :=
  match n with
  | O => []
  | S n' => be_encode n' (x / 256) ++ [x mod 256]
  end.

(** [n] bytes at [off] in the allocation [data]; [None] outside of it. *)
Definition read_bytes (data : list Z) (off n : Z) : option (list Z) :=
  if (0 <=? off) && (0 <=? n) && (off + n <=? Z.of_nat (length data))
  then Some (take (Z.to_nat n) (drop (Z.to_nat off) data))
  else None.

Definition read_be16 (data : list Z) (off : Z) : option Z :=
  be_decode <$> read_bytes data off 2.

Definition read_be32 (data : list Z) (off : Z) : option Z :=
  be_decode <$> read_bytes data off 4.

(** memmove(buf, buf + from, n) on the allocation [buf]. *)
Definition memmove_front (buf : list Z) (from n : Z) : list Z :=
  take (Z.to_nat n) (drop (Z.to_nat from) buf) ++ drop (Z.to_nat n) buf.

(** ** Constants *)

(** OPERATE_RET codes.  tuya_error_code.h is not among the sources; the
    values are the SDK's: success is 0 and every error is negative. *)
Definition OPERATE_RET := Z.
Definition OPRT_OK : OPERATE_RET := 0.
Definition OPRT_COM_ERROR : OPERATE_RET := -1.
Definition OPRT_INVALID_PARM : OPERATE_RET := -2.
Definition OPRT_MALLOC_FAILED : OPERATE_RET := -3.
Definition OPRT_NOT_SUPPORTED : OPERATE_RET := -4.
Definition OPRT_NOT_FOUND : OPERATE_RET := -6.

Definition AI_MONITOR_MAGIC : Z := 0x54594149.

Definition AI_MONITOR_DIR_US : Z := 0.
Definition AI_MONITOR_DIR_DS : Z := 1.
Definition AI_MONITOR_DIR_ACK : Z := 2.
Definition AI_MONITOR_DIR_MAX : Z := 3.

(** Packet types (AI_PACKET_PT).  tuya_ai_protocol.h is not among the
    sources; tuya_ai_monitor.h repeats the codes in
    [ai_monitor_msg_type_e] and defines AI_PT_CUSTOM_LOG itself. *)
Definition AI_PT_PING : Z := 4.
Definition AI_PT_PONG : Z := 5.
Definition AI_PT_VIDEO : Z := 30.
Definition AI_PT_AUDIO : Z := 31.
Definition AI_PT_IMAGE : Z := 32.
Definition AI_PT_FILE : Z := 33.
Definition AI_PT_TEXT : Z := 34.
Definition AI_PT_EVENT : Z := 35.
Definition AI_PT_CUSTOM_LOG : Z := 60.

Definition AI_EVENT_MONITOR_FILTER : Z := 0xF000.
Definition AI_EVENT_MONITOR_ALG_CTRL : Z := 0xF001.

Definition TY_AI_MONITOR_US_TEXT : Z := 5.
Definition TY_AI_MONITOR_US_LOG : Z := 0x8001.
Definition TY_AI_MONITOR_US_MIC : Z := 0x8003.
Definition TY_AI_MONITOR_US_REF : Z := 0x8005.
Definition TY_AI_MONITOR_US_AEC : Z := 0x8007.

(** ** Data model *)

Record ai_monitor_config_t := mk_config {
  port : Z;
  max_clients : Z;
  cfg_recv_buf_size : Z;
  send_buf_size : Z;
  heartbeat_interval : Z;
  heartbeat_timeout : Z;
  enable_broadcast : Z;
}.

Definition AI_MONITOR_CFG_DEFAULT : ai_monitor_config_t :=
  mk_config 5055 3 1024 1024 30 60 1.

(** The all-zero configuration left by memset. *)
Definition config_zero : ai_monitor_config_t := mk_config 0 0 0 0 0 0 0.

Record ai_monitor_client_t := mk_client {
  fd : Z;                      (* socket fd, -1 when free *)
  addr : Z;
  connected : bool;
  last_ping_time : Z;
  sequence : Z;
  recv_buf : list Z;           (* the allocation; [] when NULL *)
  recv_buf_size : Z;
  recv_len : Z;
  registered_types : list Z;   (* uint8_t[8]: bitmap of 64 types *)
}.

Definition set_registered_types (c : ai_monitor_client_t) (r : list Z) :=
  mk_client (fd c) (addr c) (connected c) (last_ping_time c) (sequence c)
            (recv_buf c) (recv_buf_size c) (recv_len c) r.

Definition set_last_ping_time (c : ai_monitor_client_t) (t : Z) :=
  mk_client (fd c) (addr c) (connected c) t (sequence c)
            (recv_buf c) (recv_buf_size c) (recv_len c) (registered_types c).

Definition set_recv (c : ai_monitor_client_t) (buf : list Z) (len : Z) :=
  mk_client (fd c) (addr c) (connected c) (last_ping_time c) (sequence c)
            buf (recv_buf_size c) len (registered_types c).

(** A slot after memset(.., 0, ..) with fd = -1, as init leaves it. *)
Definition client_free : ai_monitor_client_t :=
  mk_client (-1) 0 false 0 0 [] 0 0 (replicate 8 0).

(** The software timer behind [g_ai_monitor_server.timer]. *)
Inductive timer_state := TimerNone | TimerStopped | TimerActive.

Record ai_monitor_server_t := mk_server {
  initialized : bool;
  running : bool;
  config : ai_monitor_config_t;
  server_fd : Z;
  clients : list ai_monitor_client_t;   (* [] when NULL *)
  client_count : Z;
  srv_sequence : Z;
  srv_session_id : Z;
  mutex : bool;                         (* a mutex handle is held *)
  timer : timer_state;
}.

(** [static ai_monitor_server_t g_ai_monitor_server = {0}], and the
    state memset leaves in init and deinit. *)
Definition server_zero : ai_monitor_server_t :=
  mk_server false false config_zero 0 [] 0 0 0 false TimerNone.

Record ai_monitor_writer_cfg_t := mk_writer_cfg {
  writer_set : bool;           (* .writer points to s_default_writer *)
  wr_fd : Z;
  direction : Z;
  sequence_out : Z;
  frag_offset : list Z;        (* uint32_t[AI_MONITOR_DIR_MAX] *)
}.

Definition s_monitor_writer_cfg : ai_monitor_writer_cfg_t :=
  mk_writer_cfg false (-1) 0 1 [0; 0; 0].

(** Attributes of the AI protocol, as far as this file names them. *)
Inductive AI_ATTR_TYPE :=
| AI_ATTR_CLIENT_TS
| AI_ATTR_SERVER_TS
| AI_ATTR_SESSION_ID
| AI_ATTR_EVENT_ID
| AI_ATTR_USER_DATA
| AI_ATTR_OTHER (code : Z).

Inductive AI_ATTR_VALUE :=
| ATTR_PT_U64 (v : Z)
| ATTR_PT_STR (s : list Z)
| ATTR_PT_BYTES (b : list Z).

Record AI_ATTRIBUTE_T := mk_attr {
  attr_type : AI_ATTR_TYPE;
  attr_value : AI_ATTR_VALUE;
}.

(** [attr.value.u64]: the union read through its u64 member. *)
Definition value_u64 (a : AI_ATTRIBUTE_T) : Z :=
  match attr_value a with ATTR_PT_U64 v => v | _ => 0 end.

(** Modelled from the spec: the attribute constructor
    tuya_ai_create_attribute of the AI encoder, which is not among the
    sources; it pairs the attribute type with the value it is given. *)
Definition tuya_ai_create_attribute (t : AI_ATTR_TYPE) (v : AI_ATTR_VALUE)
  : AI_ATTRIBUTE_T := mk_attr t v.

Record AI_EVENT_ATTR_T := mk_event_attr {
  session_id : option (list Z);   (* char *, None when NULL *)
  event_id : option (list Z);
  user_len : Z;
  user_data : list Z;
}.

Definition event_attr_zero : AI_EVENT_ATTR_T := mk_event_attr None None 0 [].

Record AI_BIZ_ATTR_INFO_T := mk_biz_attr {
  biz_flag : Z;
  biz_type : Z;                   (* AI_PACKET_PT, a uint8_t *)
  biz_event : AI_EVENT_ATTR_T;    (* value.event *)
}.

Record AI_BIZ_HEAD_INFO_T := mk_biz_head {
  stream_flag : Z;
  total_len : Z;
  len : Z;
}.

Record AI_SEND_PACKET_T := mk_send_packet {
  pkt_type : Z;
  pkt_attrs : list AI_ATTRIBUTE_T;
  pkt_data : list Z;
}.

(** What the service hands to the AI encoder, with the descriptor and
    the direction the writer singleton carries at that moment. *)
Inductive sent_t :=
| SentBasic (to_fd dir : Z) (pkt : AI_SEND_PACKET_T)
| SentBiz (to_fd dir id : Z) (attr : AI_BIZ_ATTR_INFO_T)
          (head : AI_BIZ_HEAD_INFO_T) (data : list Z).

Definition sent_fd (s : sent_t) : Z :=
  match s with SentBasic f _ _ => f | SentBiz f _ _ _ _ _ => f end.

Definition sent_dir (s : sent_t) : Z :=
  match s with SentBasic _ d _ => d | SentBiz _ d _ _ _ _ => d end.

(** The part of the outside world the service acts on. *)
Record world := mk_world {
  writer_cfg : ai_monitor_writer_cfg_t;  (* s_monitor_writer_cfg *)
  log_term : bool;      (* the output term "AI_MON" is registered *)
  wire : list sent_t;   (* packets handed to the encoder, oldest first *)
  posix_ms : Z;         (* what tal_time_get_posix_ms returns *)
}.

Definition world0 (now : Z) : world :=
  mk_world s_monitor_writer_cfg false [] now.

(** What this file uses of tuya_ai_protocol.h and tuya_ai_biz.h, which
    are not among the sources: the layout of the two packet heads, the
    attribute decoders and the status of the encoder's send operations. *)
Class AiProtocol := {
  sizeof_AI_PACKET_HEAD_T : Z;
  pkg_version : list Z -> Z;
  pkg_iv_flag : list Z -> Z;
  pkg_security_level : list Z -> Z;
  pkg_frag_flag : list Z -> Z;
  AI_PACKET_SL0 : Z;
  AI_PACKET_NO_FRAG : Z;
  sizeof_AI_PAYLOAD_HEAD_T : Z;
  payload_type : list Z -> Z;
  payload_attribute_flag : list Z -> Z;
  AI_HAS_ATTR : Z;
  (* (attr_buf, offset) to (status, new offset, attribute) *)
  tuya_ai_get_attr_value : list Z -> Z -> OPERATE_RET * Z * AI_ATTRIBUTE_T;
  tuya_ai_parse_event_attr : list Z -> Z -> OPERATE_RET * AI_EVENT_ATTR_T;
  (* status of a send, given what was sent before *)
  tuya_ai_send_status : list sent_t -> sent_t -> OPERATE_RET;
  (* what the encoder leaves in the fragment-offset cell it was handed
     for a packet, given what was sent before and the cell's value *)
  tuya_ai_frag_offset_after : list sent_t -> sent_t -> Z -> Z;
}.

(** ** Client table *)

(** [sizeof(client->registered_types) * 8] *)
Definition REGISTERED_BITS : Z := 64.

(** [client->registered_types[i]]; the array has 8 cells, a read past
    them has no defined value and is modelled as 0. *)
Definition reg_byte (c : ai_monitor_client_t) (i : Z) : Z :=
  default 0 (registered_types c !! Z.to_nat i).

Definition __is_client_registered (client : ai_monitor_client_t) (type : Z)
  : bool :=
  if (REGISTERED_BITS <=? type) || negb (connected client) then false
  else negb (Z.land (reg_byte client (type / 8)) (Z.shiftl 1 (type mod 8)) =? 0).

Definition __client_register (client : ai_monitor_client_t) (type : Z)
  : OPERATE_RET * ai_monitor_client_t :=
  if (REGISTERED_BITS <=? type) || negb (connected client)
  then (OPRT_INVALID_PARM, client)
  else
    let i := type / 8 in
    let cell := u8 (Z.lor (reg_byte client i) (Z.shiftl 1 (type mod 8))) in
    (OPRT_OK,
     set_registered_types client
       (<[Z.to_nat i := cell]> (registered_types client))).

Definition __client_register_clear (client : ai_monitor_client_t)
  : ai_monitor_client_t :=
  set_registered_types client (replicate 8 0).

Definition __cleanup_client (client : ai_monitor_client_t)
  : ai_monitor_client_t :=
  let c1 := mk_client (if 0 <=? fd client then -1 else fd client)
              (addr client) false (last_ping_time client) (sequence client)
              [] (recv_buf_size client) 0 (registered_types client) in
  __client_register_clear c1.

(** Index of the first slot whose descriptor is [sock]. *)
Definition __find_client_by_fd (s : ai_monitor_server_t) (sock : Z)
  : option nat :=
  fst <$> list_find (fun c => fd c = sock)
            (take (Z.to_nat (max_clients (config s))) (clients s)).

(** ** Writer adapter *)

Inductive AI_STAGE_E :=
| AI_STAGE_GET_FRAG_OFFSET
| AI_STAGE_GET_SEQUENCE
| AI_STAGE_PRE_WRITE
| AI_STAGE_OTHER.

(** What a stage stores through [data] or writes. *)
Inductive stage_out :=
| OutFragCell (index : Z)       (* pointer to frag_offset[index] *)
| OutSequence (seq : Z)         (* the uint16_t stored in *data *)
| OutWrite (bytes : list Z)     (* bytes passed to writer->write *)
| OutNone.

Definition set_sequence_out (cfg : ai_monitor_writer_cfg_t) (s : Z) :=
  mk_writer_cfg (writer_set cfg) (wr_fd cfg) (direction cfg) s (frag_offset cfg).

Definition set_frag_offset (cfg : ai_monitor_writer_cfg_t) (f : list Z) :=
  mk_writer_cfg (writer_set cfg) (wr_fd cfg) (direction cfg) (sequence_out cfg) f.

(** The wrapper preamble: the magic in network order and the flag byte
    [reserved:6 | direction:2], the first bit-field in the low bits. *)
Definition preamble (dir : Z) : list Z :=
  be_encode 4 AI_MONITOR_MAGIC ++ [Z.shiftl (dir mod 4) 6].

Definition __default_update (stage : AI_STAGE_E) (cfg : ai_monitor_writer_cfg_t)
  : stage_out * ai_monitor_writer_cfg_t :=
  match stage with
  | AI_STAGE_GET_FRAG_OFFSET =>
      (OutFragCell (direction cfg mod AI_MONITOR_DIR_MAX), cfg)
  | AI_STAGE_GET_SEQUENCE =>
      let out := sequence_out cfg in
      let next := u16 (sequence_out cfg + 1) in
      (OutSequence out, set_sequence_out cfg (if next =? 0 then 1 else next))
  | AI_STAGE_PRE_WRITE => (OutWrite (preamble (direction cfg)), cfg)
  | AI_STAGE_OTHER => (OutNone, cfg)
  end.

(** The sequence number a GET_SEQUENCE call stores. *)
Definition get_sequence (cfg : ai_monitor_writer_cfg_t) : Z :=
  match fst (__default_update AI_STAGE_GET_SEQUENCE cfg) with
  | OutSequence s => s
  | _ => 0
  end.

(** The writer configuration after [n] consecutive GET_SEQUENCE calls. *)
Fixpoint after_get_sequence (n : nat) (cfg : ai_monitor_writer_cfg_t)
  : ai_monitor_writer_cfg_t :=
  match n with
  | O => cfg
  | S n' => after_get_sequence n' (snd (__default_update AI_STAGE_GET_SEQUENCE cfg))
  end.

(** AI_MONITOR_WRITER_UPDATE(writer, fd, direction); [direction] is a
    uint8_t of the configuration. *)
Definition AI_MONITOR_WRITER_UPDATE (w : world) (to_fd dir : Z) : world :=
  mk_world
    (mk_writer_cfg true to_fd (u8 dir) (sequence_out (writer_cfg w))
       (frag_offset (writer_cfg w)))
    (log_term w) (wire w) (posix_ms w).

Definition set_log_term (w : world) (b : bool) : world :=
  mk_world (writer_cfg w) b (wire w) (posix_ms w).

(** tal_log_add_output_term(AI_MONITOR_TAG, __log_output) and
    tal_log_del_output_term(AI_MONITOR_TAG) *)
Definition tal_log_add_output_term (w : world) : world := set_log_term w true.
Definition tal_log_del_output_term (w : world) : world := set_log_term w false.

Section Handlers.
Context `{AiProtocol}.

(** Modelled from the spec: what the AI encoder, which is not among the
    sources, does to the writer singleton for one packet.  Through the
    writer's update callback it draws the packet's sequence number
    (GET_SEQUENCE) and takes the fragment-offset cell of the current
    direction (GET_FRAG_OFFSET), in which it leaves a uint32_t of its
    own.  The PRE_WRITE and WRITE stages leave the configuration as it
    is. *)
Definition encoder_stages (hist : list sent_t) (req : sent_t)
  (cfg : ai_monitor_writer_cfg_t) : ai_monitor_writer_cfg_t :=
  let cfg1 := snd (__default_update AI_STAGE_GET_SEQUENCE cfg) in
  match fst (__default_update AI_STAGE_GET_FRAG_OFFSET cfg1) with
  | OutFragCell i =>
      let cell := default 0 (frag_offset cfg1 !! Z.to_nat i) in
      set_frag_offset cfg1
        (<[Z.to_nat i := u32 (tuya_ai_frag_offset_after hist req cell)]>
           (frag_offset cfg1))
  | _ => cfg1
  end.

(** Modelled from the spec: the send operations of the AI encoder
    (tuya_ai_basic_pkt_send, tuya_ai_send_biz_pkt_custom), which are not
    among the sources.  The request is recorded with the descriptor and
    the direction of the writer singleton, the writer stages of the
    packet are run, and the status is the encoder's. *)
Definition encoder_send (req : sent_t) (w : world) : OPERATE_RET * world :=
  (tuya_ai_send_status (wire w) req,
   mk_world (encoder_stages (wire w) req (writer_cfg w)) (log_term w)
     (wire w ++ [req]) (posix_ms w)).

Definition tuya_ai_basic_pkt_send (pkt : AI_SEND_PACKET_T) (w : world)
  : OPERATE_RET * world :=
  encoder_send (SentBasic (wr_fd (writer_cfg w)) (direction (writer_cfg w)) pkt) w.

Definition tuya_ai_send_biz_pkt_custom (id : Z) (attr : AI_BIZ_ATTR_INFO_T)
  (head : AI_BIZ_HEAD_INFO_T) (data : list Z) (w : world)
  : OPERATE_RET * world :=
  encoder_send
    (SentBiz (wr_fd (writer_cfg w)) (direction (writer_cfg w)) id attr head data) w.

Definition __pack_and_send (client : ai_monitor_client_t) (dir id : Z)
  (attr : AI_BIZ_ATTR_INFO_T) (head : AI_BIZ_HEAD_INFO_T) (data : list Z)
  (w : world) : OPERATE_RET * world :=
  if negb (connected client) then (OPRT_INVALID_PARM, w)
  else
    let w1 := AI_MONITOR_WRITER_UPDATE w (fd client) dir in
    let '(rt, w2) := tuya_ai_send_biz_pkt_custom id attr head data w1 in
    if negb (rt =? OPRT_OK) then (rt, w2) else (OPRT_OK, w2).

Definition __handle_ping (client : ai_monitor_client_t) (client_ts : Z)
  (w : world) : OPERATE_RET * ai_monitor_client_t * world :=
  let server_ts := posix_ms w in
  let client := set_last_ping_time client server_ts in
  let w1 := AI_MONITOR_WRITER_UPDATE w (fd client) AI_MONITOR_DIR_ACK in
  let pkt := mk_send_packet AI_PT_PONG
               [tuya_ai_create_attribute AI_ATTR_CLIENT_TS (ATTR_PT_U64 client_ts);
                tuya_ai_create_attribute AI_ATTR_SERVER_TS (ATTR_PT_U64 server_ts)]
               [] in
  let '(rt, w2) := tuya_ai_basic_pkt_send pkt w1 in
  if negb (rt =? OPRT_OK) then (rt, client, w2) else (OPRT_OK, client, w2).

(** [if (bitmap & (1ULL << type)) __client_register(client, type)] *)
Definition register_if_set (bitmap type : Z) (client : ai_monitor_client_t)
  : ai_monitor_client_t :=
  if negb (Z.land bitmap (Z.shiftl 1 type) =? 0)
  then snd (__client_register client type)
  else client.

Definition __handle_event_filter (client : ai_monitor_client_t)
  (event : AI_EVENT_ATTR_T) (w : world)
  : OPERATE_RET * ai_monitor_client_t * world :=
  if negb (user_len event =? 8) then (OPRT_INVALID_PARM, client, w)
  else
    (* memcpy of 8 bytes, then UNI_NTOHLL *)
    let user_data_bitmap := be_decode (take 8 (user_data event)) in
    let c0 := __client_register_clear client in
    let c1 := register_if_set user_data_bitmap AI_PT_VIDEO c0 in
    let c2 := register_if_set user_data_bitmap AI_PT_AUDIO c1 in
    let c3 := register_if_set user_data_bitmap AI_PT_IMAGE c2 in
    let c4 := register_if_set user_data_bitmap AI_PT_FILE c3 in
    let c5 := register_if_set user_data_bitmap AI_PT_TEXT c4 in
    let c6 := register_if_set user_data_bitmap AI_PT_EVENT c5 in
    if negb (Z.land user_data_bitmap (Z.shiftl 1 AI_PT_CUSTOM_LOG) =? 0)
    then (OPRT_OK, snd (__client_register c6 AI_PT_CUSTOM_LOG),
          tal_log_add_output_term w)
    else (OPRT_OK, c6, tal_log_del_output_term w).

Definition __handle_event_alg_ctrl (client : ai_monitor_client_t)
  (event : AI_EVENT_ATTR_T) : OPERATE_RET := OPRT_NOT_SUPPORTED.

(** [payload] points at an AI_EVENT_HEAD_T, a big-endian u16 type
    followed by a u16 length.  strlen of a NULL session or event id has
    no defined result. *)
Definition __handle_event (client : ai_monitor_client_t)
  (event : AI_EVENT_ATTR_T) (payload : list Z) (w : world)
  : option (OPERATE_RET * ai_monitor_client_t * world) :=
  event_type ← read_be16 payload 0;
  let '(rt, client, w) :=
    if event_type =? AI_EVENT_MONITOR_FILTER
    then __handle_event_filter client event w
    else if event_type =? AI_EVENT_MONITOR_ALG_CTRL
    then (__handle_event_alg_ctrl client event, client, w)
    else (OPRT_NOT_SUPPORTED, client, w) in
  let w1 := AI_MONITOR_WRITER_UPDATE w (fd client) AI_MONITOR_DIR_ACK in
  sid ← session_id event;
  eid ← event_id event;
  let resp_payload :=
    be_encode 2 event_type ++ be_encode 2 4 ++ be_encode 4 (u32 rt) in
  let pkt := mk_send_packet AI_PT_EVENT
               [tuya_ai_create_attribute AI_ATTR_SESSION_ID (ATTR_PT_STR sid);
                tuya_ai_create_attribute AI_ATTR_EVENT_ID (ATTR_PT_STR eid);
                tuya_ai_create_attribute AI_ATTR_USER_DATA
                  (ATTR_PT_BYTES (take (Z.to_nat (user_len event)) (user_data event)))]
               resp_payload in
  let '(rt, w2) := tuya_ai_basic_pkt_send pkt w1 in
  Some (if negb (rt =? OPRT_OK) then rt else OPRT_OK, client, w2).

(** The attribute loop of the PING branch:
    [while (offset < attr_len) { rt = tuya_ai_get_attr_value(..) ... }].
    The decoder is the SDK's, so the loop is bounded by [fuel]; the
    result is the failing status or the extracted client_ts. *)
Fixpoint ping_attr_loop (fuel : nat) (attr_buf : list Z) (attr_len offset : Z)
  (client_ts : Z) : option (OPERATE_RET + Z) :=
  if negb (offset <? attr_len) then Some (inr client_ts)
  else
    match fuel with
    | O => None
    | S fuel' =>
        let '(rt, offset', attr) := tuya_ai_get_attr_value attr_buf offset in
        if negb (rt =? OPRT_OK) then Some (inl rt)
        else
          let client_ts :=
            match attr_type attr with
            | AI_ATTR_CLIENT_TS => value_u64 attr
            | _ => client_ts
            end in
          ping_attr_loop fuel' attr_buf attr_len (u32 offset') client_ts
    end.

Definition __parse_pkg (fuel : nat) (client : ai_monitor_client_t)
  (data : list Z) (len : Z) (w : world)
  : option (OPERATE_RET * ai_monitor_client_t * world) :=
  if len <? sizeof_AI_PAYLOAD_HEAD_T then Some (OPRT_INVALID_PARM, client, w)
  else
    head ← read_bytes data 0 sizeof_AI_PAYLOAD_HEAD_T;
    let type := payload_type head in
    let attr_flag := payload_attribute_flag head in
    let offset := u32 sizeof_AI_PAYLOAD_HEAD_T in
    if type =? AI_PT_PING then
      if negb (attr_flag =? AI_HAS_ATTR) then Some (OPRT_COM_ERROR, client, w)
      else
        attr_len ← read_be32 data offset;
        let offset := u32 (offset + 4) in
        let attr_buf := drop (Z.to_nat offset) data in
        let offset := u32 (offset + attr_len) in
        r ← ping_attr_loop fuel attr_buf attr_len offset 0;
        match r with
        | inl rt => Some (rt, client, w)
        | inr client_ts => Some (__handle_ping client client_ts w)
        end
    else if type =? AI_PT_EVENT then
      if attr_flag =? AI_HAS_ATTR then
        attr_len ← read_be32 data offset;
        let offset := u32 (offset + 4) in
        let attr_buf := drop (Z.to_nat offset) data in
        let '(rt, event) := tuya_ai_parse_event_attr attr_buf attr_len in
        if negb (rt =? OPRT_OK) then Some (rt, client, w)
        else
          let offset := u32 (u32 (offset + attr_len) + 4) in
          __handle_event client event (drop (Z.to_nat offset) data) w
      else
        let offset := u32 (offset + 4) in
        __handle_event client event_attr_zero (drop (Z.to_nat offset) data) w
    else Some (OPRT_NOT_SUPPORTED, client, w).

End Handlers.

(** ** Frame codec *)

(** [UNI_HTONL(AI_MONITOR_MAGIC)] as it lies in memory: "TYAI". *)
Definition MAGIC_BYTES : list Z := be_encode 4 AI_MONITOR_MAGIC.

(** [memcmp(data + offset, &magic, sizeof(magic)) == 0] *)
Definition memcmp_magic (data : list Z) (offset : Z) : option bool :=
  bs ← read_bytes data offset 4;
  Some (bool_decide (bs = MAGIC_BYTES)).

(** The scan of [__find_sync_frame] for [n] more values of [offset],
    with the offsets at which it compares four bytes.  The result is the
    returned int, or [None] when a comparison left the allocation. *)
Fixpoint sync_scan (data : list Z) (n : nat) (offset : Z)
  : list Z * option Z :=
  match n with
  | O => ([], Some OPRT_NOT_FOUND)
  | S n' =>
      match memcmp_magic data offset with
      | None => ([offset], None)
      | Some true => ([offset], Some offset)
      | Some false =>
          let '(probes, r) := sync_scan data n' (offset + 1) in
          (offset :: probes, r)
      end
  end.

(** [for (offset = 0; offset <= len; offset++)] runs len + 1 times. *)
Definition __find_sync_frame (data : list Z) (len : Z) : option Z :=
  snd (sync_scan data (Z.to_nat (len + 1)) 0).

Definition find_sync_probes (data : list Z) (len : Z) : list Z :=
  fst (sync_scan data (Z.to_nat (len + 1)) 0).

(** [frame->direction]: bit-fields [reserved:6] then [direction:2] of
    the byte after the magic, the first one in the low bits. *)
Definition frame_direction (frame : list Z) : Z :=
  Z.shiftr (default 0 (frame !! 4%nat)) 6.

Section Framing.
Context `{AiProtocol}.

(** [sizeof(ai_monitor_header_t)] under [#pragma pack(1)] *)
Definition sizeof_ai_monitor_header_t : Z := 4 + 1 + sizeof_AI_PACKET_HEAD_T.

(** The negation of the "invalid frame" test on the header bytes. *)
Definition frame_accepted (frame : list Z) : bool :=
  let pkg_header := drop 5 frame in
  (frame_direction frame =? AI_MONITOR_DIR_ACK)
  && (pkg_version pkg_header =? 1)
  && (pkg_iv_flag pkg_header =? 0)
  && (pkg_security_level pkg_header =? AI_PACKET_SL0)
  && (pkg_frag_flag pkg_header =? AI_PACKET_NO_FRAG).

Context {St : Type}.
(** The packet handler the loop calls on each frame body; [None] when
    the handler has no defined result. *)
Variable parse : St -> list Z -> Z -> option (OPERATE_RET * St).

(** The [while (processed < client->recv_len)] loop of
    [__socket_read_handler]; the result is [processed] at loop exit. *)
Fixpoint framing_loop (fuel : nat) (buf : list Z) (recv_len processed : Z)
  (st : St) : option (Z * St) :=
  if negb (processed <? recv_len) then Some (processed, st)
  else
    match fuel with
    | O => None
    | S fuel' =>
        ret ← __find_sync_frame (drop (Z.to_nat processed) buf)
                (u32 (recv_len - processed));
        if negb (ret =? OPRT_OK) then Some (recv_len, st)
        else
          let processed := u32 (processed + ret) in
          if u32 (recv_len - processed) <? sizeof_ai_monitor_header_t + 4
          then Some (processed, st)
          else
            frame ← read_bytes buf processed sizeof_ai_monitor_header_t;
            pkg_len ← read_be32 buf (processed + sizeof_ai_monitor_header_t);
            if negb (frame_accepted frame)
            then framing_loop fuel' buf recv_len (u32 (processed + 4)) st
            else
              let processed := u32 (processed + (sizeof_ai_monitor_header_t + 4)) in
              if u32 (recv_len - processed) <? pkg_len
              then Some (u32 (processed - (sizeof_ai_monitor_header_t + 4)), st)
              else
                '(ret, st') ← parse st (drop (Z.to_nat processed) buf) pkg_len;
                framing_loop fuel' buf recv_len (u32 (processed + pkg_len)) st'
    end.

(** The loop followed by "move remaining data to buffer start": the new
    buffer, the new [recv_len] and the handler's state.  An iteration
    that goes on consumes four bytes or more, so [recv_len] units of fuel
    are more than the loop can use. *)
Definition consume_frames (buf : list Z) (recv_len : Z) (st : St)
  : option (list Z * Z * St) :=
  '(processed, st') ← framing_loop (Z.to_nat recv_len) buf recv_len 0 st;
  if 0 <? processed then
    let buf' := if processed <? recv_len
                then memmove_front buf processed (u32 (recv_len - processed))
                else buf in
    Some (buf', u32 (recv_len - processed), st')
  else Some (buf, recv_len, st').

End Framing.

(** ** Socket read handler *)

(** What tal_net_recv returns: a count that is 0 or negative, or the
    bytes it stored. *)
Inductive recv_result :=
| RecvClosed (rc : Z)
| RecvData (bytes : list Z).

Definition set_clients (s : ai_monitor_server_t)
  (cs : list ai_monitor_client_t) (count : Z) : ai_monitor_server_t :=
  mk_server (initialized s) (running s) (config s) (server_fd s) cs count
            (srv_sequence s) (srv_session_id s) (mutex s) (timer s).

Section ReadHandler.
Context `{AiProtocol}.

(** [__parse_pkg] in the shape the framing loop calls it. *)
Definition parse_for_client (fuel : nat) (st : ai_monitor_client_t * world)
  (data : list Z) (len : Z) : option (OPERATE_RET * (ai_monitor_client_t * world)) :=
  '(rt, c, w) ← __parse_pkg fuel (fst st) data len (snd st);
  Some (rt, (c, w)).

(** [__socket_read_handler].  [__parse_pkg] writes neither [recv_buf]
    nor [recv_len], so the loop works on the buffer it starts with. *)
Definition __socket_read_handler (fuel : nat) (s : ai_monitor_server_t)
  (sock : Z) (rcv : recv_result) (w : world)
  : option (ai_monitor_server_t * world) :=
  match __find_client_by_fd s sock with
  | None => Some (s, w)
  | Some i =>
      client ← clients s !! i;
      let room := u32 (recv_buf_size client - recv_len client) in
      let got := match rcv with
                 | RecvClosed _ => []
                 | RecvData bytes => take (Z.to_nat room) bytes
                 end in
      match got with
      | [] =>
          Some (set_clients s (<[i := __cleanup_client client]> (clients s))
                  (u32 (client_count s - 1)), w)
      | _ =>
          let at_ := Z.to_nat (recv_len client) in
          let buf := take at_ (recv_buf client) ++ got
                     ++ drop (at_ + length got) (recv_buf client) in
          let n := u32 (recv_len client + Z.of_nat (length got)) in
          '(buf', n', (c', w')) ←
             consume_frames (parse_for_client fuel) buf n (client, w);
          Some (set_clients s (<[i := set_recv c' buf' n']> (clients s))
                  (client_count s), w')
      end
  end.

End ReadHandler.

(** ** Fan-out dispatcher and broadcast API *)

Section FanOut.
Context `{AiProtocol}.

(** The body of the [for] loop of [__ai_biz_handler] over the slots. *)
Fixpoint fan_out (cs : list ai_monitor_client_t) (dir id : Z)
  (attr : AI_BIZ_ATTR_INFO_T) (head : AI_BIZ_HEAD_INFO_T) (data : list Z)
  (ret : OPERATE_RET) (w : world) : OPERATE_RET * world :=
  match cs with
  | [] => (ret, w)
  | client :: rest =>
      if negb (connected client) || (fd client <? 0)
      then fan_out rest dir id attr head data ret w
      else if negb (__is_client_registered client (biz_type attr))
      then fan_out rest dir id attr head data ret w
      else
        let '(ret', w') := __pack_and_send client dir id attr head data w in
        fan_out rest dir id attr head data ret' w'
  end.

(** [attr] and [head] are pointers; [None] is NULL. *)
Definition __ai_biz_handler (dir id : Z) (attr : option AI_BIZ_ATTR_INFO_T)
  (head : option AI_BIZ_HEAD_INFO_T) (data : list Z)
  (server : ai_monitor_server_t) (w : world) : OPERATE_RET * world :=
  match attr, head with
  | Some attr, Some head =>
      if (0 <? total_len head) && negb (total_len head =? len head)
      then (OPRT_NOT_SUPPORTED, w)
      else fan_out (take (Z.to_nat (max_clients (config server))) (clients server))
             dir id attr head data OPRT_OK w
  | _, _ => (OPRT_INVALID_PARM, w)
  end.

Definition __ai_biz_recv_handler (id : Z) (attr : option AI_BIZ_ATTR_INFO_T)
  (head : option AI_BIZ_HEAD_INFO_T) (data : list Z)
  (server : ai_monitor_server_t) (w : world) : OPERATE_RET * world :=
  __ai_biz_handler AI_MONITOR_DIR_DS id attr head data server w.

Definition __ai_biz_send_handler (id : Z) (attr : option AI_BIZ_ATTR_INFO_T)
  (head : option AI_BIZ_HEAD_INFO_T) (data : list Z)
  (server : ai_monitor_server_t) (w : world) : OPERATE_RET * world :=
  __ai_biz_handler AI_MONITOR_DIR_US id attr head data server w.

Definition tuya_ai_monitor_broadcast (id : Z) (attr : option AI_BIZ_ATTR_INFO_T)
  (head : option AI_BIZ_HEAD_INFO_T) (data : list Z)
  (server : ai_monitor_server_t) (w : world) : OPERATE_RET * world :=
  if negb (initialized server) || negb (running server)
  then (OPRT_INVALID_PARM, w)
  else __ai_biz_handler AI_MONITOR_DIR_ACK id attr head data server w.

(** [data] is [None] when NULL; [dlen] is the [len] argument. *)
Definition __broadcast_text (data_id : Z) (data : option (list Z)) (dlen : Z)
  (server : ai_monitor_server_t) (w : world) : OPERATE_RET * world :=
  if negb (initialized server) || negb (running server)
  then (OPRT_INVALID_PARM, w)
  else
    match data with
    | None => (OPRT_INVALID_PARM, w)
    | Some bytes =>
        if dlen =? 0 then (OPRT_INVALID_PARM, w)
        else
          let attr := mk_biz_attr AI_HAS_ATTR AI_PT_TEXT event_attr_zero in
          (* stream_flag = AI_STREAM_START | AI_STREAM_END *)
          let head := mk_biz_head 3 dlen dlen in
          __ai_biz_handler AI_MONITOR_DIR_ACK data_id (Some attr) (Some head)
            bytes server w
    end.

Definition tuya_ai_monitor_broadcast_text (data : option (list Z)) (dlen : Z)
  (server : ai_monitor_server_t) (w : world) : OPERATE_RET * world :=
  __broadcast_text TY_AI_MONITOR_US_TEXT data dlen server w.

Definition tuya_ai_monitor_broadcast_log (data : option (list Z)) (dlen : Z)
  (server : ai_monitor_server_t) (w : world) : OPERATE_RET * world :=
  __broadcast_text TY_AI_MONITOR_US_LOG data dlen server w.

Definition tuya_ai_monitor_broadcast_audio (data_id stype : Z)
  (data : option (list Z)) (dlen : Z)
  (server : ai_monitor_server_t) (w : world) : OPERATE_RET * world :=
  if negb (initialized server) || negb (running server)
  then (OPRT_INVALID_PARM, w)
  else
    match data with
    | None => (OPRT_INVALID_PARM, w)
    | Some bytes =>
        if dlen =? 0 then (OPRT_INVALID_PARM, w)
        else
          let attr := mk_biz_attr AI_HAS_ATTR AI_PT_AUDIO event_attr_zero in
          let head := mk_biz_head stype dlen dlen in
          __ai_biz_handler AI_MONITOR_DIR_ACK data_id (Some attr) (Some head)
            bytes server w
    end.

End FanOut.

(** ** Lifecycle controller *)

(** tal_sw_timer_start and tal_sw_timer_stop on the handle stored in the
    server: a NULL handle has no timer to act on. *)
Definition tal_sw_timer_start (t : timer_state) : timer_state :=
  match t with TimerNone => TimerNone | _ => TimerActive end.

Definition tal_sw_timer_stop (t : timer_state) : timer_state :=
  match t with TimerNone => TimerNone | _ => TimerStopped end.

Definition set_server_fd (s : ai_monitor_server_t) (f : Z) :=
  mk_server (initialized s) (running s) (config s) f (clients s)
            (client_count s) (srv_sequence s) (srv_session_id s) (mutex s) (timer s).

Definition set_timer (s : ai_monitor_server_t) (t : timer_state) :=
  mk_server (initialized s) (running s) (config s) (server_fd s) (clients s)
            (client_count s) (srv_sequence s) (srv_session_id s) (mutex s) t.

Definition set_running (s : ai_monitor_server_t) (b : bool) :=
  mk_server (initialized s) b (config s) (server_fd s) (clients s)
            (client_count s) (srv_sequence s) (srv_session_id s) (mutex s) (timer s).

(** What the platform answers during one timer tick. *)
Record tick_env := mk_tick_env {
  iot_activated : bool;    (* tuya_iot_activated(tuya_iot_client_get()) *)
  socket_create : Z;       (* tal_net_socket_create *)
  set_reuse : Z;           (* tal_net_set_reuse *)
  bind_status : Z;         (* tal_net_bind *)
  listen_status : Z;       (* tal_net_listen *)
  reg_lan_sock : Z;        (* tuya_reg_lan_sock *)
}.

Definition __create_server_socket (e : tick_env) : Z :=
  if socket_create e <? 0 then -1
  else if set_reuse e <? 0 then -2
  else if bind_status e <? 0 then -3
  else if listen_status e <? 0 then -5
  else socket_create e.

Definition __tcp_create_serv_fd (s : ai_monitor_server_t) (e : tick_env)
  : Z * ai_monitor_server_t :=
  if server_fd s <? 0 then
    let rt := __create_server_socket e in
    if rt <? 0 then (OPRT_COM_ERROR, s)
    else
      let s1 := set_server_fd s rt in
      let rt := reg_lan_sock e in
      if negb (rt =? OPRT_OK) then (rt, set_server_fd s1 (-1))
      else (server_fd s1, s1)
  else (server_fd s, s).

Definition __monitor_tm_cb (s : ai_monitor_server_t) (e : tick_env)
  : ai_monitor_server_t :=
  if 0 <=? server_fd s then s
  else if negb (iot_activated e) then s
  else
    let '(rt, s1) := __tcp_create_serv_fd s e in
    if rt <? 0 then s1
    else set_timer s1 (tal_sw_timer_stop (timer s1)).

(** [biz_register] is the status of tuya_ai_biz_monitor_register. *)
Definition __ai_monitor_start (s : ai_monitor_server_t) (biz_register : Z)
  : OPERATE_RET * ai_monitor_server_t :=
  if negb (initialized s) then (OPRT_INVALID_PARM, s)
  else if running s then (OPRT_OK, s)
  else
    let s1 := set_timer s (tal_sw_timer_start (timer s)) in
    if negb (biz_register =? OPRT_OK)
    then (biz_register, set_server_fd s1 (-1))
    else (OPRT_OK, set_running s1 true).

(** [memset(&g_ai_monitor_server, 0, sizeof(g_ai_monitor_server))] *)
Definition memset_server (s : ai_monitor_server_t) : ai_monitor_server_t :=
  server_zero.

(** What the platform answers during init. *)
Record init_env := mk_init_env {
  sock_loop_init : Z;      (* tuya_sock_loop_init *)
  malloc_clients : bool;   (* OS_MALLOC of the client array succeeds *)
  mutex_create : Z;        (* tal_mutex_create_init *)
  timer_create : Z;        (* tal_sw_timer_create *)
  random16 : Z;            (* tal_system_get_random(0xFFFF) *)
  random32 : Z;            (* tal_system_get_random(0xFFFFFFFF) *)
  biz_register : Z;        (* tuya_ai_biz_monitor_register *)
}.

Definition tuya_ai_monitor_init (s : ai_monitor_server_t)
  (cfg : option ai_monitor_config_t) (e : init_env)
  : OPERATE_RET * ai_monitor_server_t :=
  match cfg with
  | None => (OPRT_INVALID_PARM, s)
  | Some cfg =>
      if initialized s then (OPRT_OK, s)
      else if negb (sock_loop_init e =? OPRT_OK) then (sock_loop_init e, s)
      else
        (* memset, then the copy of the configuration *)
        let z := mk_server false false cfg 0 [] 0 0 0 false TimerNone in
        if negb (malloc_clients e) then (OPRT_MALLOC_FAILED, z)
        else if negb (mutex_create e =? OPRT_OK) then (mutex_create e, z)
        else if negb (timer_create e =? OPRT_OK) then (timer_create e, z)
        else
          __ai_monitor_start
            (mk_server true false cfg (-1)
               (replicate (Z.to_nat (max_clients cfg)) client_free) 0
               (random16 e) (random32 e) true TimerStopped)
            (biz_register e)
  end.

(** [for i < max_clients: if (clients[i].connected) __cleanup_client] *)
Definition cleanup_connected (n : nat) (cs : list ai_monitor_client_t)
  : list ai_monitor_client_t :=
  ((fun c => if connected c then __cleanup_client c else c) <$> take n cs)
  ++ drop n cs.

Definition __session_close_all (s : ai_monitor_server_t)
  : ai_monitor_server_t :=
  let s1 := if 0 <=? server_fd s then set_server_fd s (-1) else s in
  let s2 := set_clients s1
              (cleanup_connected (Z.to_nat (max_clients (config s1))) (clients s1)) 0 in
  set_timer s2 (tal_sw_timer_start (timer s2)).

Definition __ai_monitor_stop (s : ai_monitor_server_t)
  : OPERATE_RET * ai_monitor_server_t :=
  if negb (initialized s) || negb (running s) then (OPRT_INVALID_PARM, s)
  else (OPRT_OK, set_running (__session_close_all s) false).

Definition tuya_ai_monitor_deinit (s : ai_monitor_server_t)
  : OPERATE_RET * ai_monitor_server_t :=
  if negb (initialized s) then (OPRT_INVALID_PARM, s)
  else
    let s1 := if running s then snd (__ai_monitor_stop s) else s in
    (* free clients, release mutex, then memset *)
    (OPRT_OK, memset_server s1).

Definition __accept_err (s : ai_monitor_server_t) : ai_monitor_server_t :=
  __session_close_all s.

Definition tuya_ai_monitor_is_running (s : ai_monitor_server_t) : bool :=
  initialized s && running s.

(** The entry points that move the lifecycle: the two public calls and
    the two callbacks.  [__ai_monitor_start] runs inside init and
    [__ai_monitor_stop] inside deinit. *)
Inductive lifecycle_event :=
| EvInit (cfg : option ai_monitor_config_t) (e : init_env)
| EvDeinit
| EvTimerTick (e : tick_env)
| EvAcceptErr.

Definition lifecycle_step (s : ai_monitor_server_t) (ev : lifecycle_event)
  : ai_monitor_server_t :=
  match ev with
  | EvInit cfg e => snd (tuya_ai_monitor_init s cfg e)
  | EvDeinit => snd (tuya_ai_monitor_deinit s)
  | EvTimerTick e => __monitor_tm_cb s e
  | EvAcceptErr => __accept_err s
  end.

(** An OPERATE_RET of the SDK is OPRT_OK or a negative code. *)
Definition event_ok (ev : lifecycle_event) : Prop :=
  match ev with
  | EvTimerTick e => reg_lan_sock e <= 0
  | _ => True
  end.

Inductive reachable : ai_monitor_server_t -> Prop :=
| reachable_start : reachable server_zero
| reachable_step s ev :
    reachable s -> event_ok ev -> reachable (lifecycle_step s ev).

Definition run_lifecycle (evs : list lifecycle_event) : ai_monitor_server_t :=
  fold_left lifecycle_step evs server_zero.

(** "The periodic creation timer is stopped". *)
Definition timer_stopped (s : ai_monitor_server_t) : Prop :=
  timer s = TimerStopped.

(** ** A sample instance of the protocol

    Used to run the model on concrete frames; every theorem below holds
    for all instances.  The packet head has four bytes (version, a flag
    byte with iv_flag in bit 7, security_level in bits 2..6 and frag_flag
    in bits 0..1, a 16-bit sequence); the payload head has one byte
    (attribute_flag in bit 7, type in the low bits).  An attribute is a
    16-bit type, a one-byte payload type, a 32-bit length and the value;
    type 1 stands for CLIENT_TS. *)

Definition sample_get_attr_value (attr_buf : list Z) (offset : Z)
  : OPERATE_RET * Z * AI_ATTRIBUTE_T :=
  match read_be16 attr_buf offset, read_be32 attr_buf (offset + 3) with
  | Some t, Some n =>
      match read_bytes attr_buf (offset + 7) n with
      | Some v =>
          (OPRT_OK, offset + 7 + n,
           mk_attr (if t =? 1 then AI_ATTR_CLIENT_TS else AI_ATTR_OTHER t)
                   (ATTR_PT_U64 (be_decode v)))
      | None => (OPRT_COM_ERROR, offset, mk_attr (AI_ATTR_OTHER t) (ATTR_PT_BYTES []))
      end
  | _, _ => (OPRT_COM_ERROR, offset, mk_attr (AI_ATTR_OTHER 0) (ATTR_PT_BYTES []))
  end.

Definition sample_parse_event_attr (attr_buf : list Z) (attr_len : Z)
  : OPERATE_RET * AI_EVENT_ATTR_T :=
  (OPRT_OK, mk_event_attr (Some []) (Some []) attr_len
              (take (Z.to_nat attr_len) attr_buf)).

#[export] Instance sample_protocol : AiProtocol := {|
  sizeof_AI_PACKET_HEAD_T := 4;
  pkg_version := fun h => default 0 (h !! 0%nat);
  pkg_iv_flag := fun h => Z.shiftr (default 0 (h !! 1%nat)) 7;
  pkg_security_level := fun h => Z.land (Z.shiftr (default 0 (h !! 1%nat)) 2) 31;
  pkg_frag_flag := fun h => Z.land (default 0 (h !! 1%nat)) 3;
  AI_PACKET_SL0 := 0;
  AI_PACKET_NO_FRAG := 0;
  sizeof_AI_PAYLOAD_HEAD_T := 1;
  payload_type := fun h => Z.land (default 0 (h !! 0%nat)) 127;
  payload_attribute_flag := fun h => Z.shiftr (default 0 (h !! 0%nat)) 7;
  AI_HAS_ATTR := 1;
  tuya_ai_get_attr_value := sample_get_attr_value;
  tuya_ai_parse_event_attr := sample_parse_event_attr;
  tuya_ai_send_status := fun _ _ => OPRT_OK;
  tuya_ai_frag_offset_after := fun _ _ _ => 0;
|}.

(** A wrapper frame around [body]: magic, flag byte with direction ACK,
    sample packet head (version 1, no iv, SL0, no fragmentation,
    sequence [seq]), length and body. *)
Definition sample_frame (seq : Z) (body : list Z) : list Z :=
  MAGIC_BYTES ++ [Z.shiftl AI_MONITOR_DIR_ACK 6] ++ [1; 0] ++ be_encode 2 seq
  ++ be_encode 4 (Z.of_nat (length body)) ++ body.

(** The body of a PING that carries CLIENT_TS = [ts]. *)
Definition sample_ping (ts : Z) : list Z :=
  [128 + AI_PT_PING] ++ be_encode 4 15
  ++ be_encode 2 1 ++ [0] ++ be_encode 4 8 ++ be_encode 8 ts.

(** A connected slot on descriptor 7 whose buffer of [size] bytes holds
    [bytes] from its start. *)
Definition sample_client (size : nat) (bytes : list Z) : ai_monitor_client_t :=
  mk_client 7 0 true 0 0 (bytes ++ replicate (size - length bytes) 0)
            (Z.of_nat size) (Z.of_nat (length bytes)) (replicate 8 0).

(** The packet types a client can subscribe to through MONITOR_FILTER. *)
Definition subscribable : list Z :=
  [AI_PT_VIDEO; AI_PT_AUDIO; AI_PT_IMAGE; AI_PT_FILE; AI_PT_TEXT;
   AI_PT_EVENT; AI_PT_CUSTOM_LOG].

(** The PONG that answers a ping on [client] with the given stamps. *)
Definition pong_for (client : ai_monitor_client_t) (client_ts server_ts : Z)
  : sent_t :=
  SentBasic (fd client) AI_MONITOR_DIR_ACK
    (mk_send_packet AI_PT_PONG
       [mk_attr AI_ATTR_CLIENT_TS (ATTR_PT_U64 client_ts);
        mk_attr AI_ATTR_SERVER_TS (ATTR_PT_U64 server_ts)] []).

(** A head is fragmented when the fan-out refuses it. *)
Definition fragmented (head : AI_BIZ_HEAD_INFO_T) : Prop :=
  0 < total_len head /\ total_len head <> len head.

(** [req] is addressed to a slot of [cs] a fan-out of [type] may write
    to: connected, with a valid descriptor, subscribed to [type]. *)
Definition live_slot (cs : list ai_monitor_client_t) (type : Z) (req : sent_t)
  : Prop :=
  exists c, c ∈ cs /\ connected c = true /\ 0 <= fd c
            /\ __is_client_registered c type = true /\ sent_fd req = fd c.

(** At [p] the buffer holds the magic, a header that passes the checks
    of the read handler, and the length field [pkg_len]. *)
Definition frame_head_at `{AiProtocol} (buf : list Z) (p pkg_len : Z) : Prop :=
  read_bytes buf p 4 = Some MAGIC_BYTES
  /\ (exists frame, read_bytes buf p sizeof_ai_monitor_header_t = Some frame
                    /\ frame_accepted frame = true)
  /\ read_be32 buf (p + sizeof_ai_monitor_header_t) = Some pkg_len.


(** The invariant of the lifecycle: once initialized the server holds a
    timer, and its listening descriptor is valid exactly when that timer
    is stopped; running implies initialized. *)
Definition lifecycle_inv (s : ai_monitor_server_t) : Prop :=
  (running s = true -> initialized s = true)
  /\ (initialized s = true ->
      timer s <> TimerNone /\ (0 <= server_fd s <-> timer s = TimerStopped)).

(** Platform answers under which init and a timer tick succeed. *)
Definition init_ok : init_env := mk_init_env 0 true 0 0 0x1234 0x56789ABC 0.
Definition tick_ok : tick_env := mk_tick_env true 3 0 0 0 0.


(** A running server that listens on descriptor 3 and whose first slot
    is [c]. *)
Definition sample_server (c : ai_monitor_client_t) : ai_monitor_server_t :=
  set_clients
    (run_lifecycle [EvInit (Some AI_MONITOR_CFG_DEFAULT) init_ok; EvTimerTick tick_ok])
    [c; client_free; client_free] 1.

(** The sample slot after it subscribed to TEXT. *)
Definition text_subscriber : ai_monitor_client_t :=
  (__client_register (sample_client 64 []) AI_PT_TEXT).2.

(** ** Accept and socket error handlers *)

(** What the platform answers while one connection is accepted. *)
Record accept_env := mk_accept_env {
  accepted_fd : Z;                  (* tal_net_accept *)
  peer_addr : Z;                    (* the address it stores *)
  client_malloc : option (list Z);  (* OS_MALLOC of the receive buffer:
                                       the fresh allocation, None on failure *)
  reg_client_sock : Z;              (* tuya_reg_lan_sock of the client *)
  accept_time : Z;                  (* tal_time_get_posix_ms *)
}.

(** [__init_client]: the slot is zeroed and filled in before the buffer
    is allocated, so it keeps these fields when the allocation fails. *)
Definition __init_client (cfg : ai_monitor_config_t) (e : accept_env)
  : OPERATE_RET * ai_monitor_client_t :=
  let c := mk_client (accepted_fd e) (peer_addr e) true (accept_time e) 0
             [] (cfg_recv_buf_size cfg) 0 (replicate 8 0) in
  match client_malloc e with
  | None => (OPRT_MALLOC_FAILED, c)
  | Some buf => (OPRT_OK, __client_register_clear (set_recv c buf 0))
  end.

Definition __accept_handler (s : ai_monitor_server_t) (e : accept_env)
  : ai_monitor_server_t :=
  if accepted_fd e <? 0 then s
  else if max_clients (config s) <=? client_count s then s
  else
    match list_find (fun c => connected c = false)
            (take (Z.to_nat (max_clients (config s))) (clients s)) with
    | None => s
    | Some (i, _) =>
        let '(ret, c) := __init_client (config s) e in
        if negb (ret =? OPRT_OK)
        then set_clients s (<[i := c]> (clients s)) (client_count s)
        else if negb (reg_client_sock e =? OPRT_OK)
        then set_clients s (<[i := __cleanup_client c]> (clients s)) (client_count s)
        else set_clients s (<[i := c]> (clients s)) (u32 (client_count s + 1))
    end.

Definition __socket_error_handler (s : ai_monitor_server_t) (sock : Z)
  : ai_monitor_server_t :=
  match __find_client_by_fd s sock with
  | None => s
  | Some i =>
      match clients s !! i with
      | None => s
      | Some client =>
          set_clients s (<[i := __cleanup_client client]> (clients s))
            (u32 (client_count s - 1))
      end
  end.

(** ** The write stage of the writer adapter *)

Section DefaultWrite.
(** The two errno values of the platform that mean "try again"; their
    header is not among the sources. *)
Variables UNW_EAGAIN UNW_EWOULDBLOCK : Z.

(** The [while (remaining > 0)] loop of [__default_write].  [net] lists
    what the following calls of tal_net_send return, each with the errno
    read after it; a call that returns [rt > 0] has sent the next [rt]
    bytes.  The result carries the bytes sent; it is [None] when the
    loop is still running after the listed calls. *)
Fixpoint send_loop (buf : list Z) (total_sent remaining : Z)
  (net : list (Z * Z)) (out : list Z) : option (OPERATE_RET * list Z) :=
  if remaining =? 0 then Some (OPRT_OK, out)
  else
    match net with
    | [] => None
    | (rt, err) :: net' =>
        if rt <=? 0 then
          if (err =? UNW_EAGAIN) || (err =? UNW_EWOULDBLOCK) || (err =? 11)
          then send_loop buf total_sent remaining net' out
          else Some (OPRT_COM_ERROR, out)
        else
          send_loop buf (u32 (total_sent + rt)) (u32 (remaining - rt)) net'
            (out ++ take (Z.to_nat rt) (drop (Z.to_nat total_sent) buf))
    end.

(** [buf] is [None] when NULL. *)
Definition __default_write (cfg : ai_monitor_writer_cfg_t)
  (buf : option (list Z)) (buf_len : Z) (net : list (Z * Z))
  : option (OPERATE_RET * list Z) :=
  match buf with
  | None => Some (OPRT_INVALID_PARM, [])
  | Some bytes =>
      if (wr_fd cfg <? 0) || (buf_len =? 0) then Some (OPRT_INVALID_PARM, [])
      else send_loop bytes 0 buf_len net []
  end.

End DefaultWrite.

(** tal_net_send never reports more bytes than it was asked to send. *)
Fixpoint sends_fit (remaining : Z) (net : list (Z * Z)) : Prop :=
  match net with
  | [] => True
  | (rt, _) :: net' =>
      if rt <=? 0 then sends_fit remaining net'
      else rt <= remaining /\ sends_fit (remaining - rt) net'
  end.

(** ** The audio broadcast wrappers *)

Section AudioWrappers.
Context `{AiProtocol}.

Definition tuya_ai_monitor_broadcast_audio_mic (stype : Z)
  (data : option (list Z)) (dlen : Z)
  (server : ai_monitor_server_t) (w : world) : OPERATE_RET * world :=
  tuya_ai_monitor_broadcast_audio TY_AI_MONITOR_US_MIC stype data dlen server w.

Definition tuya_ai_monitor_broadcast_audio_ref (stype : Z)
  (data : option (list Z)) (dlen : Z)
  (server : ai_monitor_server_t) (w : world) : OPERATE_RET * world :=
  tuya_ai_monitor_broadcast_audio TY_AI_MONITOR_US_REF stype data dlen server w.

Definition tuya_ai_monitor_broadcast_audio_aec (stype : Z)
  (data : option (list Z)) (dlen : Z)
  (server : ai_monitor_server_t) (w : world) : OPERATE_RET * world :=
  tuya_ai_monitor_broadcast_audio TY_AI_MONITOR_US_AEC stype data dlen server w.

End AudioWrappers.

(** ** Notions used to state the properties of the client table *)

(** The slots a fan-out of [type] writes to. *)
Definition receives (type : Z) (c : ai_monitor_client_t) : bool :=
  connected c && (0 <=? fd c) && __is_client_registered c type.

(** The request a fan-out hands to the encoder for slot [c]. *)
Definition biz_request (dir id : Z) (attr : AI_BIZ_ATTR_INFO_T)
  (head : AI_BIZ_HEAD_INFO_T) (data : list Z) (c : ai_monitor_client_t)
  : sent_t :=
  SentBiz (fd c) (u8 dir) id attr head data.

Fixpoint connected_count (cs : list ai_monitor_client_t) : Z :=
  match cs with
  | [] => 0
  | c :: rest => (if connected c then 1 else 0) + connected_count rest
  end.

(** A slot is well formed: it is connected exactly when it holds a
    descriptor, its bitmap has its 8 cells, and while it is connected its
    buffer is an allocation of [recv_buf_size] bytes of which [recv_len]
    are filled. *)
Definition slot_ok (c : ai_monitor_client_t) : Prop :=
  (connected c = true <-> 0 <= fd c)
  /\ length (registered_types c) = 8%nat
  /\ (connected c = true ->
      Z.of_nat (length (recv_buf c)) = recv_buf_size c
      /\ 0 <= recv_len c <= recv_buf_size c
      /\ recv_buf_size c < 2 ^ 32
      /\ Forall (fun b => 0 <= b) (recv_buf c)).

(** The client table is well formed: it has [max_clients] well-formed
    slots and [client_count] counts the connected ones. *)
Definition table_ok (s : ai_monitor_server_t) : Prop :=
  max_clients (config s) < 2 ^ 32
  /\ Z.of_nat (length (clients s)) = max_clients (config s)
  /\ Forall slot_ok (clients s)
  /\ client_count s = connected_count (clients s).

(** [handled parse buf recv_len st st']: [st'] comes from [st] by calls
    of the packet handler, each on the body of a frame that lies inside
    the [recv_len] received bytes and has an accepted header. *)
Inductive handled `{AiProtocol} {St : Type}
  (parse : St -> list Z -> Z -> option (OPERATE_RET * St))
  (buf : list Z) (recv_len : Z) : St -> St -> Prop :=
| handled_none st : handled parse buf recv_len st st
| handled_frame st p pkg_len rt st1 st' :
    0 <= p -> frame_head_at buf p pkg_len -> 0 <= pkg_len ->
    p + (sizeof_ai_monitor_header_t + 4) + pkg_len <= recv_len ->
    parse st (drop (Z.to_nat (p + (sizeof_ai_monitor_header_t + 4))) buf) pkg_len
      = Some (rt, st1) ->
    handled parse buf recv_len st1 st' ->
    handled parse buf recv_len st st'.

(** The status a fan-out returns: that of the last request it handed
    to the encoder, [ret] when there was none.  [hist] is what was sent
    before. *)
Fixpoint last_status `{AiProtocol} (ret : OPERATE_RET) (hist reqs : list sent_t)
  : OPERATE_RET :=
  match reqs with
  | [] => ret
  | req :: rest => last_status (tuya_ai_send_status hist req) (hist ++ [req]) rest
  end.

(** [w'] is [w] after [n] packets were handed to the encoder with
    direction [dir]: the log term and the clock are the same, the
    sequence counter is the one [n] GET_SEQUENCE calls leave, and the
    fragment-offset cells of the other directions are as they were. *)
Definition writer_after (n : nat) (dir : Z) (w w' : world) : Prop :=
  log_term w' = log_term w /\ posix_ms w' = posix_ms w
  /\ sequence_out (writer_cfg w')
     = sequence_out (after_get_sequence n (writer_cfg w))
  /\ length (frag_offset (writer_cfg w')) = length (frag_offset (writer_cfg w))
  /\ forall i, i <> Z.to_nat (u8 dir mod AI_MONITOR_DIR_MAX) ->
       frag_offset (writer_cfg w') !! i = frag_offset (writer_cfg w) !! i.

(** The bytes the listed calls of tal_net_send report as sent. *)
Fixpoint sent_total (net : list (Z * Z)) : Z :=
  match net with
  | [] => 0
  | (rt, _) :: net' => (if rt <=? 0 then 0 else rt) + sent_total net'
  end.

(** Every listed call sends something or fails with a "try again"
    errno. *)
Definition only_retries (EAGAIN EWOULDBLOCK : Z) (net : list (Z * Z)) : Prop :=
  Forall (fun o => 0 < o.1 \/ o.2 = EAGAIN \/ o.2 = EWOULDBLOCK \/ o.2 = 11) net.

(** ** Notions used to state the properties of the service as a whole *)

(** The receive buffer of an accepted client is allocated with the
    configured size; its bytes are byte values. *)
Definition accept_env_ok (cfg : ai_monitor_config_t) (e : accept_env) : Prop :=
  exists buf, client_malloc e = Some buf
    /\ Z.of_nat (length buf) = cfg_recv_buf_size cfg
    /\ cfg_recv_buf_size cfg < 2 ^ 32
    /\ Forall (fun b => 0 <= b) buf.

Definition recv_ok (rcv : recv_result) : Prop :=
  match rcv with
  | RecvClosed _ => True
  | RecvData bytes => Forall (fun b => 0 <= b) bytes
  end.

(** The requests of [out] are answers to descriptor [sock]. *)
Definition answers_to (sock : Z) (out : list sent_t) : Prop :=
  Forall (fun r => sent_fd r = sock /\ sent_dir r = AI_MONITOR_DIR_ACK) out.

(** Everything that drives the service: the lifecycle entry points and
    the callbacks of the socket loop. *)
Inductive service_event :=
| SvLifecycle (ev : lifecycle_event)
| SvAccept (e : accept_env)
| SvRead (fuel : nat) (sock : Z) (rcv : recv_result)
| SvSockErr (sock : Z).

(** The values the platform hands in are in range: configuration fields
    are uint32_t, descriptors of sockets in the loop are not negative,
    received bytes are byte values. *)
Definition service_event_ok (s : ai_monitor_server_t) (ev : service_event) : Prop :=
  match ev with
  | SvLifecycle (EvInit (Some cfg) _) => 0 <= max_clients cfg < 2 ^ 32
  | SvLifecycle _ => True
  | SvAccept e => accept_env_ok (config s) e
  | SvRead _ sock rcv => 0 <= sock /\ recv_ok rcv
  | SvSockErr sock => 0 <= sock
  end.

Inductive service_step `{AiProtocol}
  : ai_monitor_server_t * world -> service_event
    -> ai_monitor_server_t * world -> Prop :=
| step_lifecycle s w ev :
    service_step (s, w) (SvLifecycle ev) (lifecycle_step s ev, w)
| step_accept s w e :
    service_step (s, w) (SvAccept e) (__accept_handler s e, w)
| step_read s w fuel sock rcv s' w' :
    __socket_read_handler fuel s sock rcv w = Some (s', w') ->
    service_step (s, w) (SvRead fuel sock rcv) (s', w')
| step_sock_err s w sock :
    service_step (s, w) (SvSockErr sock) (__socket_error_handler s sock, w).

(** The states the service reaches from the zeroed global; a read is a
    step when the read handler returns. *)
Inductive serving `{AiProtocol} : ai_monitor_server_t -> world -> Prop :=
| serving_start w : serving server_zero w
| serving_step s w ev s' w' :
    serving s w -> service_event_ok s ev -> service_step (s, w) ev (s', w') ->
    serving s' w'.

(** A connection the platform accepts for the default configuration. *)
Definition accept_ok : accept_env :=
  mk_accept_env 9 0x0A000002 (Some (replicate 1024 0)) 0 5000.

(** The status an event handler reports for an event of [event_type]. *)
Definition event_status (client : ai_monitor_client_t) (event : AI_EVENT_ATTR_T)
  (w : world) (event_type : Z) : OPERATE_RET :=
  if event_type =? AI_EVENT_MONITOR_FILTER
  then (__handle_event_filter client event w).1.1
  else OPRT_NOT_SUPPORTED.

(** The acknowledgement of an event. *)
Definition event_ack (client : ai_monitor_client_t) (sid eid : list Z)
  (event : AI_EVENT_ATTR_T) (event_type : Z) (status : OPERATE_RET) : sent_t :=
  SentBasic (fd client) AI_MONITOR_DIR_ACK
    (mk_send_packet AI_PT_EVENT
       [mk_attr AI_ATTR_SESSION_ID (ATTR_PT_STR sid);
        mk_attr AI_ATTR_EVENT_ID (ATTR_PT_STR eid);
        mk_attr AI_ATTR_USER_DATA
          (ATTR_PT_BYTES (take (Z.to_nat (user_len event)) (user_data event)))]
       (be_encode 2 event_type ++ be_encode 2 4 ++ be_encode 4 (u32 status))).

(** [c'] is the slot [c] with at most its subscriptions and the time
    of its last ping changed. *)
Definition same_slot_identity (c c' : ai_monitor_client_t) : Prop :=
  fd c' = fd c /\ addr c' = addr c /\ connected c' = connected c
  /\ sequence c' = sequence c /\ recv_buf c' = recv_buf c
  /\ recv_buf_size c' = recv_buf_size c /\ recv_len c' = recv_len c
  /\ (length (registered_types c) = 8%nat -> length (registered_types c') = 8%nat).

(** All steps of creating and registering the listening socket work. *)
Definition listen_succeeds (e : tick_env) : Prop :=
  iot_activated e = true
  /\ 0 <= socket_create e /\ 0 <= set_reuse e /\ 0 <= bind_status e
  /\ 0 <= listen_status e /\ reg_lan_sock e = OPRT_OK.

(** All platform calls of init work. *)
Definition init_succeeds (e : init_env) : Prop :=
  sock_loop_init e = OPRT_OK /\ malloc_clients e = true
  /\ mutex_create e = OPRT_OK /\ timer_create e = OPRT_OK
  /\ biz_register e = OPRT_OK.

(* ================================================================= *)
(** * Properties *)

(** ** Machine integers and bits *)

Lemma u32_small x : 0 <= x < 2 ^ 32 -> u32 x = x.
Proof. intros. unfold u32. apply Z.mod_small. lia. Qed.

Lemma u16_small x : 0 <= x < 2 ^ 16 -> u16 x = x.
Proof. intros. unfold u16. apply Z.mod_small. lia. Qed.

Lemma land_bit_test x k :
  0 <= k -> (Z.land x (Z.shiftl 1 k) =? 0) = negb (Z.testbit x k).
Proof.
  intros Hk. rewrite Z.shiftl_1_l.
  destruct (Z.testbit x k) eqn:E; simpl.
  - apply Z.eqb_neq. intros Hz.
    assert (Hb : Z.testbit (Z.land x (2 ^ k)) k = true).
    { rewrite Z.land_spec, E, Z.pow2_bits_true by lia. reflexivity. }
    rewrite Hz, Z.bits_0 in Hb. discriminate.
  - apply Z.eqb_eq. apply Z.bits_inj'. intros n Hn.
    rewrite Z.land_spec, Z.bits_0, Z.pow2_bits_eqb by lia.
    destruct (Z.eqb_spec k n) as [->|]; [rewrite E|]; 
      rewrite ?andb_false_r; reflexivity.
Qed.

(** ** Writer adapter: outbound sequence numbers *)

Lemma get_sequence_step cfg :
  1 <= sequence_out cfg <= 65535 ->
  sequence_out (snd (__default_update AI_STAGE_GET_SEQUENCE cfg))
  = sequence_out cfg mod 65535 + 1.
Proof.
  intros Hr. cbn [__default_update snd set_sequence_out sequence_out].
  destruct (Z.eq_dec (sequence_out cfg) 65535) as [->|Hne].
  - reflexivity.
  - rewrite u16_small by lia.
    destruct (Z.eqb_spec (sequence_out cfg + 1) 0); [lia|].
    rewrite Z.mod_small by lia. reflexivity.
Qed.

Lemma after_get_sequence_out n : forall cfg,
  1 <= sequence_out cfg <= 65535 ->
  sequence_out (after_get_sequence n cfg)
  = (sequence_out cfg - 1 + Z.of_nat n) mod 65535 + 1.
Proof.
  induction n as [|n IH]; intros cfg Hr.
  - cbn [after_get_sequence]. rewrite Z.add_0_r, Z.mod_small by lia. lia.
  - cbn [after_get_sequence].
    assert (Hs := get_sequence_step cfg Hr).
    assert (Hm : 0 <= sequence_out cfg mod 65535 < 65535)
      by (apply Z.mod_pos_bound; lia).
    rewrite IH by lia. rewrite Hs. f_equal.
    replace (sequence_out cfg mod 65535 + 1 - 1 + Z.of_nat n)
      with (Z.of_nat n + sequence_out cfg mod 65535) by lia.
    rewrite Z.add_mod_idemp_r by lia. f_equal. lia.
Qed.

(** C3: from the initial writer configuration the [n]-th GET_SEQUENCE
    call (counting from 0) returns [n mod 65535 + 1], so the returned
    values run 1, 2, ..., 65535, 1, 2, ...; each lies in [1, 65535] and
    none is 0. *)
Theorem get_sequence_cycle (n : nat) :
  get_sequence (after_get_sequence n s_monitor_writer_cfg)
  = Z.of_nat n mod 65535 + 1
  /\ 1 <= get_sequence (after_get_sequence n s_monitor_writer_cfg) <= 65535
  /\ get_sequence (after_get_sequence n s_monitor_writer_cfg) <> 0.
Proof.
  assert (He : get_sequence (after_get_sequence n s_monitor_writer_cfg)
               = Z.of_nat n mod 65535 + 1).
  { unfold get_sequence. cbn [__default_update fst].
    rewrite after_get_sequence_out by (cbn; lia).
    change (sequence_out s_monitor_writer_cfg) with 1.
    replace (1 - 1 + Z.of_nat n) with (Z.of_nat n) by lia. reflexivity. }
  assert (Hm : 0 <= Z.of_nat n mod 65535 < 65535)
    by (apply Z.mod_pos_bound; lia).
  rewrite He. lia.
Qed.

(** ** Client table: the subscription bitmap *)

Lemma registered_types_clear c :
  registered_types (__client_register_clear c) = replicate 8 0.
Proof. reflexivity. Qed.

Lemma is_registered_clear c type :
  0 <= type -> __is_client_registered (__client_register_clear c) type = false.
Proof.
  intros Ht. unfold __is_client_registered.
  destruct (_ || _); [reflexivity|].
  unfold reg_byte. rewrite registered_types_clear.
  destruct (replicate 8 0 !! Z.to_nat (type / 8)) as [b|] eqn:E.
  - apply lookup_replicate in E as [-> _]. reflexivity.
  - reflexivity.
Qed.

Lemma register_connected c type :
  connected (snd (__client_register c type)) = connected c.
Proof. unfold __client_register. destruct (_ || _); reflexivity. Qed.

Lemma register_length c type :
  length (registered_types (snd (__client_register c type)))
  = length (registered_types c).
Proof.
  unfold __client_register. destruct (_ || _); [reflexivity|].
  cbn. apply length_insert.
Qed.

(** Registering [type] adds exactly that type to the subscription set. *)
Lemma is_registered_register c type type' :
  connected c = true -> length (registered_types c) = 8%nat ->
  0 <= type < 64 -> 0 <= type' ->
  __is_client_registered (snd (__client_register c type)) type'
  = (type' =? type) || __is_client_registered c type'.
Proof.
  intros Hc Hl Ht Ht'.
  unfold __is_client_registered. rewrite register_connected, Hc.
  unfold REGISTERED_BITS. cbn [negb orb]. rewrite !orb_false_r.
  destruct (Z.leb_spec 64 type') as [Hbig|Hsmall].
  { destruct (Z.eqb_spec type' type); [lia|reflexivity]. }
  unfold __client_register, REGISTERED_BITS. rewrite Hc.
  destruct (Z.leb_spec 64 type) as [|_]; [lia|]. cbn [negb orb snd].
  assert (Hm : 0 <= type mod 8 < 8) by (apply Z.mod_pos_bound; lia).
  assert (Hm' : 0 <= type' mod 8 < 8) by (apply Z.mod_pos_bound; lia).
  assert (Hd : 0 <= type / 8 < 8) by (split; [apply Z.div_pos|apply Z.div_lt_upper_bound]; lia).
  assert (Hd' : 0 <= type' / 8 < 8) by (split; [apply Z.div_pos|apply Z.div_lt_upper_bound]; lia).
  rewrite !land_bit_test by lia. rewrite !negb_involutive.
  unfold reg_byte at 1. cbn [registered_types set_registered_types].
  destruct (Z.eq_dec (type' / 8) (type / 8)) as [Heq|Hne].
  - rewrite Heq, list_lookup_insert_eq by lia. cbn [default from_option id].
    unfold u8. rewrite Z.mod_pow2_bits_low by lia.
    rewrite Z.lor_spec, Z.shiftl_1_l, Z.pow2_bits_eqb by lia.
    rewrite orb_comm. f_equal.
    destruct (Z.eqb_spec (type mod 8) (type' mod 8)) as [Hmm|Hmm];
      destruct (Z.eqb_spec type' type) as [He|He]; try reflexivity.
    + exfalso. apply He.
      rewrite (Z.div_mod type' 8), (Z.div_mod type 8) by lia. lia.
    + subst. lia.
  - rewrite list_lookup_insert_ne by lia.
    destruct (Z.eqb_spec type' type) as [->|]; [lia|reflexivity].
Qed.

Lemma register_if_set_connected bitmap type c :
  connected (register_if_set bitmap type c) = connected c.
Proof.
  unfold register_if_set. destruct (negb _); [apply register_connected|reflexivity].
Qed.

Lemma register_if_set_length bitmap type c :
  length (registered_types (register_if_set bitmap type c))
  = length (registered_types c).
Proof.
  unfold register_if_set. destruct (negb _); [apply register_length|reflexivity].
Qed.

Lemma is_registered_register_if_set bitmap c type type' :
  connected c = true -> length (registered_types c) = 8%nat ->
  0 <= type < 64 -> 0 <= type' ->
  __is_client_registered (register_if_set bitmap type c) type'
  = (Z.testbit bitmap type && (type' =? type)) || __is_client_registered c type'.
Proof.
  intros Hc Hl Ht Ht'. unfold register_if_set.
  rewrite land_bit_test, negb_involutive by lia.
  destruct (Z.testbit bitmap type).
  - rewrite is_registered_register by assumption. reflexivity.
  - reflexivity.
Qed.

(** ** Inbound handler: MONITOR_FILTER *)

Lemma subscribable_spec type :
  bool_decide (type ∈ subscribable)
  = (type =? AI_PT_VIDEO) || (type =? AI_PT_AUDIO) || (type =? AI_PT_IMAGE)
    || (type =? AI_PT_FILE) || (type =? AI_PT_TEXT) || (type =? AI_PT_EVENT)
    || (type =? AI_PT_CUSTOM_LOG).
Proof.
  unfold subscribable.
  destruct (decide (type ∈ [AI_PT_VIDEO; AI_PT_AUDIO; AI_PT_IMAGE; AI_PT_FILE;
                            AI_PT_TEXT; AI_PT_EVENT; AI_PT_CUSTOM_LOG])) as [Hin|Hout].
  - rewrite bool_decide_eq_true_2 by assumption. symmetry.
    rewrite !elem_of_cons, elem_of_nil in Hin.
    rewrite !orb_true_iff, !Z.eqb_eq. tauto.
  - rewrite bool_decide_eq_false_2 by assumption. symmetry.
    rewrite !elem_of_cons, elem_of_nil in Hout.
    rewrite !orb_false_iff, !Z.eqb_neq. tauto.
Qed.

(** C4: after a MONITOR_FILTER event whose 8 bytes of user data decode
    to the bitmap B, a connected slot is subscribed to a packet type
    exactly when the bit of that type is set in B and the type is one of
    video, audio, image, file, text, event, custom_log; the log output
    term is registered when the custom_log bit of B is set and
    unregistered when it is clear. *)
Theorem filter_sets_subscriptions (client : ai_monitor_client_t)
  (event : AI_EVENT_ATTR_T) (w : world) :
  connected client = true ->
  user_len event = 8 ->
  let B := be_decode (take 8 (user_data event)) in
  let r := __handle_event_filter client event w in
  r.1.1 = OPRT_OK
  /\ (forall type, 0 <= type ->
        __is_client_registered r.1.2 type
        = Z.testbit B type && bool_decide (type ∈ subscribable))
  /\ log_term r.2 = Z.testbit B AI_PT_CUSTOM_LOG.
Proof.
  intros Hc Hlen B r. subst r. unfold __handle_event_filter.
  rewrite Hlen. cbn [Z.eqb Pos.eqb negb]. fold B.
  set (c0 := __client_register_clear client).
  set (c1 := register_if_set B AI_PT_VIDEO c0).
  set (c2 := register_if_set B AI_PT_AUDIO c1).
  set (c3 := register_if_set B AI_PT_IMAGE c2).
  set (c4 := register_if_set B AI_PT_FILE c3).
  set (c5 := register_if_set B AI_PT_TEXT c4).
  set (c6 := register_if_set B AI_PT_EVENT c5).
  assert (H0 : connected c0 = true /\ length (registered_types c0) = 8%nat)
    by (split; [exact Hc|reflexivity]).
  assert (H1 : connected c1 = true /\ length (registered_types c1) = 8%nat)
    by (subst c1; rewrite register_if_set_connected, register_if_set_length; exact H0).
  assert (H2 : connected c2 = true /\ length (registered_types c2) = 8%nat)
    by (subst c2; rewrite register_if_set_connected, register_if_set_length; exact H1).
  assert (H3 : connected c3 = true /\ length (registered_types c3) = 8%nat)
    by (subst c3; rewrite register_if_set_connected, register_if_set_length; exact H2).
  assert (H4 : connected c4 = true /\ length (registered_types c4) = 8%nat)
    by (subst c4; rewrite register_if_set_connected, register_if_set_length; exact H3).
  assert (H5 : connected c5 = true /\ length (registered_types c5) = 8%nat)
    by (subst c5; rewrite register_if_set_connected, register_if_set_length; exact H4).
  assert (H6 : connected c6 = true /\ length (registered_types c6) = 8%nat)
    by (subst c6; rewrite register_if_set_connected, register_if_set_length; exact H5).
  assert (Hsix : forall type, 0 <= type ->
            __is_client_registered c6 type
            = Z.testbit B type
              && ((type =? AI_PT_VIDEO) || (type =? AI_PT_AUDIO) || (type =? AI_PT_IMAGE)
                  || (type =? AI_PT_FILE) || (type =? AI_PT_TEXT) || (type =? AI_PT_EVENT))).
  { intros type Ht. subst c6 c5 c4 c3 c2 c1.
    rewrite !is_registered_register_if_set
      by (first [tauto | unfold AI_PT_VIDEO, AI_PT_AUDIO, AI_PT_IMAGE, AI_PT_FILE,
                           AI_PT_TEXT, AI_PT_EVENT; lia]).
    subst c0. rewrite is_registered_clear by assumption.
    repeat match goal with
           | |- context [type =? ?k] =>
               destruct (Z.eqb_spec type k) as [->|]
           end;
      rewrite ?andb_true_r, ?andb_false_r, ?orb_false_r, ?orb_true_r; reflexivity. }
  rewrite land_bit_test, negb_involutive by (unfold AI_PT_CUSTOM_LOG; lia).
  destruct (Z.testbit B AI_PT_CUSTOM_LOG) eqn:Hlog; cbn [fst snd];
    (split; [reflexivity|split; [|reflexivity]]); intros type Ht;
    rewrite subscribable_spec.
  - rewrite is_registered_register
      by (first [tauto | unfold AI_PT_CUSTOM_LOG; lia]).
    rewrite Hsix by assumption.
    destruct (Z.eqb_spec type AI_PT_CUSTOM_LOG) as [->|].
    + rewrite Hlog, orb_true_r. reflexivity.
    + rewrite orb_false_r. reflexivity.
  - rewrite Hsix by assumption.
    destruct (Z.eqb_spec type AI_PT_CUSTOM_LOG) as [->|].
    + rewrite Hlog. reflexivity.
    + rewrite orb_false_r. reflexivity.
Qed.

Lemma filter_sets_subscriptions_witness :
  connected (sample_client 64 []) = true
  /\ user_len (mk_event_attr (Some []) (Some []) 8 [0; 0; 0; 4; 0; 0; 0; 0]) = 8
  /\ __is_client_registered
       (__handle_event_filter (sample_client 64 [])
          (mk_event_attr (Some []) (Some []) 8 [0; 0; 0; 4; 0; 0; 0; 0])
          (world0 0)).1.2 AI_PT_TEXT
     = Z.testbit (be_decode (take 8 [0; 0; 0; 4; 0; 0; 0; 0])) AI_PT_TEXT
       && bool_decide (AI_PT_TEXT ∈ subscribable).
Proof.
  split; [reflexivity|]. split; [reflexivity|].
  apply (filter_sets_subscriptions (sample_client 64 [])
           (mk_event_attr (Some []) (Some []) 8 [0; 0; 0; 4; 0; 0; 0; 0])
           (world0 0) eq_refl eq_refl).
  unfold AI_PT_TEXT. lia.
Defined.

(** C9: a MONITOR_FILTER event whose user data is not 8 bytes long is
    refused with the invalid-parameter code, and neither the slot (its
    subscription bitmap included) nor the log output term changes. *)
Theorem filter_rejects_bad_length (client : ai_monitor_client_t)
  (event : AI_EVENT_ATTR_T) (w : world) :
  user_len event <> 8 ->
  __handle_event_filter client event w = (OPRT_INVALID_PARM, client, w).
Proof.
  intros Hne. unfold __handle_event_filter.
  destruct (Z.eqb_spec (user_len event) 8) as [He|_]; [contradiction|reflexivity].
Qed.

Lemma filter_rejects_bad_length_witness :
  user_len (mk_event_attr (Some []) (Some []) 4 [0; 0; 0; 4]) <> 8
  /\ __handle_event_filter (sample_client 64 [])
       (mk_event_attr (Some []) (Some []) 4 [0; 0; 0; 4]) (world0 0)
     = (OPRT_INVALID_PARM, sample_client 64 [], world0 0).
Proof.
  assert (Hne : user_len (mk_event_attr (Some []) (Some []) 4 [0; 0; 0; 4]) <> 8)
    by (cbn; lia).
  split; [exact Hne|].
  exact (filter_rejects_bad_length (sample_client 64 [])
           (mk_event_attr (Some []) (Some []) 4 [0; 0; 0; 4]) (world0 0) Hne).
Defined.

(** ** Fan-out dispatcher *)

Section FanOutFacts.
Context `{AiProtocol}.

Lemma writer_update_wire w to_fd dir :
  wire (AI_MONITOR_WRITER_UPDATE w to_fd dir) = wire w.
Proof. reflexivity. Qed.

(** A send to a slot adds one request, addressed to the slot's fd. *)
Lemma pack_and_send_wire client dir id attr head data w :
  connected client = true ->
  exists req,
    wire (__pack_and_send client dir id attr head data w).2 = wire w ++ [req]
    /\ sent_fd req = fd client.
Proof.
  intros Hc. unfold __pack_and_send. rewrite Hc. cbn [negb].
  unfold tuya_ai_send_biz_pkt_custom, encoder_send.
  eexists. destruct (negb _); cbn [snd wire]; split; reflexivity.
Qed.

Lemma fan_out_wire cs : forall dir id attr head data ret w,
  exists new,
    wire (fan_out cs dir id attr head data ret w).2 = wire w ++ new
    /\ Forall (live_slot cs (biz_type attr)) new.
Proof.
  induction cs as [|c cs IH]; intros dir id attr head data ret w.
  - exists []. cbn. rewrite app_nil_r. split; [reflexivity|constructor].
  - assert (Hmono : forall req, live_slot cs (biz_type attr) req ->
                                live_slot (c :: cs) (biz_type attr) req).
    { intros req (c' & Hin & Hrest). exists c'. split; [now right|exact Hrest]. }
    cbn [fan_out].
    destruct (connected c) eqn:Hc; cbn [negb orb].
    2:{ destruct (IH dir id attr head data ret w) as (new & Hw & Hall).
        exists new. split; [exact Hw|]. eapply Forall_impl; eauto. }
    destruct (Z.ltb_spec (fd c) 0) as [Hneg|Hfd].
    { destruct (IH dir id attr head data ret w) as (new & Hw & Hall).
      exists new. split; [exact Hw|]. eapply Forall_impl; eauto. }
    destruct (__is_client_registered c (biz_type attr)) eqn:Hreg; cbn [negb].
    2:{ destruct (IH dir id attr head data ret w) as (new & Hw & Hall).
        exists new. split; [exact Hw|]. eapply Forall_impl; eauto. }
    destruct (pack_and_send_wire c dir id attr head data w Hc) as (req & Hw1 & Hfd1).
    destruct (__pack_and_send c dir id attr head data w) as [ret' w'].
    cbn [snd] in Hw1.
    destruct (IH dir id attr head data ret' w') as (new & Hw & Hall).
    exists (req :: new). split.
    + rewrite Hw, Hw1, <- app_assoc. reflexivity.
    + constructor.
      * exists c. repeat split; [now left|assumption..].
      * eapply Forall_impl; eauto.
Qed.

End FanOutFacts.

(** C10: the subscription query answers false, and the set operation
    refuses with the invalid-parameter code and changes nothing, whenever
    the type is 64 or more or the slot is not connected; so whenever
    either of them reaches the bitmap the cell [type / 8] is one of its
    eight cells and the bit [type mod 8] one of its eight bits; and every
    request a fan-out adds to the wire is addressed to a connected slot
    with a valid descriptor that is subscribed to the packet's type. *)
Theorem subscription_guards `{AiProtocol} :
  (forall c type,
     64 <= type \/ connected c = false ->
     __is_client_registered c type = false
     /\ __client_register c type = (OPRT_INVALID_PARM, c))
  /\ (forall c type,
        0 <= type -> length (registered_types c) = 8%nat ->
        (REGISTERED_BITS <=? type) || negb (connected c) = false ->
        registered_types c !! Z.to_nat (type / 8) = Some (reg_byte c (type / 8))
        /\ 0 <= type / 8 < 8 /\ 0 <= type mod 8 < 8)
  /\ (forall dir id attr head data server w,
        exists new,
          wire (__ai_biz_handler dir id attr head data server w).2 = wire w ++ new
          /\ Forall (fun req =>
                       exists c, c ∈ clients server /\ connected c = true
                                 /\ sent_fd req = fd c) new).
Proof.
  split; [|split].
  - intros c type Hbad.
    assert (Hg : (REGISTERED_BITS <=? type) || negb (connected c) = true).
    { apply orb_true_iff. destruct Hbad as [Hbig| ->]; [left|right; reflexivity].
      apply Z.leb_le. exact Hbig. }
    unfold __is_client_registered, __client_register. rewrite Hg. split; reflexivity.
  - intros c type Ht Hl Hg.
    apply orb_false_iff in Hg as [Hlt _]. apply Z.leb_gt in Hlt.
    unfold REGISTERED_BITS in Hlt.
    assert (Hd : 0 <= type / 8 < 8)
      by (split; [apply Z.div_pos|apply Z.div_lt_upper_bound]; lia).
    split; [|split; [exact Hd|apply Z.mod_pos_bound; lia]].
    unfold reg_byte.
    destruct (lookup_lt_is_Some_2 (registered_types c) (Z.to_nat (type / 8)))
      as [b Hb]; [lia|].
    rewrite Hb. reflexivity.
  - intros dir id attr head data server w. unfold __ai_biz_handler.
    destruct attr as [attr|], head as [head|];
      try (exists []; cbn [snd]; rewrite app_nil_r; split; [reflexivity|constructor]).
    destruct (_ && _).
    { exists []. cbn [snd]. rewrite app_nil_r. split; [reflexivity|constructor]. }
    destruct (fan_out_wire
                (take (Z.to_nat (max_clients (config server))) (clients server))
                dir id attr head data OPRT_OK w) as (new & Hw & Hall).
    exists new. split; [exact Hw|].
    eapply Forall_impl; [|exact Hall].
    intros req (c & Hin & Hc & _ & _ & Hfd). exists c.
    split; [|split; assumption].
    apply elem_of_take in Hin as (i & Hi & _).
    eapply list_elem_of_lookup_2. exact Hi.
Qed.

(** C5: a head with [total_len > 0] and [total_len <> len] makes the
    common fan-out handler, and so the recv and the send hook, return
    "not supported", for every direction and every server; the broadcast
    entry point, which reaches the handler only when the service is
    initialized and running, returns it then (its own guard answers
    invalid-parameter before, as the handler's guard does for a NULL
    attr); in each case, whatever attr is, nothing is handed to the
    encoder and the writer is left as it was.  The handlers only read
    the client table. *)
Theorem fragmented_fan_out_rejected `{AiProtocol} (dir id : Z)
  (attr : AI_BIZ_ATTR_INFO_T) (head : AI_BIZ_HEAD_INFO_T) (data : list Z)
  (server : ai_monitor_server_t) (w : world) :
  fragmented head ->
  __ai_biz_handler dir id (Some attr) (Some head) data server w
    = (OPRT_NOT_SUPPORTED, w)
  /\ __ai_biz_recv_handler id (Some attr) (Some head) data server w
    = (OPRT_NOT_SUPPORTED, w)
  /\ __ai_biz_send_handler id (Some attr) (Some head) data server w
    = (OPRT_NOT_SUPPORTED, w)
  /\ tuya_ai_monitor_broadcast id (Some attr) (Some head) data server w
    = (if initialized server && running server
       then OPRT_NOT_SUPPORTED else OPRT_INVALID_PARM, w)
  /\ __ai_biz_handler dir id None (Some head) data server w
    = (OPRT_INVALID_PARM, w)
  /\ (forall oattr,
        (__ai_biz_handler dir id oattr (Some head) data server w).2 = w
        /\ (tuya_ai_monitor_broadcast id oattr (Some head) data server w).2 = w).
Proof.
  intros [Hpos Hne].
  assert (Hfrag : (0 <? total_len head) && negb (total_len head =? len head) = true).
  { apply andb_true_iff. split; [apply Z.ltb_lt; exact Hpos|].
    apply negb_true_iff, Z.eqb_neq. exact Hne. }
  assert (Hh : forall d a, __ai_biz_handler d id (Some a) (Some head) data server w
                           = (OPRT_NOT_SUPPORTED, w)).
  { intros d a. unfold __ai_biz_handler. rewrite Hfrag. reflexivity. }
  repeat split.
  - apply Hh.
  - apply Hh.
  - apply Hh.
  - unfold tuya_ai_monitor_broadcast. rewrite Hh.
    destruct (initialized server), (running server); reflexivity.
  - destruct oattr; [rewrite Hh|]; reflexivity.
  - unfold tuya_ai_monitor_broadcast.
    destruct (negb (initialized server) || negb (running server)); [reflexivity|].
    destruct oattr; [rewrite Hh|]; reflexivity.
Qed.

Lemma fragmented_fan_out_rejected_witness :
  fragmented (mk_biz_head 0 2048 512)
  /\ __ai_biz_send_handler 5 (Some (mk_biz_attr 1 AI_PT_TEXT event_attr_zero))
       (Some (mk_biz_head 0 2048 512)) []
       (sample_server text_subscriber) (world0 0)
     = (OPRT_NOT_SUPPORTED, world0 0).
Proof.
  assert (Hf : fragmented (mk_biz_head 0 2048 512)) by (split; cbn; lia).
  split; [exact Hf|].
  exact (proj1 (proj2 (proj2
           (fragmented_fan_out_rejected AI_MONITOR_DIR_US 5
              (mk_biz_attr 1 AI_PT_TEXT event_attr_zero) (mk_biz_head 0 2048 512) []
              (sample_server text_subscriber) (world0 0) Hf)))).
Defined.

(** The same packet in one piece reaches the subscribed slot, with the
    direction of the send hook; an AUDIO packet does not. *)
Example fan_out_reaches_subscriber :
  (__ai_biz_send_handler 5 (Some (mk_biz_attr 1 AI_PT_TEXT event_attr_zero))
     (Some (mk_biz_head 0 512 512)) [] (sample_server text_subscriber) (world0 0)).2.(wire)
  = [SentBiz 7 AI_MONITOR_DIR_US 5 (mk_biz_attr 1 AI_PT_TEXT event_attr_zero)
       (mk_biz_head 0 512 512) []]
  /\ (__ai_biz_send_handler 1 (Some (mk_biz_attr 1 AI_PT_AUDIO event_attr_zero))
        (Some (mk_biz_head 0 512 512)) [] (sample_server text_subscriber) (world0 0)).2.(wire)
     = [].
Proof. split; reflexivity. Qed.

(** ** Frame codec: the sync-word scan *)

Lemma read_bytes_drop buf p off n :
  0 <= p <= Z.of_nat (length buf) -> 0 <= off ->
  read_bytes (drop (Z.to_nat p) buf) off n = read_bytes buf (p + off) n.
Proof.
  intros Hp Hoff. unfold read_bytes. rewrite length_drop, drop_drop.
  replace (Z.to_nat p + Z.to_nat off)%nat with (Z.to_nat (p + off)) by lia.
  destruct (Z.leb_spec 0 off); [|lia].
  destruct (Z.leb_spec 0 (p + off)); [|lia].
  destruct (Z.leb_spec 0 n); cbn [andb]; [|reflexivity].
  destruct (Z.leb_spec (off + n) (Z.of_nat (length buf - Z.to_nat p)));
    destruct (Z.leb_spec (p + off + n) (Z.of_nat (length buf)));
    try reflexivity; lia.
Qed.

Lemma memcmp_magic_true data offset :
  read_bytes data offset 4 = Some MAGIC_BYTES ->
  memcmp_magic data offset = Some true.
Proof.
  intros Hr. unfold memcmp_magic. rewrite Hr. cbn [mbind option_bind].
  rewrite bool_decide_eq_true_2; reflexivity.
Qed.

Lemma memcmp_magic_false data offset bs :
  read_bytes data offset 4 = Some bs -> bs <> MAGIC_BYTES ->
  memcmp_magic data offset = Some false.
Proof.
  intros Hr Hne. unfold memcmp_magic. rewrite Hr. cbn [mbind option_bind].
  rewrite bool_decide_eq_false_2; [reflexivity|assumption].
Qed.

(** A scan that starts at [offset] answers "not found" or an offset at
    or after its start. *)
Lemma sync_scan_result data n : forall offset r,
  (sync_scan data n offset).2 = Some r ->
  r = OPRT_NOT_FOUND \/ offset <= r.
Proof.
  induction n as [|n IH]; intros offset r Hr; cbn [sync_scan] in Hr.
  - left. cbn in Hr. congruence.
  - destruct (memcmp_magic data offset) as [[|]|]; cbn [snd] in Hr.
    + right. injection Hr as <-. lia.
    + destruct (sync_scan data n (offset + 1)) as [probes r'] eqn:E.
      cbn [snd] in Hr. subst r'.
      destruct (IH (offset + 1) r) as [->|Hle]; [rewrite E; reflexivity|now left|right; lia].
    + discriminate.
Qed.

(** A scan that answers "not found" has compared at every offset it was
    asked to try. *)
Lemma sync_scan_probes data n : forall offset k,
  0 <= offset ->
  (sync_scan data n offset).2 = Some OPRT_NOT_FOUND ->
  (k < n)%nat ->
  offset + Z.of_nat k ∈ (sync_scan data n offset).1.
Proof.
  induction n as [|n IH]; intros offset k Ho Hr Hk; [lia|].
  cbn [sync_scan] in *.
  destruct (memcmp_magic data offset) as [[|]|]; cbn [snd] in Hr.
  - injection Hr as Hr. unfold OPRT_NOT_FOUND in Hr. lia.
  - destruct (sync_scan data n (offset + 1)) as [probes r'] eqn:E.
    cbn [fst snd] in *. subst r'.
    destruct k as [|k].
    + rewrite Z.add_0_r. now left.
    + right. specialize (IH (offset + 1) k). rewrite E in IH. cbn [fst snd] in IH.
      replace (offset + Z.of_nat (S k)) with (offset + 1 + Z.of_nat k) by lia.
      apply IH; [lia|reflexivity|lia].
  - discriminate.
Qed.

Lemma find_sync_at_magic data len :
  0 <= len -> read_bytes data 0 4 = Some MAGIC_BYTES ->
  __find_sync_frame data len = Some 0.
Proof.
  intros Hlen Hr. unfold __find_sync_frame.
  replace (Z.to_nat (len + 1)) with (S (Z.to_nat len)) by lia.
  cbn [sync_scan]. rewrite (memcmp_magic_true _ _ Hr). reflexivity.
Qed.

Lemma find_sync_not_at_head data len bs r :
  read_bytes data 0 4 = Some bs -> bs <> MAGIC_BYTES ->
  __find_sync_frame data len = Some r ->
  r <> OPRT_OK.
Proof.
  intros Hr Hne Hf. unfold __find_sync_frame in Hf.
  destruct (Z.to_nat (len + 1)) as [|n]; cbn [sync_scan] in Hf.
  - cbn in Hf. injection Hf as <-. discriminate.
  - rewrite (memcmp_magic_false _ _ _ Hr Hne) in Hf.
    destruct (sync_scan data n (0 + 1)) as [probes r'] eqn:E. cbn [snd] in Hf. subst r'.
    destruct (sync_scan_result data n (0 + 1) r) as [->|Hle];
      [rewrite E; reflexivity|discriminate|].
    unfold OPRT_OK. lia.
Qed.

(** C8 on the code: the scan compares four bytes at every offset up to
    and including [len].  It always compares at offset 0, whatever [len]
    is; when nothing is found it has compared at offset [len] itself,
    touching the bytes [len .. len+3]; on a one-byte buffer it compares
    at offsets 0 and 1, and when the allocation ends with the data the
    comparison leaves it. *)
Theorem find_sync_compares_past_len :
  (forall data len, 0 <= len -> exists rest, find_sync_probes data len = 0 :: rest)
  /\ (forall data len,
        0 <= len -> __find_sync_frame data len = Some OPRT_NOT_FOUND ->
        len ∈ find_sync_probes data len)
  /\ find_sync_probes [0x5A; 0; 0; 0; 0] 1 = [0; 1]
  /\ __find_sync_frame [0x5A] 1 = None.
Proof.
  split; [|split; [|split; reflexivity]].
  - intros data len Hlen. unfold find_sync_probes.
    replace (Z.to_nat (len + 1)) with (S (Z.to_nat len)) by lia.
    cbn [sync_scan].
    destruct (memcmp_magic data 0) as [[|]|]; cbn [fst]; eauto.
    destruct (sync_scan data (Z.to_nat len) (0 + 1)) as [probes r]. cbn [fst]. eauto.
  - intros data len Hlen Hnf. unfold find_sync_probes, __find_sync_frame in *.
    pose proof (sync_scan_probes data (Z.to_nat (len + 1)) 0 (Z.to_nat len)) as Hp.
    replace (0 + Z.of_nat (Z.to_nat len)) with len in Hp by lia.
    apply Hp; [lia|exact Hnf|lia].
Qed.

(** ** Frame codec: the framing loop *)

Ltac u32_norm :=
  repeat match goal with
         | |- context [u32 ?x] => rewrite (u32_small x) by lia
         end.

Lemma be_decode_nonneg bs : Forall (fun b => 0 <= b) bs -> 0 <= be_decode bs.
Proof.
  unfold be_decode. intros Hbs.
  assert (Hgen : forall acc, 0 <= acc ->
            0 <= fold_left (fun acc b => acc * 256 + b) bs acc).
  { induction Hbs as [|b bs Hb Hbs IH]; intros acc Hacc; cbn [fold_left]; [exact Hacc|].
    apply IH. lia. }
  apply Hgen. lia.
Qed.

Lemma read_be32_nonneg buf off v :
  Forall (fun b => 0 <= b) buf -> read_be32 buf off = Some v -> 0 <= v.
Proof.
  intros Hbuf. unfold read_be32, read_bytes.
  destruct (_ && _); [|discriminate]. cbn. intros [= <-].
  apply be_decode_nonneg, Forall_take, Forall_drop, Hbuf.
Qed.

Section FramingFacts.
Context `{AiProtocol} {St : Type}.
Variable parse : St -> list Z -> Z -> option (OPERATE_RET * St).
Hypothesis head_size : 0 <= sizeof_AI_PACKET_HEAD_T.

Lemma header_size : 5 <= sizeof_ai_monitor_header_t.
Proof. unfold sizeof_ai_monitor_header_t. lia. Qed.

Lemma loop_exit fuel buf recv_len p (st : St) :
  recv_len <= p ->
  framing_loop parse fuel buf recv_len p st = Some (p, st).
Proof.
  intros Hp. destruct fuel; cbn [framing_loop];
    destruct (Z.ltb_spec p recv_len); try lia; reflexivity.
Qed.



(** What does not begin with the magic is dropped whole. *)
Lemma loop_no_sync fuel buf recv_len bs r (st : St) :
  0 < recv_len ->
  read_bytes buf 0 4 = Some bs -> bs <> MAGIC_BYTES ->
  __find_sync_frame buf (u32 recv_len) = Some r ->
  framing_loop parse (S fuel) buf recv_len 0 st = Some (recv_len, st).
Proof.
  intros Hlen Hr Hne Hfind. cbn [framing_loop].
  destruct (Z.ltb_spec 0 recv_len); [|lia]. cbn [negb].
  change (drop (Z.to_nat 0) buf) with buf. rewrite Z.sub_0_r, Hfind.
  cbn [mbind option_bind].
  pose proof (find_sync_not_at_head _ _ _ _ Hr Hne Hfind) as Hnz.
  destruct (Z.eqb_spec r OPRT_OK); [contradiction|]. reflexivity.
Qed.


(** Every iteration that goes on advances [processed] by four bytes or
    more, so fuel for a quarter of the bytes left is enough: more fuel
    does not change the result.  [consume_frames] gives the loop
    [recv_len] units. *)
Lemma framing_loop_fuel buf recv_len :
  Forall (fun b => 0 <= b) buf -> recv_len < 2 ^ 32 ->
  forall fuel fuel' p (st : St),
    0 <= p -> recv_len - p <= 4 * Z.of_nat fuel -> (fuel <= fuel')%nat ->
    framing_loop parse fuel' buf recv_len p st
    = framing_loop parse fuel buf recv_len p st.
Proof.
  intros Hbuf Hmax. pose proof header_size as Hh.
  induction fuel as [|fuel IH]; intros fuel' p st Hp Hleft Hle.
  - rewrite !loop_exit by lia. reflexivity.
  - destruct fuel' as [|fuel']; [lia|].
    cbn [framing_loop].
    destruct (Z.ltb_spec p recv_len) as [Hlt|]; [|reflexivity]. cbn [negb].
    destruct (__find_sync_frame _ _) as [ret|]; [|reflexivity].
    cbn [mbind option_bind].
    destruct (Z.eqb_spec ret OPRT_OK) as [->|]; [|reflexivity]. cbn [negb].
    unfold OPRT_OK. rewrite Z.add_0_r. rewrite (u32_small p) by lia.
    rewrite (u32_small (recv_len - p)) by lia.
    destruct (Z.ltb_spec (recv_len - p) (sizeof_ai_monitor_header_t + 4)); [reflexivity|].
    destruct (read_bytes buf p sizeof_ai_monitor_header_t) as [frame|]; [|reflexivity].
    cbn [mbind option_bind].
    destruct (read_be32 buf (p + sizeof_ai_monitor_header_t)) as [pkg_len|] eqn:Hpl;
      [|reflexivity].
    cbn [mbind option_bind].
    pose proof (read_be32_nonneg _ _ _ Hbuf Hpl) as Hnn.
    destruct (negb (frame_accepted frame)).
    + rewrite (u32_small (p + 4)) by lia. apply IH; lia.
    + rewrite (u32_small (p + (sizeof_ai_monitor_header_t + 4))) by lia.
      rewrite (u32_small (recv_len - _)) by lia.
      destruct (Z.ltb_spec (recv_len - (p + (sizeof_ai_monitor_header_t + 4))) pkg_len);
        [reflexivity|].
      destruct (parse st _ pkg_len) as [[rt st']|]; [|reflexivity].
      cbn [mbind option_bind].
      rewrite (u32_small (p + (sizeof_ai_monitor_header_t + 4) + pkg_len)) by lia.
      apply IH; lia.
Qed.

End FramingFacts.

Lemma memmove_front_take buf from n :
  0 <= from -> 0 <= n -> from + n <= Z.of_nat (length buf) ->
  take (Z.to_nat n) (memmove_front buf from n)
  = take (Z.to_nat n) (drop (Z.to_nat from) buf)
  /\ length (memmove_front buf from n) = length buf.
Proof.
  intros Hf Hn Hfit. unfold memmove_front.
  assert (Hl : length (take (Z.to_nat n) (drop (Z.to_nat from) buf)) = Z.to_nat n)
    by (rewrite length_take, length_drop; lia).
  split.
  - rewrite take_app_length'; [|symmetry; exact Hl]. reflexivity.
  - rewrite length_app, Hl, length_drop. lia.
Qed.

(** C1 on the code: when the buffer does not begin with the magic word
    (the leading bytes are garbage) and the scan finds the magic further
    on or not at all, the pass drops every received byte and hands
    nothing to the packet handler: a frame that follows the garbage is
    lost with it. *)
Theorem resync_drops_frame_after_garbage `{AiProtocol} {St : Type}
  (parse : St -> list Z -> Z -> option (OPERATE_RET * St))
  (buf : list Z) (recv_len : Z) (st : St) (bs : list Z) (r : Z) :
  0 < recv_len < 2 ^ 32 ->
  read_bytes buf 0 4 = Some bs -> bs <> MAGIC_BYTES ->
  __find_sync_frame buf recv_len = Some r ->
  consume_frames parse buf recv_len st = Some (buf, 0, st).
Proof.
  intros Hlen Hr Hne Hfind. unfold consume_frames.
  destruct (Z.to_nat recv_len) as [|fuel] eqn:Hfuel; [lia|].
  rewrite (loop_no_sync parse fuel buf recv_len bs r st);
    [|lia|assumption|assumption|rewrite u32_small by lia; assumption].
  cbn [mbind option_bind].
  destruct (Z.ltb_spec 0 recv_len); [|lia].
  destruct (Z.ltb_spec recv_len recv_len); [lia|].
  rewrite Z.sub_diag. reflexivity.
Qed.

Lemma resync_drops_frame_after_garbage_witness :
  let c := sample_client 64
             ([0x5A; 0x5A; 0x5A; 0x5A]
              ++ sample_frame 1 (sample_ping 0x1122334455667788)) in
  __find_sync_frame (recv_buf c) (recv_len c) = Some 4
  /\ consume_frames (parse_for_client 1) (recv_buf c) (recv_len c) (c, world0 1000)
     = Some (recv_buf c, 0, (c, world0 1000)).
Proof.
  cbv zeta. split; [reflexivity|].
  apply (resync_drops_frame_after_garbage (parse_for_client 1) _ _ _
           [0x5A; 0x5A; 0x5A; 0x5A] 4).
  - vm_compute. split; reflexivity.
  - reflexivity.
  - discriminate.
  - reflexivity.
Defined.

(** The read handler on the sample server: a PING frame alone is
    answered with one PONG, while the same frame behind four bytes of
    garbage is dropped with them and nothing is sent. *)
Example read_handler_on_ping_frames :
  (fun r => (fun sw : ai_monitor_server_t * world =>
               (recv_len <$> clients sw.1, wire sw.2)) <$> r)
    (__socket_read_handler 1 (sample_server (sample_client 64 [])) 7
       (RecvData (sample_frame 1 (sample_ping 0x1122334455667788))) (world0 1000))
  = Some ([0; 0; 0], [pong_for (sample_client 64 []) 0 1000])
  /\ (fun r => (fun sw : ai_monitor_server_t * world =>
                  (recv_len <$> clients sw.1, wire sw.2)) <$> r)
       (__socket_read_handler 1 (sample_server (sample_client 64 [])) 7
          (RecvData ([0x5A; 0x5A; 0x5A; 0x5A]
                     ++ sample_frame 1 (sample_ping 0x1122334455667788)))
          (world0 1000))
     = Some ([0; 0; 0], []).
Proof. split; vm_compute; reflexivity. Qed.




(** ** Inbound handler: PING *)

Lemma ping_attr_loop_done `{AiProtocol} fuel attr_buf attr_len offset client_ts :
  attr_len <= offset ->
  ping_attr_loop fuel attr_buf attr_len offset client_ts = Some (inr client_ts).
Proof.
  intros Hle. destruct fuel; cbn [ping_attr_loop];
    destruct (Z.ltb_spec offset attr_len); try lia; reflexivity.
Qed.

Lemma handle_ping_pong `{AiProtocol} client client_ts w :
  exists rt w',
    __handle_ping client client_ts w
    = (rt, set_last_ping_time client (posix_ms w), w')
    /\ wire w' = wire w ++ [pong_for client client_ts (posix_ms w)].
Proof.
  unfold __handle_ping, tuya_ai_basic_pkt_send, encoder_send.
  destruct (negb _); do 2 eexists; split; reflexivity.
Qed.

(** C2 on the code: for a PING packet with an attribute block (of any
    length that does not wrap the 32-bit offset) the attribute loop never
    runs, because its offset already lies past the block; the slot's
    last_ping_time becomes the current clock and one PONG goes out with
    direction ACK and SERVER_TS equal to that clock, but its CLIENT_TS is
    0 whatever CLIENT_TS the ping carried. *)
Theorem ping_echoes_zero_client_ts `{AiProtocol} (fuel : nat)
  (client : ai_monitor_client_t) (data : list Z) (len : Z) (w : world)
  (head : list Z) (attr_len : Z) :
  0 <= sizeof_AI_PAYLOAD_HEAD_T <= len ->
  read_bytes data 0 sizeof_AI_PAYLOAD_HEAD_T = Some head ->
  payload_type head = AI_PT_PING ->
  payload_attribute_flag head = AI_HAS_ATTR ->
  read_be32 data sizeof_AI_PAYLOAD_HEAD_T = Some attr_len ->
  0 <= attr_len -> sizeof_AI_PAYLOAD_HEAD_T + 4 + attr_len < 2 ^ 32 ->
  exists rt w',
    __parse_pkg fuel client data len w
    = Some (rt, set_last_ping_time client (posix_ms w), w')
    /\ wire w' = wire w ++ [pong_for client 0 (posix_ms w)].
Proof.
  intros Hsz Hhead Htype Hflag Hattr Hpos Hfit.
  unfold __parse_pkg.
  destruct (Z.ltb_spec len sizeof_AI_PAYLOAD_HEAD_T); [lia|].
  rewrite Hhead. cbn [mbind option_bind]. rewrite Htype, Hflag.
  rewrite !Z.eqb_refl. cbn [negb].
  rewrite (u32_small sizeof_AI_PAYLOAD_HEAD_T) by lia.
  rewrite Hattr. cbn [mbind option_bind].
  rewrite ping_attr_loop_done by (u32_norm; lia). cbn [mbind option_bind].
  destruct (handle_ping_pong client 0 w) as (rt & w' & Heq & Hwire).
  exists rt, w'. rewrite Heq. split; [reflexivity|exact Hwire].
Qed.

Lemma ping_echoes_zero_client_ts_witness :
  tuya_ai_get_attr_value (drop 5 (sample_ping 0x1122334455667788)) 0
  = (OPRT_OK, 15, mk_attr AI_ATTR_CLIENT_TS (ATTR_PT_U64 0x1122334455667788))
  /\ exists rt w',
       __parse_pkg 1 (sample_client 64 []) (sample_ping 0x1122334455667788) 20
         (world0 1000)
       = Some (rt, set_last_ping_time (sample_client 64 []) 1000, w')
       /\ wire w' = [pong_for (sample_client 64 []) 0 1000].
Proof.
  split; [reflexivity|].
  apply (ping_echoes_zero_client_ts 1 (sample_client 64 [])
           (sample_ping 0x1122334455667788) 20 (world0 1000) [132] 15).
  - cbn. lia.
  - reflexivity.
  - reflexivity.
  - reflexivity.
  - reflexivity.
  - lia.
  - cbn. lia.
Defined.

(** ** Lifecycle controller *)

Ltac srv_simpl :=
  unfold set_server_fd, set_timer, set_running, set_clients; cbn.

Lemma lifecycle_inv_zero : lifecycle_inv server_zero.
Proof. split; cbn; intros; discriminate. Qed.

Lemma lifecycle_inv_uninit cfg :
  lifecycle_inv (mk_server false false cfg 0 [] 0 0 0 false TimerNone).
Proof. split; cbn; intros; discriminate. Qed.

Lemma start_inv s biz :
  initialized s = true -> running s = false -> server_fd s = -1 ->
  timer s = TimerStopped ->
  lifecycle_inv (__ai_monitor_start s biz).2.
Proof.
  intros Hi Hr Hfd Ht. unfold __ai_monitor_start. rewrite Hi, Hr, Ht. cbn [negb].
  destruct (negb (biz =? OPRT_OK)); unfold lifecycle_inv; srv_simpl; rewrite ?Hi.
  - split; [intros; reflexivity|]. intros _. split; [discriminate|].
    split; intros; [lia|discriminate].
  - split; [intros; reflexivity|]. intros _. split; [discriminate|].
    rewrite Hfd. split; intros; [lia|discriminate].
Qed.

Lemma init_inv s cfg e :
  lifecycle_inv s -> lifecycle_inv (tuya_ai_monitor_init s cfg e).2.
Proof.
  intros Hinv. unfold tuya_ai_monitor_init.
  destruct cfg as [cfg|]; [|exact Hinv].
  destruct (initialized s); [exact Hinv|].
  destruct (negb (sock_loop_init e =? OPRT_OK)); [exact Hinv|].
  destruct (negb (malloc_clients e)); [apply lifecycle_inv_uninit|].
  destruct (negb (mutex_create e =? OPRT_OK)); [apply lifecycle_inv_uninit|].
  destruct (negb (timer_create e =? OPRT_OK)); [apply lifecycle_inv_uninit|].
  apply start_inv; reflexivity.
Qed.

Lemma deinit_inv s :
  lifecycle_inv s -> lifecycle_inv (tuya_ai_monitor_deinit s).2.
Proof.
  intros Hinv. unfold tuya_ai_monitor_deinit.
  destruct (initialized s); cbn [negb snd]; [apply lifecycle_inv_zero|exact Hinv].
Qed.

Lemma session_close_all_inv s :
  lifecycle_inv s -> lifecycle_inv (__session_close_all s).
Proof.
  intros [Hrun Hinit]. unfold __session_close_all.
  split.
  - destruct (0 <=? server_fd s); exact Hrun.
  - intros Hi.
    assert (Hi' : initialized s = true) by (destruct (0 <=? server_fd s); exact Hi).
    destruct (Hinit Hi') as [Hnone _].
    assert (Hact : tal_sw_timer_start (timer s) = TimerActive)
      by (destruct (timer s); [contradiction|reflexivity..]).
    destruct (Z.leb_spec 0 (server_fd s)) as [Hfd|Hfd]; srv_simpl; rewrite Hact;
      (split; [discriminate|]); split; intros; (lia || discriminate).
Qed.

Lemma timer_tick_inv s e :
  reg_lan_sock e <= 0 ->
  lifecycle_inv s -> lifecycle_inv (__monitor_tm_cb s e).
Proof.
  intros Hreg [Hrun Hinit]. unfold __monitor_tm_cb.
  destruct (Z.leb_spec 0 (server_fd s)) as [|Hfd]; [split; assumption|].
  destruct (negb (iot_activated e)); [split; assumption|].
  unfold __tcp_create_serv_fd.
  destruct (Z.ltb_spec (server_fd s) 0); [|lia].
  destruct (Z.ltb_spec (__create_server_socket e) 0) as [Hsock|Hsock].
  { change (OPRT_COM_ERROR <? 0) with true. cbv iota. split; assumption. }
  cbn [server_fd set_server_fd].
  destruct (Z.eqb_spec (reg_lan_sock e) OPRT_OK) as [Hok|Hbad]; cbn [negb].
  - destruct (Z.ltb_spec (__create_server_socket e) 0); [lia|].
    split; [exact Hrun|]. srv_simpl. intros Hi. destruct (Hinit Hi) as [Hnone _].
    destruct (timer s); [contradiction|..]; cbn;
      (split; [discriminate|]); split; intros; (lia || reflexivity).
  - unfold OPRT_OK in Hbad.
    destruct (Z.ltb_spec (reg_lan_sock e) 0); [|lia].
    split; [exact Hrun|]. srv_simpl. intros Hi. destruct (Hinit Hi) as [Hnone Hiff].
    split; [exact Hnone|]. split; [lia|].
    intros Hst. apply Hiff in Hst. lia.
Qed.

Lemma reachable_inv s : reachable s -> lifecycle_inv s.
Proof.
  induction 1 as [|s ev Hreach IH Hok].
  - apply lifecycle_inv_zero.
  - destruct ev as [cfg e| |e|]; cbn [lifecycle_step].
    + apply init_inv, IH.
    + apply deinit_inv, IH.
    + apply timer_tick_inv; [exact Hok|exact IH].
    + apply session_close_all_inv, IH.
Qed.

(** C7 as amended: in every reachable state of the lifecycle in which
    the running flag is true, the listening descriptor is >= 0 exactly
    when the periodic creation timer is stopped. *)
Theorem listening_iff_timer_stopped (s : ai_monitor_server_t) :
  reachable s -> running s = true ->
  (0 <= server_fd s <-> timer_stopped s).
Proof.
  intros Hreach Hrun. destruct (reachable_inv s Hreach) as [Hri Hinit].
  destruct (Hinit (Hri Hrun)) as [_ Hiff]. exact Hiff.
Qed.

Lemma listening_iff_timer_stopped_witness :
  running (run_lifecycle [EvInit (Some AI_MONITOR_CFG_DEFAULT) init_ok;
                          EvTimerTick tick_ok]) = true
  /\ (0 <= server_fd (run_lifecycle [EvInit (Some AI_MONITOR_CFG_DEFAULT) init_ok;
                                     EvTimerTick tick_ok])
      <-> timer_stopped (run_lifecycle [EvInit (Some AI_MONITOR_CFG_DEFAULT) init_ok;
                                        EvTimerTick tick_ok])).
Proof.
  split; [reflexivity|].
  apply listening_iff_timer_stopped; [|reflexivity].
  apply (reachable_step
           (lifecycle_step server_zero (EvInit (Some AI_MONITOR_CFG_DEFAULT) init_ok))
           (EvTimerTick tick_ok)).
  - apply (reachable_step server_zero (EvInit (Some AI_MONITOR_CFG_DEFAULT) init_ok));
      [apply reachable_start|exact I].
  - cbn. lia.
Defined.

(** C7 as stated fails after init followed by deinit (and before any
    init): memset leaves the listening descriptor 0, which is >= 0, while
    the running flag is false. *)
Lemma descriptor_zero_after_deinit :
  reachable (run_lifecycle [EvInit (Some AI_MONITOR_CFG_DEFAULT) init_ok; EvDeinit])
  /\ ~ (0 <= server_fd (run_lifecycle [EvInit (Some AI_MONITOR_CFG_DEFAULT) init_ok;
                                       EvDeinit])
        <-> timer_stopped (run_lifecycle [EvInit (Some AI_MONITOR_CFG_DEFAULT) init_ok;
                                          EvDeinit])
            /\ running (run_lifecycle [EvInit (Some AI_MONITOR_CFG_DEFAULT) init_ok;
                                       EvDeinit]) = true).
Proof.
  split.
  - apply (reachable_step
             (lifecycle_step server_zero (EvInit (Some AI_MONITOR_CFG_DEFAULT) init_ok))
             EvDeinit); [|exact I].
    apply (reachable_step server_zero (EvInit (Some AI_MONITOR_CFG_DEFAULT) init_ok));
      [apply reachable_start|exact I].
  - intros [Hfd _].
    assert (H0 : 0 <= server_fd
                        (run_lifecycle [EvInit (Some AI_MONITOR_CFG_DEFAULT) init_ok;
                                        EvDeinit])) by (cbn; lia).
    destruct (Hfd H0) as [_ Hrun]. cbn in Hrun. discriminate.
Qed.

(** ** The read handler and the packet handler *)

(** [__parse_pkg] writes neither the receive buffer nor its fill
    length, as the read handler relies on. *)
Lemma parse_pkg_keeps_buffer `{AiProtocol} fuel client data len w rt c' w' :
  __parse_pkg fuel client data len w = Some (rt, c', w') ->
  recv_buf c' = recv_buf client /\ recv_len c' = recv_len client.
Proof.
  assert (Hreg : forall c t, recv_buf (snd (__client_register c t)) = recv_buf c
                             /\ recv_len (snd (__client_register c t)) = recv_len c).
  { intros c t. unfold __client_register. destruct (_ || _); split; reflexivity. }
  assert (Hris : forall b t c, recv_buf (register_if_set b t c) = recv_buf c
                               /\ recv_len (register_if_set b t c) = recv_len c).
  { intros b t c. unfold register_if_set. destruct (negb _); [apply Hreg|split; reflexivity]. }
  assert (Hfilter : forall c ev w0,
            recv_buf (__handle_event_filter c ev w0).1.2 = recv_buf c
            /\ recv_len (__handle_event_filter c ev w0).1.2 = recv_len c).
  { intros c ev w0. unfold __handle_event_filter.
    destruct (negb (user_len ev =? 8)); [split; reflexivity|].
    destruct (negb (Z.land _ _ =? 0)); cbn [fst snd];
      rewrite ?(proj1 (Hreg _ _)), ?(proj2 (Hreg _ _)),
              ?(proj1 (Hris _ _ _)), ?(proj2 (Hris _ _ _)); split; reflexivity. }
  assert (Hevent : forall c ev payload w0 rt0 c0 w1,
            __handle_event c ev payload w0 = Some (rt0, c0, w1) ->
            recv_buf c0 = recv_buf c /\ recv_len c0 = recv_len c).
  { intros c ev payload w0 rt0 c0 w1. unfold __handle_event.
    destruct (read_be16 payload 0) as [et|]; [|discriminate]. cbn [mbind option_bind].
    pose proof (Hfilter c ev w0) as Hf.
    destruct (et =? AI_EVENT_MONITOR_FILTER).
    - destruct (__handle_event_filter c ev w0) as [[r1 c1] w2]. cbn [fst snd] in Hf.
      destruct (session_id ev); [|discriminate].
      destruct (event_id ev); [|discriminate]. cbn [mbind option_bind].
      destruct (tuya_ai_basic_pkt_send _ _). intros [= _ <- _]. exact Hf.
    - destruct (et =? AI_EVENT_MONITOR_ALG_CTRL);
        (destruct (session_id ev); [|discriminate]);
        (destruct (event_id ev); [|discriminate]); cbn [mbind option_bind];
        destruct (tuya_ai_basic_pkt_send _ _); intros [= _ <- _]; split; reflexivity. }
  unfold __parse_pkg.
  destruct (len <? sizeof_AI_PAYLOAD_HEAD_T); [intros [= _ <- _]; split; reflexivity|].
  destruct (read_bytes data 0 sizeof_AI_PAYLOAD_HEAD_T) as [head|]; [|discriminate].
  cbn [mbind option_bind].
  destruct (payload_type head =? AI_PT_PING).
  { destruct (negb _); [intros [= _ <- _]; split; reflexivity|].
    destruct (read_be32 data _) as [attr_len|]; [|discriminate]. cbn [mbind option_bind].
    destruct (ping_attr_loop _ _ _ _ _) as [[r|ts]|]; [| |discriminate];
      cbn [mbind option_bind].
    - intros [= _ <- _]. split; reflexivity.
    - destruct (handle_ping_pong client ts w) as (r1 & w1 & Heq & _). rewrite Heq.
      intros [= _ <- _]. split; reflexivity. }
  destruct (payload_type head =? AI_PT_EVENT); [|intros [= _ <- _]; split; reflexivity].
  destruct (payload_attribute_flag head =? AI_HAS_ATTR).
  - destruct (read_be32 data _) as [attr_len|]; [|discriminate]. cbn [mbind option_bind].
    destruct (tuya_ai_parse_event_attr _ _) as [r ev].
    destruct (negb _); [intros [= _ <- _]; split; reflexivity|]. apply Hevent.
  - apply Hevent.
Qed.

(* ================================================================= *)
(** * Further properties of the service *)

(** ** Fan-out and broadcast *)

Section FanOutSpec.
Context `{AiProtocol}.

Lemma after_get_sequence_seq n : forall cfg cfg',
  sequence_out cfg = sequence_out cfg' ->
  sequence_out (after_get_sequence n cfg) = sequence_out (after_get_sequence n cfg').
Proof.
  induction n as [|n IH]; intros cfg cfg' Heq; cbn [after_get_sequence]; [exact Heq|].
  apply IH. cbn. rewrite Heq. reflexivity.
Qed.

Lemma after_get_sequence_add n m : forall cfg,
  after_get_sequence (n + m) cfg = after_get_sequence m (after_get_sequence n cfg).
Proof.
  induction n as [|n IH]; intros cfg; [reflexivity|].
  cbn [Nat.add after_get_sequence]. apply IH.
Qed.

(** One packet: the target of the writer stays, one sequence number is
    drawn, and only the cell of the writer's direction can change. *)
Lemma encoder_stages_spec hist req cfg :
  wr_fd (encoder_stages hist req cfg) = wr_fd cfg
  /\ direction (encoder_stages hist req cfg) = direction cfg
  /\ sequence_out (encoder_stages hist req cfg)
     = sequence_out (after_get_sequence 1 cfg)
  /\ length (frag_offset (encoder_stages hist req cfg)) = length (frag_offset cfg)
  /\ forall i, i <> Z.to_nat (direction cfg mod AI_MONITOR_DIR_MAX) ->
       frag_offset (encoder_stages hist req cfg) !! i = frag_offset cfg !! i.
Proof.
  unfold encoder_stages. cbn. rewrite length_insert. repeat split.
  intros i Hi. apply list_lookup_insert_ne. auto.
Qed.

Lemma writer_after_refl dir w : writer_after 0 dir w w.
Proof. unfold writer_after. repeat split. Qed.

Lemma writer_after_trans n m dir w w1 w2 :
  writer_after n dir w w1 -> writer_after m dir w1 w2 ->
  writer_after (n + m) dir w w2.
Proof.
  intros (Hl & Hp & Hs & Hn & Hc) (Hl' & Hp' & Hs' & Hn' & Hc').
  unfold writer_after. split; [congruence|]. split; [congruence|]. split.
  { rewrite Hs', after_get_sequence_add. apply after_get_sequence_seq, Hs. }
  split; [congruence|]. intros i Hi. rewrite Hc', Hc by exact Hi. reflexivity.
Qed.

Lemma pack_and_send_spec client dir id attr head data w :
  connected client = true ->
  (__pack_and_send client dir id attr head data w).1
  = tuya_ai_send_status (wire w) (biz_request dir id attr head data client)
  /\ wire (__pack_and_send client dir id attr head data w).2
     = wire w ++ [biz_request dir id attr head data client]
  /\ writer_after 1 dir w (__pack_and_send client dir id attr head data w).2.
Proof.
  intros Hc. unfold __pack_and_send, tuya_ai_send_biz_pkt_custom, encoder_send.
  rewrite Hc. cbn [negb]. unfold biz_request, AI_MONITOR_WRITER_UPDATE.
  cbn [wire writer_cfg wr_fd direction log_term posix_ms].
  match goal with
  | |- context [encoder_stages ?h ?r ?c] =>
      pose proof (encoder_stages_spec h r c) as (_ & _ & Hseq & Hlen & Hcell)
  end.
  cbn [direction frag_offset] in Hlen, Hcell.
  assert (Hafter : forall w2,
            log_term w2 = log_term w -> posix_ms w2 = posix_ms w ->
            writer_cfg w2
            = encoder_stages (wire w) (SentBiz (fd client) (u8 dir) id attr head data)
                (mk_writer_cfg true (fd client) (u8 dir) (sequence_out (writer_cfg w))
                   (frag_offset (writer_cfg w))) ->
            writer_after 1 dir w w2).
  { intros w2 Hl Hp Hcfg. unfold writer_after. rewrite Hcfg.
    split; [exact Hl|]. split; [exact Hp|]. split.
    { rewrite Hseq. apply (after_get_sequence_seq 1). reflexivity. }
    split; [exact Hlen|exact Hcell]. }
  destruct (Z.eqb_spec
              (tuya_ai_send_status (wire w) (SentBiz (fd client) (u8 dir) id attr head data))
              OPRT_OK) as [He|Hne]; cbn [negb fst snd wire];
    (split; [try reflexivity|split; [reflexivity|apply Hafter; reflexivity]]).
  symmetry. exact He.
Qed.

Lemma fan_out_spec cs : forall dir id attr head data ret w,
  let reqs := map (biz_request dir id attr head data)
                (List.filter (receives (biz_type attr)) cs) in
  (fan_out cs dir id attr head data ret w).1 = last_status ret (wire w) reqs
  /\ wire (fan_out cs dir id attr head data ret w).2 = wire w ++ reqs
  /\ writer_after (length reqs) dir w (fan_out cs dir id attr head data ret w).2.
Proof.
  induction cs as [|c cs IH]; intros dir id attr head data ret w; cbv zeta.
  - cbn. rewrite app_nil_r. split; [reflexivity|]. split; [reflexivity|].
    apply writer_after_refl.
  - cbn [fan_out List.filter].
    change (receives (biz_type attr) c)
      with (connected c && (0 <=? fd c) && __is_client_registered c (biz_type attr)).
    destruct (connected c) eqn:Hc; cbn [negb orb andb]; [|apply IH].
    destruct (Z.ltb_spec (fd c) 0) as [Hneg|Hfd].
    { destruct (Z.leb_spec 0 (fd c)); [lia|]. cbn [andb]. apply IH. }
    destruct (Z.leb_spec 0 (fd c)); [|lia]. cbn [andb].
    destruct (__is_client_registered c (biz_type attr)); cbn [negb]; [|apply IH].
    destruct (pack_and_send_spec c dir id attr head data w Hc) as (Hrt & Hwire & Hsame).
    destruct (__pack_and_send c dir id attr head data w) as [ret' w'].
    cbn [fst snd] in Hrt, Hwire, Hsame. subst ret'.
    specialize (IH dir id attr head data
                  (tuya_ai_send_status (wire w) (biz_request dir id attr head data c)) w').
    cbv zeta in IH. destruct IH as (IHrt & IHwire & IHsame).
    cbn [map last_status length]. rewrite IHrt, IHwire, Hwire, <- app_assoc.
    split; [reflexivity|]. split; [reflexivity|].
    exact (writer_after_trans 1 _ dir w w' _ Hsame IHsame).
Qed.

End FanOutSpec.

Lemma biz_handler_spec `{AiProtocol} (dir id : Z)
  (attr : AI_BIZ_ATTR_INFO_T) (head : AI_BIZ_HEAD_INFO_T) (data : list Z)
  (server : ai_monitor_server_t) (w : world) :
  ~ fragmented head ->
  __ai_biz_handler dir id (Some attr) (Some head) data server w
  = fan_out (take (Z.to_nat (max_clients (config server))) (clients server))
      dir id attr head data OPRT_OK w.
Proof.
  intros Hnf. unfold __ai_biz_handler.
  assert (Hfrag : (0 <? total_len head) && negb (total_len head =? len head) = false).
  { apply andb_false_iff.
    destruct (Z.ltb_spec 0 (total_len head)) as [Hpos|]; [right|left; reflexivity].
    apply negb_false_iff, Z.eqb_eq.
    destruct (Z.eq_dec (total_len head) (len head)) as [|Hne]; [assumption|].
    exfalso. apply Hnf. split; assumption. }
  rewrite Hfrag. reflexivity.
Qed.




(** X2: the text, log and audio broadcasts answer invalid-parameter and
    send nothing while the service is not initialized or not running,
    when the data pointer is NULL or when the length is 0; otherwise they
    are never refused as fragmented (total_len and len are both the
    given length) and hand the data, with direction ACK and the given
    channel id, to exactly the connected slots subscribed to TEXT (for
    text and log) or to AUDIO. *)
Theorem broadcast_reaches_subscribers `{AiProtocol} (data_id stype : Z)
  (data : option (list Z)) (dlen : Z) (server : ai_monitor_server_t) (w : world) :
  (initialized server = false \/ running server = false \/ data = None \/ dlen = 0 ->
   __broadcast_text data_id data dlen server w = (OPRT_INVALID_PARM, w)
   /\ tuya_ai_monitor_broadcast_audio data_id stype data dlen server w
      = (OPRT_INVALID_PARM, w))
  /\ (forall bytes,
        initialized server = true -> running server = true ->
        data = Some bytes -> dlen <> 0 ->
        (exists attr head,
           biz_type attr = AI_PT_TEXT /\ total_len head = dlen /\ len head = dlen
           /\ wire (__broadcast_text data_id data dlen server w).2
              = wire w
                ++ map (biz_request AI_MONITOR_DIR_ACK data_id attr head bytes)
                     (List.filter (receives AI_PT_TEXT)
                        (take (Z.to_nat (max_clients (config server))) (clients server))))
        /\ (exists attr head,
              biz_type attr = AI_PT_AUDIO /\ total_len head = dlen /\ len head = dlen
              /\ stream_flag head = stype
              /\ wire (tuya_ai_monitor_broadcast_audio data_id stype data dlen server w).2
                 = wire w
                   ++ map (biz_request AI_MONITOR_DIR_ACK data_id attr head bytes)
                        (List.filter (receives AI_PT_AUDIO)
                           (take (Z.to_nat (max_clients (config server)))
                              (clients server))))).
Proof.
  split.
  - intros Hbad. unfold __broadcast_text, tuya_ai_monitor_broadcast_audio.
    destruct (initialized server), (running server); cbn [negb orb];
      try (split; reflexivity).
    destruct data as [bytes|]; [|split; reflexivity].
    destruct (Z.eqb_spec dlen 0); [split; reflexivity|].
    destruct Hbad as [?|[?|[?|?]]]; congruence.
  - intros bytes Hi Hr -> Hne.
    assert (Hnf : forall flag, ~ fragmented (mk_biz_head flag dlen dlen)).
    { intros flag [_ Hd]. apply Hd. reflexivity. }
    unfold __broadcast_text, tuya_ai_monitor_broadcast_audio. rewrite Hi, Hr.
    cbn [negb orb]. destruct (Z.eqb_spec dlen 0); [contradiction|].
    rewrite !biz_handler_spec by apply Hnf.
    split.
    + exists (mk_biz_attr AI_HAS_ATTR AI_PT_TEXT event_attr_zero), (mk_biz_head 3 dlen dlen).
      repeat (split; [reflexivity|]). apply fan_out_spec.
    + exists (mk_biz_attr AI_HAS_ATTR AI_PT_AUDIO event_attr_zero),
             (mk_biz_head stype dlen dlen).
      repeat (split; [reflexivity|]). apply fan_out_spec.
Qed.

(** ** Mass teardown *)

Lemma take_cleanup_connected n cs :
  take n (cleanup_connected n cs)
  = (fun c => if connected c then __cleanup_client c else c) <$> take n cs.
Proof.
  unfold cleanup_connected. rewrite take_app, length_fmap, length_take.
  rewrite <- fmap_take, take_take, Nat.min_id.
  destruct (Nat.le_gt_cases n (length cs)) as [Hle|Hgt].
  - replace (n - n `min` length cs)%nat with 0%nat by lia.
    rewrite take_0, app_nil_r. reflexivity.
  - rewrite (drop_ge cs n) by lia. rewrite take_nil, app_nil_r. reflexivity.
Qed.

Lemma fan_out_nobody `{AiProtocol} cs dir id attr head data ret w :
  Forall (fun c => connected c = false) cs ->
  fan_out cs dir id attr head data ret w = (ret, w).
Proof.
  induction 1 as [|c cs Hc _ IH]; [reflexivity|].
  cbn [fan_out]. rewrite Hc. exact IH.
Qed.

(** X3: the mass teardown run on an accept error and on stop leaves no
    slot of the table connected, sets the client count to 0, forgets the
    listening descriptor and keeps the size of the table and the
    configuration; a fan-out or broadcast that follows hands nothing to
    the encoder and leaves the world as it was. *)
Theorem teardown_disconnects_everyone `{AiProtocol} (s : ai_monitor_server_t) :
  client_count (__session_close_all s) = 0
  /\ server_fd (__session_close_all s) < 0
  /\ config (__session_close_all s) = config s
  /\ length (clients (__session_close_all s)) = length (clients s)
  /\ Forall (fun c => connected c = false)
       (take (Z.to_nat (max_clients (config s))) (clients (__session_close_all s)))
  /\ (forall dir id attr head data w,
        (__ai_biz_handler dir id attr head data (__session_close_all s) w).2 = w
        /\ (tuya_ai_monitor_broadcast id attr head data (__session_close_all s) w).2 = w).
Proof.
  assert (Hcfg : config (__session_close_all s) = config s).
  { unfold __session_close_all. destruct (0 <=? server_fd s); reflexivity. }
  assert (Hcl : clients (__session_close_all s)
                = cleanup_connected (Z.to_nat (max_clients (config s))) (clients s)).
  { unfold __session_close_all. destruct (0 <=? server_fd s); reflexivity. }
  assert (Hall : Forall (fun c => connected c = false)
                   (take (Z.to_nat (max_clients (config s)))
                      (clients (__session_close_all s)))).
  { rewrite Hcl, take_cleanup_connected. apply Forall_fmap, Forall_forall.
    intros c _. cbn. destruct (connected c) eqn:Hc; [reflexivity|exact Hc]. }
  split; [unfold __session_close_all; destruct (0 <=? server_fd s); reflexivity|].
  split.
  { unfold __session_close_all.
    destruct (Z.leb_spec 0 (server_fd s)); cbn; lia. }
  split; [exact Hcfg|]. split.
  { rewrite Hcl. unfold cleanup_connected.
    rewrite length_app, length_fmap, length_take, length_drop. lia. }
  split; [exact Hall|].
  intros dir id attr head data w.
  assert (Hh : forall d, (__ai_biz_handler d id attr head data (__session_close_all s) w).2 = w).
  { intros d. unfold __ai_biz_handler.
    destruct attr as [attr|], head as [head|]; try reflexivity.
    destruct (_ && _); [reflexivity|].
    rewrite Hcfg, fan_out_nobody by exact Hall. reflexivity. }
  split; [apply Hh|].
  unfold tuya_ai_monitor_broadcast. destruct (_ || _); [reflexivity|apply Hh].
Qed.

(** ** Byte order *)

Lemma be_decode_app bs b : be_decode (bs ++ [b]) = be_decode bs * 256 + b.
Proof. unfold be_decode. rewrite fold_left_app. reflexivity. Qed.

Lemma be_encode_length n : forall x, length (be_encode n x) = n.
Proof.
  induction n as [|n IH]; intros x; [reflexivity|].
  cbn [be_encode]. rewrite length_app, IH. cbn. lia.
Qed.

(** Decoding the [n] network-order bytes of [x] gives [x] back, cut to
    [n] bytes. *)
Lemma be_decode_encode n : forall x, be_decode (be_encode n x) = x mod 256 ^ Z.of_nat n.
Proof.
  induction n as [|n IH]; intros x.
  - cbn. rewrite Z.mod_1_r. reflexivity.
  - cbn [be_encode]. rewrite be_decode_app, IH.
    rewrite Nat2Z.inj_succ, Z.pow_succ_r by lia.
    rewrite Z.rem_mul_r by lia. lia.
Qed.

(** ** Inbound handler: events *)

Lemma filter_keeps_fd client event w :
  fd (__handle_event_filter client event w).1.2 = fd client.
Proof.
  assert (Hreg : forall c t, fd (snd (__client_register c t)) = fd c).
  { intros c t. unfold __client_register. destruct (_ || _); reflexivity. }
  assert (Hris : forall b t c, fd (register_if_set b t c) = fd c).
  { intros b t c. unfold register_if_set. destruct (negb _); [apply Hreg|reflexivity]. }
  unfold __handle_event_filter. destruct (negb (user_len event =? 8)); [reflexivity|].
  destruct (negb (Z.land _ _ =? 0)); cbn [fst snd]; rewrite ?Hreg, !Hris; reflexivity.
Qed.

Lemma filter_keeps_wire client event w :
  wire (__handle_event_filter client event w).2 = wire w
  /\ writer_cfg (__handle_event_filter client event w).2 = writer_cfg w.
Proof.
  unfold __handle_event_filter. destruct (negb (user_len event =? 8)); [split; reflexivity|].
  destruct (negb (Z.land _ _ =? 0)); split; reflexivity.
Qed.

(** X4: every event whose type can be read and whose session and event
    id are present is acknowledged with exactly one EVENT packet, sent
    to the client it came from with direction ACK, that echoes session
    id, event id and user data and whose 8-byte payload holds the event
    type, the length 4 and, readable as a big-endian u32, the status of
    the handler: that of the filter handler for MONITOR_FILTER, "not
    supported" for ALG_CTRL and every other type.  The function returns
    the status of this send, not that of the handler, and an event that
    is not MONITOR_FILTER changes neither the slot nor the log term. *)
Theorem event_is_acknowledged `{AiProtocol} (client : ai_monitor_client_t)
  (event : AI_EVENT_ATTR_T) (payload : list Z) (w : world)
  (event_type : Z) (sid eid : list Z) :
  read_be16 payload 0 = Some event_type ->
  session_id event = Some sid -> event_id event = Some eid ->
  exists c' w',
    __handle_event client event payload w
    = Some (tuya_ai_send_status (wire w)
              (event_ack client sid eid event event_type
                 (event_status client event w event_type)), c', w')
    /\ wire w' = wire w ++ [event_ack client sid eid event event_type
                              (event_status client event w event_type)]
    /\ read_be32 (be_encode 2 event_type ++ be_encode 2 4
                  ++ be_encode 4 (u32 (event_status client event w event_type))) 4
       = Some (u32 (event_status client event w event_type))
    /\ (event_type <> AI_EVENT_MONITOR_FILTER ->
        event_status client event w event_type = OPRT_NOT_SUPPORTED
        /\ c' = client /\ log_term w' = log_term w).
Proof.
  intros Hty Hsid Heid. unfold __handle_event. rewrite Hty. cbn [mbind option_bind].
  assert (Hdec : forall st, read_be32 (be_encode 2 event_type ++ be_encode 2 4
                                       ++ be_encode 4 (u32 st)) 4 = Some (u32 st)).
  { intros st. unfold read_be32, read_bytes.
    rewrite !length_app, !be_encode_length. cbn [andb Z.leb fmap option_fmap option_map].
    rewrite app_assoc.
    rewrite drop_app_length' by (rewrite length_app, !be_encode_length; reflexivity).
    rewrite take_ge by (rewrite be_encode_length; cbn; lia).
    change ((0 <=? 4) && (0 <=? 4) && (4 + 4 <=? Z.of_nat (2 + (2 + 4)))) with true.
    cbv iota. cbn [fmap option_fmap option_map]. rewrite be_decode_encode. f_equal.
    unfold u32. change (256 ^ Z.of_nat 4) with (2 ^ 32). apply Z.mod_mod. lia. }
  unfold event_status.
  destruct (Z.eqb_spec event_type AI_EVENT_MONITOR_FILTER) as [Hf|Hnf].
  - pose proof (filter_keeps_fd client event w) as Hfd.
    pose proof (proj1 (filter_keeps_wire client event w)) as Hw1.
    destruct (__handle_event_filter client event w) as [[rt c1] w1] eqn:Hfil.
    cbn [fst snd] in Hfd, Hw1 |- *.
    rewrite Hsid, Heid. cbn [mbind option_bind].
    unfold tuya_ai_basic_pkt_send, encoder_send, AI_MONITOR_WRITER_UPDATE.
    cbn [wire writer_cfg wr_fd direction].
    change (u8 AI_MONITOR_DIR_ACK) with AI_MONITOR_DIR_ACK.
    unfold event_ack, tuya_ai_create_attribute. rewrite Hfd.
    set (req := SentBasic _ _ _).
    rewrite Hw1.
    exists c1. eexists. split.
    { destruct (negb (tuya_ai_send_status (wire w) req =? OPRT_OK)) eqn:E; [reflexivity|].
      apply negb_false_iff, Z.eqb_eq in E. rewrite E. reflexivity. }
    split; [reflexivity|]. split; [apply Hdec|].
    intros Hc. contradiction.
  - assert (Hboth :
      (if event_type =? AI_EVENT_MONITOR_ALG_CTRL
       then (__handle_event_alg_ctrl client event, client, w)
       else (OPRT_NOT_SUPPORTED, client, w)) = (OPRT_NOT_SUPPORTED, client, w))
      by (destruct (event_type =? AI_EVENT_MONITOR_ALG_CTRL); reflexivity).
    rewrite Hboth. rewrite Hsid, Heid. cbn [mbind option_bind].
    unfold tuya_ai_basic_pkt_send, encoder_send, AI_MONITOR_WRITER_UPDATE.
    cbn [wire writer_cfg wr_fd direction].
    change (u8 AI_MONITOR_DIR_ACK) with AI_MONITOR_DIR_ACK.
    unfold event_ack, tuya_ai_create_attribute.
    set (req := SentBasic _ _ _).
    exists client. eexists. split.
    { destruct (negb (tuya_ai_send_status (wire w) req =? OPRT_OK)) eqn:E; [reflexivity|].
      apply negb_false_iff, Z.eqb_eq in E. rewrite E. reflexivity. }
    split; [reflexivity|]. split; [apply Hdec|].
    intros _. repeat split.
Qed.

Lemma event_is_acknowledged_witness :
  exists c' w',
    __handle_event (sample_client 64 [])
      (mk_event_attr (Some [115]) (Some [101]) 4 [0; 0; 0; 4])
      [0xF0; 0x00; 0; 0] (world0 0)
    = Some (OPRT_OK, c', w')
    /\ wire w' = [event_ack (sample_client 64 []) [115] [101]
                    (mk_event_attr (Some [115]) (Some [101]) 4 [0; 0; 0; 4])
                    AI_EVENT_MONITOR_FILTER OPRT_INVALID_PARM].
Proof.
  destruct (event_is_acknowledged (sample_client 64 [])
              (mk_event_attr (Some [115]) (Some [101]) 4 [0; 0; 0; 4])
              [0xF0; 0x00; 0; 0] (world0 0) AI_EVENT_MONITOR_FILTER [115] [101]
              eq_refl eq_refl eq_refl) as (c' & w' & Heq & Hwire & _).
  exists c', w'. split; [exact Heq|exact Hwire].
Defined.

(** ** Inbound handler: what a packet can change *)

Lemma filter_keeps_identity client event w :
  same_slot_identity client (__handle_event_filter client event w).1.2.
Proof.
  assert (Hreg : forall c t, same_slot_identity c (snd (__client_register c t))).
  { intros c t. unfold __client_register, same_slot_identity.
    destruct (_ || _); cbn; repeat split; try tauto.
    intros Hl. rewrite length_insert. exact Hl. }
  assert (Htrans : forall a b c, same_slot_identity a b -> same_slot_identity b c ->
                                 same_slot_identity a c).
  { unfold same_slot_identity. intros a b c Hab Hbc.
    destruct Hab as (?&?&?&?&?&?&?&?), Hbc as (?&?&?&?&?&?&?&?).
    repeat split; try congruence. tauto. }
  assert (Hris : forall b t c, same_slot_identity c (register_if_set b t c)).
  { intros b t c. unfold register_if_set. destruct (negb _); [apply Hreg|].
    unfold same_slot_identity. repeat split; tauto. }
  assert (Hclear : same_slot_identity client (__client_register_clear client)).
  { unfold same_slot_identity. cbn. repeat split; reflexivity. }
  unfold __handle_event_filter.
  destruct (negb (user_len event =? 8)).
  { unfold same_slot_identity. cbn. repeat split; tauto. }
  destruct (negb (Z.land _ _ =? 0)); cbn [fst snd];
    repeat (first [exact Hclear | eapply Htrans; [|first [apply Hreg|apply Hris]]]).
Qed.

(** One packet sent as an answer: it is recorded on the wire, one
    sequence number is drawn, and only the fragment-offset cell of
    direction ACK can change. *)
Lemma basic_send_ack `{AiProtocol} pkt w0 w to_fd :
  wire w0 = wire w -> writer_cfg w0 = writer_cfg w -> posix_ms w0 = posix_ms w ->
  wire (tuya_ai_basic_pkt_send pkt
          (AI_MONITOR_WRITER_UPDATE w0 to_fd AI_MONITOR_DIR_ACK)).2
  = wire w ++ [SentBasic to_fd AI_MONITOR_DIR_ACK pkt]
  /\ posix_ms (tuya_ai_basic_pkt_send pkt
                 (AI_MONITOR_WRITER_UPDATE w0 to_fd AI_MONITOR_DIR_ACK)).2
     = posix_ms w
  /\ sequence_out
       (writer_cfg (tuya_ai_basic_pkt_send pkt
                      (AI_MONITOR_WRITER_UPDATE w0 to_fd AI_MONITOR_DIR_ACK)).2)
     = sequence_out (after_get_sequence 1 (writer_cfg w))
  /\ forall i, i <> Z.to_nat AI_MONITOR_DIR_ACK ->
       frag_offset
         (writer_cfg (tuya_ai_basic_pkt_send pkt
                        (AI_MONITOR_WRITER_UPDATE w0 to_fd AI_MONITOR_DIR_ACK)).2) !! i
       = frag_offset (writer_cfg w) !! i.
Proof.
  intros Hw Hcfg Hpm.
  unfold tuya_ai_basic_pkt_send, encoder_send, AI_MONITOR_WRITER_UPDATE.
  cbn [snd wire writer_cfg wr_fd direction log_term posix_ms].
  match goal with
  | |- context [encoder_stages ?h ?r ?c] =>
      pose proof (encoder_stages_spec h r c) as (_ & _ & Hseq & _ & Hcell)
  end.
  cbn [direction frag_offset] in Hcell.
  rewrite Hw, Hcfg in *. split; [reflexivity|]. split; [exact Hpm|]. split.
  - rewrite Hseq. apply (after_get_sequence_seq 1). reflexivity.
  - exact Hcell.
Qed.

Lemma parse_pkg_frame `{AiProtocol} (fuel : nat)
  (client : ai_monitor_client_t) (data : list Z) (len : Z) (w : world)
  (rt : OPERATE_RET) (c' : ai_monitor_client_t) (w' : world) :
  __parse_pkg fuel client data len w = Some (rt, c', w') ->
  same_slot_identity client c'
  /\ posix_ms w' = posix_ms w
  /\ (w' = w
      \/ exists pkt,
           wire w' = wire w ++ [SentBasic (fd client) AI_MONITOR_DIR_ACK pkt]
           /\ (pkt_type pkt = AI_PT_PONG \/ pkt_type pkt = AI_PT_EVENT)
           /\ sequence_out (writer_cfg w')
              = sequence_out (after_get_sequence 1 (writer_cfg w))
           /\ forall i, i <> Z.to_nat AI_MONITOR_DIR_ACK ->
                frag_offset (writer_cfg w') !! i = frag_offset (writer_cfg w) !! i).
Proof.
  assert (Hid : forall c, same_slot_identity c c)
    by (intros c; unfold same_slot_identity; repeat split; tauto).
  assert (Hexit : same_slot_identity client client /\ posix_ms w = posix_ms w
                  /\ (w = w
                      \/ exists pkt,
                           wire w = wire w ++ [SentBasic (fd client) AI_MONITOR_DIR_ACK pkt]
                           /\ (pkt_type pkt = AI_PT_PONG \/ pkt_type pkt = AI_PT_EVENT)
                           /\ sequence_out (writer_cfg w)
                              = sequence_out (after_get_sequence 1 (writer_cfg w))
                           /\ forall i, i <> Z.to_nat AI_MONITOR_DIR_ACK ->
                                frag_offset (writer_cfg w) !! i
                                = frag_offset (writer_cfg w) !! i)).
  { split; [apply Hid|]. split; [reflexivity|left; reflexivity]. }
  assert (Hevent : forall ev payload,
            __handle_event client ev payload w = Some (rt, c', w') ->
            same_slot_identity client c'
            /\ posix_ms w' = posix_ms w
            /\ (w' = w
                \/ exists pkt,
                     wire w' = wire w ++ [SentBasic (fd client) AI_MONITOR_DIR_ACK pkt]
                     /\ (pkt_type pkt = AI_PT_PONG \/ pkt_type pkt = AI_PT_EVENT)
                     /\ sequence_out (writer_cfg w')
                        = sequence_out (after_get_sequence 1 (writer_cfg w))
                     /\ forall i, i <> Z.to_nat AI_MONITOR_DIR_ACK ->
                          frag_offset (writer_cfg w') !! i
                          = frag_offset (writer_cfg w) !! i)).
  { intros ev payload Hev. unfold __handle_event in Hev.
    destruct (read_be16 payload 0) as [et|]; [|discriminate]. cbn [mbind option_bind] in Hev.
    pose proof (filter_keeps_identity client ev w) as Hfi.
    pose proof (filter_keeps_wire client ev w) as [Hfw Hfc].
    assert (Hpm : posix_ms (__handle_event_filter client ev w).2 = posix_ms w).
    { unfold __handle_event_filter. destruct (negb (user_len ev =? 8)); [reflexivity|].
      destruct (negb (Z.land _ _ =? 0)); reflexivity. }
    destruct (if et =? AI_EVENT_MONITOR_FILTER
              then __handle_event_filter client ev w
              else if et =? AI_EVENT_MONITOR_ALG_CTRL
                   then (__handle_event_alg_ctrl client ev, client, w)
                   else (OPRT_NOT_SUPPORTED, client, w)) as [[r1 c1] w1] eqn:Hd.
    assert (Hc1 : same_slot_identity client c1 /\ wire w1 = wire w
                  /\ writer_cfg w1 = writer_cfg w /\ posix_ms w1 = posix_ms w).
    { destruct (et =? AI_EVENT_MONITOR_FILTER).
      - rewrite Hd in Hfi, Hfw, Hfc, Hpm. cbn [fst snd] in *. auto.
      - destruct (et =? AI_EVENT_MONITOR_ALG_CTRL); injection Hd as <- <- <-;
          repeat split; try reflexivity; try tauto. }
    destruct Hc1 as (Hsame & Hw1 & Hcfg & Hpm1).
    destruct (session_id ev); [|discriminate].
    destruct (event_id ev); [|discriminate]. cbn [mbind option_bind] in Hev.
    cbv zeta in Hev.
    match type of Hev with
    | context [tuya_ai_basic_pkt_send ?pkt _] =>
        pose proof (basic_send_ack pkt w1 w (fd c1) Hw1 Hcfg Hpm1)
          as (Hwire & Hclock & Hseq & Hcell);
        destruct (tuya_ai_basic_pkt_send pkt
                    (AI_MONITOR_WRITER_UPDATE w1 (fd c1) AI_MONITOR_DIR_ACK))
          as [rt2 w2]
    end.
    cbn [snd] in Hwire, Hclock, Hseq, Hcell. injection Hev as _ <- <-.
    split; [exact Hsame|]. split; [exact Hclock|]. right.
    destruct Hsame as (Hfd & _). rewrite Hfd in Hwire.
    eexists. split; [exact Hwire|]. split; [right; reflexivity|].
    split; [exact Hseq|exact Hcell]. }
  unfold __parse_pkg.
  destruct (len <? sizeof_AI_PAYLOAD_HEAD_T); [intros [= <- <- <-]; exact Hexit|].
  destruct (read_bytes data 0 sizeof_AI_PAYLOAD_HEAD_T) as [head|]; [|discriminate].
  cbn [mbind option_bind].
  destruct (payload_type head =? AI_PT_PING).
  { destruct (negb _); [intros [= <- <- <-]; exact Hexit|].
    destruct (read_be32 data _) as [attr_len|]; [|discriminate]. cbn [mbind option_bind].
    destruct (ping_attr_loop _ _ _ _ _) as [[r|ts]|]; [| |discriminate];
      cbn [mbind option_bind]; [intros [= <- <- <-]; exact Hexit|].
    unfold __handle_ping. cbv zeta.
    match goal with
    | |- context [tuya_ai_basic_pkt_send ?pkt _] =>
        pose proof (basic_send_ack pkt w w (fd (set_last_ping_time client (posix_ms w)))
                      eq_refl eq_refl eq_refl) as (Hwire & Hclock & Hseq & Hcell);
        destruct (tuya_ai_basic_pkt_send pkt
                    (AI_MONITOR_WRITER_UPDATE w
                       (fd (set_last_ping_time client (posix_ms w))) AI_MONITOR_DIR_ACK))
          as [rt2 w2]
    end.
    cbn [snd] in Hwire, Hclock, Hseq, Hcell.
    assert (Hslot : same_slot_identity client (set_last_ping_time client (posix_ms w)))
      by (unfold same_slot_identity; cbn; repeat split; tauto).
    destruct (negb _); intros [= <- <- <-];
      (split; [exact Hslot|]); (split; [exact Hclock|]); right;
      eexists; (split; [exact Hwire|]); (split; [left; reflexivity|]);
      (split; [exact Hseq|exact Hcell]). }
  destruct (payload_type head =? AI_PT_EVENT); [|intros [= <- <- <-]; exact Hexit].
  destruct (payload_attribute_flag head =? AI_HAS_ATTR).
  - destruct (read_be32 data _) as [attr_len|]; [|discriminate]. cbn [mbind option_bind].
    destruct (tuya_ai_parse_event_attr _ _) as [r ev].
    destruct (negb _); [|apply Hevent].
    intros [= <- <- <-]. exact Hexit.
  - apply Hevent.
Qed.



(** ** Writer adapter: the stages follow the direction *)

Lemma preamble_length dir : length (preamble dir) = 5%nat.
Proof. reflexivity. Qed.

Lemma preamble_direction dir rest :
  frame_direction (preamble dir ++ rest) = dir mod 4.
Proof.
  unfold frame_direction, preamble. cbn.
  rewrite Z.shiftr_shiftl_l by lia. change (6 - 6) with 0. apply Z.shiftl_0_r.
Qed.

(** X6: once the writer is aimed at a descriptor with one of the three
    directions, the fragment-offset stage hands out the cell of that
    direction, one of the three cells, and the pre-write stage writes
    the five bytes of the preamble, which the reader's codec recognises:
    its scan finds the magic at offset 0 of anything that begins with
    them and the direction it reads from the flag byte is the one that
    was written; neither stage changes the writer configuration. *)
Theorem writer_stages_follow_direction (w : world) (to_fd dir : Z)
  (rest : list Z) (n : Z) :
  0 <= dir < AI_MONITOR_DIR_MAX -> 0 <= n ->
  let cfg := writer_cfg (AI_MONITOR_WRITER_UPDATE w to_fd dir) in
  __default_update AI_STAGE_GET_FRAG_OFFSET cfg = (OutFragCell dir, cfg)
  /\ (exists bytes,
        __default_update AI_STAGE_PRE_WRITE cfg = (OutWrite bytes, cfg)
        /\ length bytes = 5%nat
        /\ take 4 bytes = MAGIC_BYTES
        /\ __find_sync_frame (bytes ++ rest) n = Some 0
        /\ frame_direction (bytes ++ rest) = dir).
Proof.
  intros Hdir Hn. cbv zeta. unfold AI_MONITOR_DIR_MAX in Hdir.
  unfold AI_MONITOR_WRITER_UPDATE. cbn [writer_cfg __default_update direction].
  assert (Hu : u8 dir = dir) by (unfold u8; apply Z.mod_small; lia).
  rewrite Hu. split.
  - unfold AI_MONITOR_DIR_MAX. rewrite Z.mod_small by lia. reflexivity.
  - exists (preamble dir). split; [reflexivity|]. split; [reflexivity|].
    split; [reflexivity|]. split.
    + apply find_sync_at_magic; [exact Hn|]. unfold read_bytes.
      rewrite length_app, preamble_length.
      destruct (Z.leb_spec (0 + 4) (Z.of_nat (5 + length rest))); [|lia].
      reflexivity.
    + rewrite preamble_direction. apply Z.mod_small. lia.
Qed.

Lemma writer_stages_follow_direction_witness :
  __default_update AI_STAGE_GET_FRAG_OFFSET
    (writer_cfg (AI_MONITOR_WRITER_UPDATE (world0 0) 7 AI_MONITOR_DIR_ACK))
  = (OutFragCell AI_MONITOR_DIR_ACK,
     writer_cfg (AI_MONITOR_WRITER_UPDATE (world0 0) 7 AI_MONITOR_DIR_ACK)).
Proof.
  apply (writer_stages_follow_direction (world0 0) 7 AI_MONITOR_DIR_ACK [] 0);
    unfold AI_MONITOR_DIR_ACK, AI_MONITOR_DIR_MAX; lia.
Defined.

(** ** Writer adapter: the write stage *)

Section WriteFacts.
Variables EAGAIN EWOULDBLOCK : Z.

Lemma send_loop_prefix bytes buf_len : forall net total_sent remaining out rt out',
  0 <= total_sent -> 0 <= remaining -> total_sent + remaining = buf_len ->
  buf_len < 2 ^ 32 ->
  out = take (Z.to_nat total_sent) bytes ->
  sends_fit remaining net ->
  send_loop EAGAIN EWOULDBLOCK bytes total_sent remaining net out = Some (rt, out') ->
  (rt = OPRT_OK /\ out' = take (Z.to_nat buf_len) bytes)
  \/ (rt = OPRT_COM_ERROR
      /\ exists k, 0 <= k < buf_len /\ out' = take (Z.to_nat k) bytes).
Proof.
  induction net as [|[r err] net IH];
    intros total_sent remaining out rt out' Hts Hrem Hsum Hmax Hout Hfit Hrun;
    cbn [send_loop] in Hrun.
  - destruct (Z.eqb_spec remaining 0) as [Hz|]; [|discriminate].
    injection Hrun as <- <-. left. split; [reflexivity|].
    rewrite Hout. f_equal. lia.
  - destruct (Z.eqb_spec remaining 0) as [Hz|Hnz].
    { injection Hrun as <- <-. left. split; [reflexivity|].
      rewrite Hout. f_equal. lia. }
    cbn [sends_fit] in Hfit. revert Hfit Hrun.
    destruct (Z.leb_spec r 0) as [Hfail|Hok]; intros Hfit Hrun.
    + destruct ((err =? EAGAIN) || (err =? EWOULDBLOCK) || (err =? 11)).
      * eapply (IH total_sent remaining out); eassumption.
      * injection Hrun as <- <-. right. split; [reflexivity|].
        exists total_sent. split; [lia|exact Hout].
    + destruct Hfit as [Hle Hfit].
      rewrite (u32_small (total_sent + r)), (u32_small (remaining - r)) in Hrun by lia.
      eapply (IH (total_sent + r) (remaining - r)); [| | | | |exact Hfit|exact Hrun];
        try lia.
      rewrite Hout, take_take_drop. f_equal. lia.
Qed.

Lemma send_loop_completes bytes : forall net total_sent remaining out,
  0 <= total_sent -> 0 <= remaining -> total_sent + remaining < 2 ^ 32 ->
  sends_fit remaining net -> only_retries EAGAIN EWOULDBLOCK net ->
  sent_total net = remaining ->
  exists out',
    send_loop EAGAIN EWOULDBLOCK bytes total_sent remaining net out = Some (OPRT_OK, out').
Proof.
  induction net as [|[r err] net IH];
    intros total_sent remaining out Hts Hrem Hmax Hfit Hretry Htotal;
    cbn [send_loop sent_total sends_fit] in *.
  - subst remaining. eexists. reflexivity.
  - destruct (Z.eqb_spec remaining 0); [eexists; reflexivity|].
    unfold only_retries in Hretry.
    inversion Hretry as [|o net0 Hhead Hretry']; subst o net0.
    clear Hretry. fold (only_retries EAGAIN EWOULDBLOCK net) in Hretry'.
    cbn [fst snd] in Hhead.
    revert Hfit Htotal.
    destruct (Z.leb_spec r 0) as [Hfail|Hok]; intros Hfit Htotal.
    + assert (Hre : (err =? EAGAIN) || (err =? EWOULDBLOCK) || (err =? 11) = true).
      { destruct Hhead as [ ? | [ -> | [ -> | -> ] ] ]; [lia|..];
          rewrite Z.eqb_refl, ?orb_true_r; reflexivity. }
      rewrite Hre. apply IH; try assumption; lia.
    + destruct Hfit as [Hle Hfit].
      rewrite (u32_small (total_sent + r)), (u32_small (remaining - r)) by lia.
      apply IH; try assumption; lia.
Qed.

End WriteFacts.

(** X7: the write stage refuses a NULL buffer, a length of 0 and a
    writer without descriptor with invalid-parameter and sends nothing.
    Otherwise, as long as tal_net_send never reports more than it was
    asked for, the bytes sent are always a prefix of the buffer, in
    order and without repetition: when the stage returns OPRT_OK they
    are exactly the buf_len bytes, and when it returns a communication
    error (an errno that is not "try again") they are fewer; a call that
    fails with "try again" is repeated, so the stage returns OPRT_OK
    whenever the calls only ever fail that way and together send buf_len
    bytes. *)
Theorem write_stage_sends_in_order (EAGAIN EWOULDBLOCK : Z)
  (cfg : ai_monitor_writer_cfg_t) (bytes : list Z) (buf_len : Z)
  (net : list (Z * Z)) :
  0 < buf_len < 2 ^ 32 -> sends_fit buf_len net ->
  (__default_write EAGAIN EWOULDBLOCK cfg None buf_len net = Some (OPRT_INVALID_PARM, [])
   /\ __default_write EAGAIN EWOULDBLOCK cfg (Some bytes) 0 net
      = Some (OPRT_INVALID_PARM, [])
   /\ (wr_fd cfg < 0 ->
       __default_write EAGAIN EWOULDBLOCK cfg (Some bytes) buf_len net
       = Some (OPRT_INVALID_PARM, [])))
  /\ (0 <= wr_fd cfg ->
      (forall rt out,
         __default_write EAGAIN EWOULDBLOCK cfg (Some bytes) buf_len net = Some (rt, out) ->
         (rt = OPRT_OK /\ out = take (Z.to_nat buf_len) bytes)
         \/ (rt = OPRT_COM_ERROR
             /\ exists k, 0 <= k < buf_len /\ out = take (Z.to_nat k) bytes))
      /\ (only_retries EAGAIN EWOULDBLOCK net -> sent_total net = buf_len ->
          __default_write EAGAIN EWOULDBLOCK cfg (Some bytes) buf_len net
          = Some (OPRT_OK, take (Z.to_nat buf_len) bytes))).
Proof.
  intros Hlen Hfit. split.
  - split; [reflexivity|]. split.
    + unfold __default_write. rewrite orb_true_r. reflexivity.
    + intros Hfd. unfold __default_write.
      destruct (Z.ltb_spec (wr_fd cfg) 0); [reflexivity|lia].
  - intros Hfd.
    assert (Hrun : __default_write EAGAIN EWOULDBLOCK cfg (Some bytes) buf_len net
                   = send_loop EAGAIN EWOULDBLOCK bytes 0 buf_len net []).
    { unfold __default_write.
      destruct (Z.ltb_spec (wr_fd cfg) 0); [lia|].
      destruct (Z.eqb_spec buf_len 0); [lia|]. reflexivity. }
    rewrite Hrun.
    assert (Hprefix : forall rt out,
              send_loop EAGAIN EWOULDBLOCK bytes 0 buf_len net [] = Some (rt, out) ->
              (rt = OPRT_OK /\ out = take (Z.to_nat buf_len) bytes)
              \/ (rt = OPRT_COM_ERROR
                  /\ exists k, 0 <= k < buf_len /\ out = take (Z.to_nat k) bytes)).
    { intros rt out Hs.
      eapply (send_loop_prefix EAGAIN EWOULDBLOCK bytes buf_len net 0 buf_len []);
        try eassumption; try lia. reflexivity. }
    split; [exact Hprefix|].
    intros Hretry Htotal.
    destruct (send_loop_completes EAGAIN EWOULDBLOCK bytes net 0 buf_len [])
      as [out' Hdone]; try assumption; try lia.
    rewrite Hdone. destruct (Hprefix _ _ Hdone) as [[_ ->]|[Hbad _]];
      [reflexivity|discriminate].
Qed.

Lemma write_stage_sends_in_order_witness :
  __default_write 11 35
    (writer_cfg (AI_MONITOR_WRITER_UPDATE (world0 0) 7 AI_MONITOR_DIR_ACK))
    (Some [1; 2; 3; 4; 5]) 5 [(2, 0); (-1, 11); (0, 35); (3, 0)]
  = Some (OPRT_OK, [1; 2; 3; 4; 5]).
Proof.
  refine (proj2 (proj2 (write_stage_sends_in_order 11 35
            (writer_cfg (AI_MONITOR_WRITER_UPDATE (world0 0) 7 AI_MONITOR_DIR_ACK))
            [1; 2; 3; 4; 5] 5 [(2, 0); (-1, 11); (0, 35); (3, 0)] _ _) _) _ _).
  - lia.
  - cbn. lia.
  - cbn. lia.
  - repeat constructor; cbn; lia.
  - reflexivity.
Defined.

(** ** Lifecycle: the listening socket and init *)

Lemma create_server_socket_spec e :
  (0 <= socket_create e /\ 0 <= set_reuse e /\ 0 <= bind_status e
   /\ 0 <= listen_status e -> __create_server_socket e = socket_create e)
  /\ (~ (0 <= socket_create e /\ 0 <= set_reuse e /\ 0 <= bind_status e
         /\ 0 <= listen_status e) -> __create_server_socket e < 0).
Proof.
  unfold __create_server_socket.
  destruct (Z.ltb_spec (socket_create e) 0), (Z.ltb_spec (set_reuse e) 0),
    (Z.ltb_spec (bind_status e) 0), (Z.ltb_spec (listen_status e) 0);
    split; intros; lia.
Qed.

(** X8: a timer tick on a server that already listens changes nothing;
    on a server that does not listen it creates the listening socket
    exactly when the device is activated and socket creation, address
    reuse, bind, listen and the registration with the socket loop all
    succeed: then the descriptor is the new socket and the timer is
    stopped, otherwise the server still does not listen and the timer
    keeps running for the next attempt.  A tick never changes the
    flags, the configuration or the client table. *)
Theorem listen_needs_activation (s : ai_monitor_server_t) (e : tick_env) :
  reg_lan_sock e <= 0 ->
  (0 <= server_fd s -> __monitor_tm_cb s e = s)
  /\ (server_fd s < 0 ->
      (listen_succeeds e ->
       server_fd (__monitor_tm_cb s e) = socket_create e
       /\ timer (__monitor_tm_cb s e) = tal_sw_timer_stop (timer s))
      /\ (~ listen_succeeds e ->
          server_fd (__monitor_tm_cb s e) < 0
          /\ timer (__monitor_tm_cb s e) = timer s))
  /\ initialized (__monitor_tm_cb s e) = initialized s
  /\ running (__monitor_tm_cb s e) = running s
  /\ config (__monitor_tm_cb s e) = config s
  /\ clients (__monitor_tm_cb s e) = clients s
  /\ client_count (__monitor_tm_cb s e) = client_count s.
Proof.
  intros Hreg. pose proof (create_server_socket_spec e) as [Hsock_ok Hsock_bad].
  unfold __monitor_tm_cb, __tcp_create_serv_fd, listen_succeeds.
  destruct (Z.leb_spec 0 (server_fd s)) as [Hfd|Hfd].
  { split; [reflexivity|]. split; [lia|]. repeat split. }
  split; [lia|].
  destruct (iot_activated e).
  2:{ cbn [negb]. split; [|repeat split]. intros _. split.
      - intros [Hact _]. discriminate.
      - intros _. split; [lia|reflexivity]. }
  cbn [negb]. destruct (Z.ltb_spec (server_fd s) 0); [|lia].
  destruct (Z.ltb_spec (__create_server_socket e) 0) as [Hbad|Hgood].
  { change (OPRT_COM_ERROR <? 0) with true. cbv iota.
    split; [|repeat split]. intros _. split.
    - intros (_ & H1 & H2 & H3 & H4 & _).
      rewrite Hsock_ok in Hbad by tauto. lia.
    - intros _. split; [lia|reflexivity]. }
  assert (Hall : 0 <= socket_create e /\ 0 <= set_reuse e /\ 0 <= bind_status e
                 /\ 0 <= listen_status e).
  { destruct (Z.le_gt_cases 0 (socket_create e)), (Z.le_gt_cases 0 (set_reuse e)),
      (Z.le_gt_cases 0 (bind_status e)), (Z.le_gt_cases 0 (listen_status e));
      try tauto; exfalso;
      (assert (__create_server_socket e < 0) by (apply Hsock_bad; lia)); lia. }
  rewrite (Hsock_ok Hall) in *.
  destruct (Z.eqb_spec (reg_lan_sock e) OPRT_OK) as [Hok|Hno]; cbn [negb].
  - cbn [server_fd set_server_fd].
    destruct (Z.ltb_spec (socket_create e) 0); [lia|].
    split; [|repeat split]. intros _. split.
    + intros _. split; reflexivity.
    + intros Hn. exfalso. apply Hn. tauto.
  - unfold OPRT_OK in Hno. destruct (Z.ltb_spec (reg_lan_sock e) 0); [|lia].
    split; [|repeat split]. intros _. split.
    + intros (_ & _ & _ & _ & _ & Hr). unfold OPRT_OK in Hr. lia.
    + intros _. split; [cbn; lia|reflexivity].
Qed.

Lemma listen_needs_activation_witness :
  reg_lan_sock tick_ok <= 0
  /\ server_fd (__monitor_tm_cb
                  (run_lifecycle [EvInit (Some AI_MONITOR_CFG_DEFAULT) init_ok]) tick_ok)
     = socket_create tick_ok.
Proof.
  assert (Hreg : reg_lan_sock tick_ok <= 0) by (cbn; lia).
  split; [exact Hreg|].
  refine (proj1 (proj1 (proj1 (proj2
            (listen_needs_activation
               (run_lifecycle [EvInit (Some AI_MONITOR_CFG_DEFAULT) init_ok])
               tick_ok Hreg)) _) _)).
  - cbn. lia.
  - unfold listen_succeeds. cbn. repeat split; lia.
Defined.

(** X9: init without a configuration is refused with invalid-parameter
    and init of an initialized server returns OPRT_OK, both without any
    change.  On a server that is not initialized init returns OPRT_OK
    exactly when the socket loop, the allocation of the table, the
    mutex, the timer and the registration of the fan-out hooks all
    succeed; the server then runs with the given configuration, no
    listening descriptor (-1), the creation timer started, and a table
    of max_clients free slots with a client count of 0.  Deinit of a
    server that is not initialized is refused; deinit of an initialized
    one leaves the zeroed state, from which init starts afresh. *)
Theorem init_starts_the_service (s : ai_monitor_server_t)
  (cfg : ai_monitor_config_t) (e : init_env) :
  tuya_ai_monitor_init s None e = (OPRT_INVALID_PARM, s)
  /\ (initialized s = true -> tuya_ai_monitor_init s (Some cfg) e = (OPRT_OK, s))
  /\ (initialized s = false ->
      ((tuya_ai_monitor_init s (Some cfg) e).1 = OPRT_OK <-> init_succeeds e)
      /\ (init_succeeds e ->
          (tuya_ai_monitor_init s (Some cfg) e).2
          = mk_server true true cfg (-1)
              (replicate (Z.to_nat (max_clients cfg)) client_free) 0
              (random16 e) (random32 e) true TimerActive))
  /\ (initialized s = false -> tuya_ai_monitor_deinit s = (OPRT_INVALID_PARM, s))
  /\ (initialized s = true ->
      tuya_ai_monitor_deinit s = (OPRT_OK, server_zero)
      /\ tuya_ai_monitor_init (tuya_ai_monitor_deinit s).2 (Some cfg) e
         = tuya_ai_monitor_init server_zero (Some cfg) e).
Proof.
  split; [reflexivity|]. split.
  { intros Hi. unfold tuya_ai_monitor_init. rewrite Hi. reflexivity. }
  split.
  { intros Hi. unfold tuya_ai_monitor_init, init_succeeds, __ai_monitor_start. rewrite Hi.
    destruct (Z.eqb_spec (sock_loop_init e) OPRT_OK) as [Hs|Hs]; cbn [negb].
    2:{ split; [split|]; [intros Hrt; cbn in Hrt; contradiction|tauto|tauto]. }
    destruct (malloc_clients e); cbn [negb].
    2:{ split; [split|]; [intros Hrt; cbn in Hrt; discriminate
                         |intros (_ & Hm & _); discriminate
                         |intros (_ & Hm & _); discriminate]. }
    destruct (Z.eqb_spec (mutex_create e) OPRT_OK) as [Hm|Hm]; cbn [negb].
    2:{ split; [split|]; [intros Hrt; cbn in Hrt; contradiction|tauto|tauto]. }
    destruct (Z.eqb_spec (timer_create e) OPRT_OK) as [Ht|Ht]; cbn [negb].
    2:{ split; [split|]; [intros Hrt; cbn in Hrt; contradiction|tauto|tauto]. }
    cbn [initialized running negb timer tal_sw_timer_start].
    destruct (Z.eqb_spec (biz_register e) OPRT_OK) as [Hb|Hb]; cbn [negb].
    - split; [split; [intros _; tauto|reflexivity]|]. intros _. reflexivity.
    - split; [split|]; [intros Hrt; cbn in Hrt; contradiction|tauto|tauto]. }
  split.
  { intros Hi. unfold tuya_ai_monitor_deinit. rewrite Hi. reflexivity. }
  intros Hi. unfold tuya_ai_monitor_deinit. rewrite Hi. cbn [negb snd].
  split; reflexivity.
Qed.

(** ** The framing loop stays inside the received bytes *)

Lemma find_sync_zero data len :
  __find_sync_frame data len = Some 0 -> read_bytes data 0 4 = Some MAGIC_BYTES.
Proof.
  unfold __find_sync_frame. destruct (Z.to_nat (len + 1)) as [|n]; cbn [sync_scan].
  { cbn. discriminate. }
  unfold memcmp_magic. destruct (read_bytes data 0 4) as [bs|]; cbn [mbind option_bind].
  2:{ cbn. discriminate. }
  destruct (bool_decide_reflect (bs = MAGIC_BYTES)) as [->|Hne]; [reflexivity|].
  destruct (sync_scan data n (0 + 1)) as [probes r] eqn:E. cbn [snd]. intros ->.
  destruct (sync_scan_result data n (0 + 1) 0) as [Hbad|Hle];
    [rewrite E; reflexivity|discriminate|lia].
Qed.

Lemma read_bytes_in_bounds data off n :
  0 <= off -> 0 <= n -> off + n <= Z.of_nat (length data) ->
  is_Some (read_bytes data off n).
Proof.
  intros Ho Hn Hfit. unfold read_bytes.
  destruct (Z.leb_spec 0 off); [|lia]. destruct (Z.leb_spec 0 n); [|lia].
  destruct (Z.leb_spec (off + n) (Z.of_nat (length data))); [|lia].
  eexists. reflexivity.
Qed.

(** A scan whose comparisons all lie in the allocation has a result. *)
Lemma sync_scan_total data n : forall offset,
  0 <= offset -> offset + Z.of_nat n + 3 <= Z.of_nat (length data) ->
  is_Some (sync_scan data n offset).2.
Proof.
  induction n as [|n IH]; intros offset Ho Hfit; cbn [sync_scan].
  { eexists. reflexivity. }
  unfold memcmp_magic.
  destruct (read_bytes_in_bounds data offset 4) as [bs ->]; try lia.
  cbn [mbind option_bind].
  destruct (bool_decide (bs = MAGIC_BYTES)); [eexists; reflexivity|].
  destruct (sync_scan data n (offset + 1)) as [probes r] eqn:E. cbn [snd].
  specialize (IH (offset + 1)). rewrite E in IH. apply IH; lia.
Qed.

Section FramingBounds.
Context `{AiProtocol} {St : Type}.
Variable parse : St -> list Z -> Z -> option (OPERATE_RET * St).
Hypothesis head_size : 0 <= sizeof_AI_PACKET_HEAD_T.

Lemma framing_loop_bounds buf recv_len :
  Forall (fun b => 0 <= b) buf ->
  recv_len <= Z.of_nat (length buf) -> recv_len < 2 ^ 32 ->
  forall fuel p (st : St) q st',
    0 <= p <= recv_len ->
    framing_loop parse fuel buf recv_len p st = Some (q, st') ->
    p <= q <= recv_len /\ handled parse buf recv_len st st'.
Proof.
  intros Hbuf Hlen Hmax. pose proof (header_size head_size) as Hh.
  induction fuel as [|fuel IH]; intros p st q st' Hp Hrun; cbn [framing_loop] in Hrun;
    destruct (Z.ltb_spec p recv_len) as [Hlt|Hge]; cbn [negb] in Hrun;
    try (injection Hrun as <- <-; split; [lia|constructor]); try discriminate.
  destruct (__find_sync_frame _ _) as [ret|] eqn:Hfind; [|discriminate].
  cbn [mbind option_bind] in Hrun.
  destruct (Z.eqb_spec ret OPRT_OK) as [->|Hne]; cbn [negb] in Hrun.
  2:{ injection Hrun as <- <-. split; [lia|constructor]. }
  unfold OPRT_OK in Hrun, Hfind. rewrite Z.add_0_r in Hrun.
  rewrite (u32_small p) in Hrun by lia.
  rewrite (u32_small (recv_len - p)) in Hrun by lia.
  destruct (Z.ltb_spec (recv_len - p) (sizeof_ai_monitor_header_t + 4)) as [|Hroom].
  { injection Hrun as <- <-. split; [lia|constructor]. }
  destruct (read_bytes buf p sizeof_ai_monitor_header_t) as [frame|] eqn:Hfr;
    [|discriminate].
  cbn [mbind option_bind] in Hrun.
  destruct (read_be32 buf (p + sizeof_ai_monitor_header_t)) as [pkg_len|] eqn:Hpl;
    [|discriminate].
  cbn [mbind option_bind] in Hrun.
  pose proof (read_be32_nonneg _ _ _ Hbuf Hpl) as Hnn.
  destruct (frame_accepted frame) eqn:Hacc; cbn [negb] in Hrun.
  2:{ rewrite (u32_small (p + 4)) in Hrun by lia.
      apply IH in Hrun; [|lia]. destruct Hrun. split; [lia|assumption]. }
  rewrite (u32_small (p + (sizeof_ai_monitor_header_t + 4))) in Hrun by lia.
  rewrite (u32_small (recv_len - _)) in Hrun by lia.
  destruct (Z.ltb_spec (recv_len - (p + (sizeof_ai_monitor_header_t + 4))) pkg_len).
  { rewrite u32_small in Hrun by lia. injection Hrun as <- <-.
    split; [lia|constructor]. }
  destruct (parse st _ pkg_len) as [[rt st1]|] eqn:Hparse; [|discriminate].
  cbn [mbind option_bind] in Hrun.
  rewrite u32_small in Hrun by lia.
  apply IH in Hrun; [|lia]. destruct Hrun as [Hq Hrest]. split; [lia|].
  eapply handled_frame; [| | | |exact Hparse|exact Hrest]; try lia.
  split; [|split]; [|exists frame; split; assumption|exact Hpl].
  apply find_sync_zero in Hfind. rewrite read_bytes_drop in Hfind by lia.
  rewrite Z.add_0_r in Hfind. exact Hfind.
Qed.

(** With four bytes of the allocation behind the received ones the scan
    stays inside it, and the loop has a result whenever the packet
    handler has. *)
Lemma framing_loop_total buf recv_len :
  Forall (fun b => 0 <= b) buf ->
  recv_len + 4 <= Z.of_nat (length buf) -> recv_len < 2 ^ 32 ->
  (forall st data len, is_Some (parse st data len)) ->
  forall fuel p (st : St),
    0 <= p -> recv_len - p <= 4 * Z.of_nat fuel ->
    is_Some (framing_loop parse fuel buf recv_len p st).
Proof.
  intros Hbuf Hlen Hmax Hparse. pose proof (header_size head_size) as Hh.
  induction fuel as [|fuel IH]; intros p st Hp Hfuel; cbn [framing_loop];
    destruct (Z.ltb_spec p recv_len) as [Hlt|Hge]; cbn [negb];
    try (eexists; reflexivity); try lia.
  rewrite (u32_small (recv_len - p)) by lia.
  destruct (sync_scan_total (drop (Z.to_nat p) buf) (Z.to_nat (recv_len - p + 1)) 0)
    as [ret Hfind]; [lia|rewrite length_drop; lia|].
  unfold __find_sync_frame. rewrite Hfind. cbn [mbind option_bind].
  destruct (Z.eqb_spec ret OPRT_OK) as [->|Hne]; cbn [negb]; [|eexists; reflexivity].
  unfold OPRT_OK. rewrite Z.add_0_r. rewrite (u32_small p) by lia.
  rewrite (u32_small (recv_len - p)) by lia.
  destruct (Z.ltb_spec (recv_len - p) (sizeof_ai_monitor_header_t + 4)) as [|Hroom];
    [eexists; reflexivity|].
  destruct (read_bytes_in_bounds buf p sizeof_ai_monitor_header_t) as [frame ->];
    try lia.
  cbn [mbind option_bind]. unfold read_be32.
  destruct (read_bytes_in_bounds buf (p + sizeof_ai_monitor_header_t) 4) as [bs Hbs];
    try lia.
  rewrite Hbs. cbn [fmap option_fmap option_map mbind option_bind].
  assert (Hnn : 0 <= be_decode bs).
  { apply (read_be32_nonneg buf (p + sizeof_ai_monitor_header_t)); [exact Hbuf|].
    unfold read_be32. rewrite Hbs. reflexivity. }
  destruct (frame_accepted frame); cbn [negb].
  2:{ rewrite (u32_small (p + 4)) by lia. apply IH; lia. }
  rewrite (u32_small (p + (sizeof_ai_monitor_header_t + 4))) by lia.
  rewrite (u32_small (recv_len - _)) by lia.
  destruct (Z.ltb_spec (recv_len - (p + (sizeof_ai_monitor_header_t + 4))) (be_decode bs));
    [eexists; reflexivity|].
  destruct (Hparse st (drop (Z.to_nat (p + (sizeof_ai_monitor_header_t + 4))) buf)
              (be_decode bs)) as [[rt st1] ->].
  cbn [mbind option_bind].
  rewrite u32_small by lia. apply IH; lia.
Qed.

(** The loop followed by the move of the remaining bytes. *)
Lemma consume_frames_bounds buf recv_len (st : St) buf' n' st' :
  Forall (fun b => 0 <= b) buf ->
  0 <= recv_len <= Z.of_nat (length buf) -> recv_len < 2 ^ 32 ->
  consume_frames parse buf recv_len st = Some (buf', n', st') ->
  0 <= n' <= recv_len
  /\ length buf' = length buf
  /\ take (Z.to_nat n') buf' = take (Z.to_nat n') (drop (Z.to_nat (recv_len - n')) buf)
  /\ Forall (fun b => 0 <= b) buf'
  /\ handled parse buf recv_len st st'.
Proof.
  intros Hbuf [Hnn Hlen] Hmax. unfold consume_frames.
  destruct (framing_loop parse (Z.to_nat recv_len) buf recv_len 0 st)
    as [[q st1]|] eqn:Hloop; [|discriminate].
  cbn [mbind option_bind].
  destruct (framing_loop_bounds buf recv_len Hbuf Hlen Hmax
              (Z.to_nat recv_len) 0 st q st1) as [Hq Hhandled]; [lia|exact Hloop|].
  destruct (Z.ltb_spec 0 q) as [Hpos|Hzero].
  - rewrite u32_small by lia.
    destruct (Z.ltb_spec q recv_len); intros [= <- <- <-].
    + destruct (memmove_front_take buf q (recv_len - q)) as [Htake Hlength]; try lia.
      split; [lia|]. split; [exact Hlength|]. split.
      { rewrite Htake. repeat f_equal. lia. }
      split; [|exact Hhandled].
      unfold memmove_front. apply Forall_app. split.
      * apply Forall_take, Forall_drop, Hbuf.
      * apply Forall_drop, Hbuf.
    + replace (recv_len - q) with 0 by lia.
      split; [lia|]. split; [reflexivity|]. split; [reflexivity|].
      split; [exact Hbuf|exact Hhandled].
  - intros [= <- <- <-]. assert (q = 0) as -> by lia.
    split; [lia|]. split; [reflexivity|]. rewrite Z.sub_diag.
    split; [reflexivity|]. split; [exact Hbuf|exact Hhandled].
Qed.

End FramingBounds.

(** X10: one pass of the read loop over [recv_len] received bytes of
    non-negative byte values never consumes more than was received: the
    new fill length lies between 0 and [recv_len], the buffer keeps its
    size, and the bytes kept are the last ones received, moved to the
    start of the buffer.  The packet handler is called only on bodies
    of frames that begin with the magic, have an accepted header and lie
    whole inside the received bytes.  When four bytes of the allocation
    lie behind the received ones and the packet handler always returns,
    the pass returns. *)
Theorem read_pass_stays_in_buffer `{AiProtocol} {St : Type}
  (parse : St -> list Z -> Z -> option (OPERATE_RET * St))
  (buf : list Z) (recv_len : Z) (st : St) :
  0 <= sizeof_AI_PACKET_HEAD_T ->
  Forall (fun b => 0 <= b) buf ->
  0 <= recv_len <= Z.of_nat (length buf) -> recv_len < 2 ^ 32 ->
  (forall buf' n' st',
     consume_frames parse buf recv_len st = Some (buf', n', st') ->
     0 <= n' <= recv_len
     /\ length buf' = length buf
     /\ take (Z.to_nat n') buf'
        = take (Z.to_nat n') (drop (Z.to_nat (recv_len - n')) buf)
     /\ handled parse buf recv_len st st')
  /\ ((forall st0 data len, is_Some (parse st0 data len)) ->
      recv_len + 4 <= Z.of_nat (length buf) ->
      is_Some (consume_frames parse buf recv_len st)).
Proof.
  intros Hsize Hbuf Hlen Hmax. split.
  - intros buf' n' st' Hrun.
    destruct (consume_frames_bounds parse Hsize buf recv_len st buf' n' st'
                Hbuf Hlen Hmax Hrun) as (H1 & H2 & H3 & _ & H5).
    auto.
  - intros Hparse Hroom. unfold consume_frames.
    destruct (framing_loop_total parse Hsize buf recv_len Hbuf Hroom Hmax Hparse
                (Z.to_nat recv_len) 0 st) as [[q st1] ->]; [lia|lia|].
    cbn [mbind option_bind]. destruct (0 <? q); eexists; reflexivity.
Qed.

Lemma read_pass_stays_in_buffer_witness :
  let c := sample_client 80
             (sample_frame 1 (sample_ping 5) ++ [1; 2; 3] ++ sample_frame 2 (sample_ping 6)) in
  0 <= recv_len c <= Z.of_nat (length (recv_buf c))
  /\ forall buf' n' st',
       consume_frames (parse_for_client 1) (recv_buf c) (recv_len c) (c, world0 1000)
       = Some (buf', n', st') ->
       0 <= n' <= recv_len c /\ length buf' = length (recv_buf c).
Proof.
  cbv zeta.
  set (c := sample_client 80
              (sample_frame 1 (sample_ping 5) ++ [1; 2; 3] ++ sample_frame 2 (sample_ping 6))).
  assert (Hsize : 0 <= sizeof_AI_PACKET_HEAD_T) by (cbn; lia).
  assert (Hbuf : Forall (fun b => 0 <= b) (recv_buf c)).
  { vm_compute. repeat (constructor; [discriminate|]). constructor. }
  assert (Hlen : 0 <= recv_len c <= Z.of_nat (length (recv_buf c)))
    by (split; vm_compute; discriminate).
  assert (Hmax : recv_len c < 2 ^ 32) by reflexivity.
  split; [exact Hlen|].
  intros buf' n' st' Hrun.
  destruct (proj1 (read_pass_stays_in_buffer (parse_for_client 1) (recv_buf c)
                     (recv_len c) (c, world0 1000) Hsize Hbuf Hlen Hmax)
              buf' n' st' Hrun) as (Hn & Hl & _).
  split; assumption.
Defined.

(** ** The client table *)

Lemma connected_count_bounds cs :
  0 <= connected_count cs <= Z.of_nat (length cs).
Proof.
  induction cs as [|c cs IH]; cbn [connected_count length]; [lia|].
  destruct (connected c); lia.
Qed.

Lemma connected_count_insert cs : forall i c c',
  cs !! i = Some c ->
  connected_count (<[i := c']> cs)
  = connected_count cs - (if connected c then 1 else 0)
    + (if connected c' then 1 else 0).
Proof.
  induction cs as [|x cs IH]; intros [|i] c c' Hl; try discriminate.
  - injection Hl as ->. cbn. lia.
  - cbn in Hl. change (<[S i := c']> (x :: cs)) with (x :: <[i := c']> cs).
    cbn [connected_count]. rewrite (IH i c c' Hl). lia.
Qed.

Lemma connected_count_lookup cs : forall i c,
  cs !! i = Some c -> connected c = true -> 1 <= connected_count cs.
Proof.
  induction cs as [|x cs IH]; intros [|i] c Hl Hc; try discriminate.
  - injection Hl as ->. cbn. rewrite Hc.
    pose proof (connected_count_bounds cs). lia.
  - cbn in Hl. cbn. specialize (IH i c Hl Hc). destruct (connected x); lia.
Qed.

Lemma connected_count_all cs :
  Forall (fun c => connected c <> false) cs ->
  connected_count cs = Z.of_nat (length cs).
Proof.
  induction 1 as [|c cs Hc _ IH]; [reflexivity|]. cbn [connected_count length].
  destruct (connected c); [lia|contradiction].
Qed.

Lemma connected_count_none cs :
  Forall (fun c => connected c = false) cs -> connected_count cs = 0.
Proof.
  induction 1 as [|c cs Hc _ IH]; [reflexivity|]. cbn [connected_count].
  rewrite Hc, IH. reflexivity.
Qed.

(** While fewer slots are connected than the table has, the search of
    the accept handler finds a free one. *)
Lemma find_free_slot cs :
  connected_count cs < Z.of_nat (length cs) ->
  exists i c, list_find (fun c => connected c = false) cs = Some (i, c).
Proof.
  intros Hlt. destruct (list_find _ cs) as [[i c]|] eqn:Hf; [eauto|].
  apply list_find_None in Hf. rewrite (connected_count_all cs Hf) in Hlt. lia.
Qed.

Lemma slot_ok_cleanup c : slot_ok (__cleanup_client c).
Proof.
  unfold slot_ok, __cleanup_client, __client_register_clear. cbn.
  split; [split; [discriminate|destruct (Z.leb_spec 0 (fd c)); lia]|].
  split; [reflexivity|discriminate].
Qed.

Lemma slot_ok_free : slot_ok client_free.
Proof.
  unfold slot_ok. cbn. split; [split; [discriminate|lia]|].
  split; [reflexivity|discriminate].
Qed.

Lemma table_ok_count s :
  table_ok s -> 0 <= client_count s <= max_clients (config s).
Proof.
  intros (_ & Hlen & _ & ->). rewrite <- Hlen. apply connected_count_bounds.
Qed.

Lemma table_ok_take s :
  table_ok s -> take (Z.to_nat (max_clients (config s))) (clients s) = clients s.
Proof. intros (_ & Hlen & _). apply take_ge. lia. Qed.

(** Replacing one slot by a well-formed one, with the count adjusted,
    keeps the table well formed. *)
Lemma table_ok_insert s i c c' n :
  table_ok s -> clients s !! i = Some c -> slot_ok c' ->
  n = client_count s - (if connected c then 1 else 0)
      + (if connected c' then 1 else 0) ->
  table_ok (set_clients s (<[i := c']> (clients s)) n).
Proof.
  intros (Hmax & Hlen & Hall & Hcount) Hl Hc' ->. unfold table_ok, set_clients. cbn.
  split; [exact Hmax|]. split; [rewrite length_insert; exact Hlen|].
  split; [apply Forall_insert; assumption|].
  rewrite (connected_count_insert _ _ _ _ Hl), Hcount. reflexivity.
Qed.

Lemma find_client_spec s sock i :
  table_ok s -> __find_client_by_fd s sock = Some i ->
  exists c, clients s !! i = Some c /\ fd c = sock
            /\ forall j y, clients s !! j = Some y -> (j < i)%nat -> fd y <> sock.
Proof.
  intros Hok. unfold __find_client_by_fd. rewrite (table_ok_take s Hok).
  destruct (list_find _ (clients s)) as [[k c]|] eqn:Hf; [|discriminate].
  cbn. intros [= <-]. apply list_find_Some in Hf as (Hl & Hfd & Hbefore).
  exists c. split; [exact Hl|]. split; [exact Hfd|exact Hbefore].
Qed.

Lemma find_client_none s sock :
  table_ok s -> __find_client_by_fd s sock = None ->
  Forall (fun c => fd c <> sock) (clients s).
Proof.
  intros Hok. unfold __find_client_by_fd. rewrite (table_ok_take s Hok).
  destruct (list_find _ (clients s)) as [[k c]|] eqn:Hf; [discriminate|].
  intros _. apply list_find_None in Hf. exact Hf.
Qed.

(** The slot [__init_client] fills in when the allocation succeeds. *)
Lemma init_client_ok cfg e buf :
  client_malloc e = Some buf ->
  __init_client cfg e
  = (OPRT_OK, mk_client (accepted_fd e) (peer_addr e) true (accept_time e) 0
                buf (cfg_recv_buf_size cfg) 0 (replicate 8 0)).
Proof. intros Hm. unfold __init_client. rewrite Hm. reflexivity. Qed.

Lemma accept_handler_refuses s e :
  accepted_fd e < 0 \/ max_clients (config s) <= client_count s ->
  __accept_handler s e = s.
Proof.
  intros Hno. unfold __accept_handler.
  destruct (Z.ltb_spec (accepted_fd e) 0); [reflexivity|].
  destruct (Z.leb_spec (max_clients (config s)) (client_count s)); [reflexivity|lia].
Qed.

(** The accept handler on a well-formed table with a free slot, when
    allocation and registration succeed. *)
Lemma accept_handler_takes s e buf :
  table_ok s -> 0 <= accepted_fd e -> client_count s < max_clients (config s) ->
  client_malloc e = Some buf -> reg_client_sock e = OPRT_OK ->
  exists i old,
    clients s !! i = Some old /\ connected old = false
    /\ (forall j c, (j < i)%nat -> clients s !! j = Some c -> connected c = true)
    /\ __accept_handler s e
       = set_clients s
           (<[i := mk_client (accepted_fd e) (peer_addr e) true (accept_time e) 0
                     buf (cfg_recv_buf_size (config s)) 0 (replicate 8 0)]> (clients s))
           (client_count s + 1).
Proof.
  intros Hok Hfd Hroom Hm Hreg.
  pose proof (table_ok_count s Hok) as Hcount.
  destruct Hok as (Hmax & Hlen & Hall & Hc).
  destruct (find_free_slot (clients s)) as (i & old & Hfind); [lia|].
  pose proof Hfind as Hspec. apply list_find_Some in Hspec as (Hl & Hfree & Hbefore).
  exists i, old. split; [exact Hl|]. split; [exact Hfree|]. split.
  { intros j c Hj Hlj. specialize (Hbefore j c Hlj Hj).
    destruct (connected c); [reflexivity|contradiction]. }
  unfold __accept_handler.
  destruct (Z.ltb_spec (accepted_fd e) 0); [lia|].
  destruct (Z.leb_spec (max_clients (config s)) (client_count s)); [lia|].
  rewrite take_ge by lia. rewrite Hfind, (init_client_ok _ _ _ Hm).
  change (negb (OPRT_OK =? OPRT_OK)) with false. cbv iota.
  rewrite Hreg. change (negb (OPRT_OK =? OPRT_OK)) with false. cbv iota.
  rewrite u32_small by lia. reflexivity.
Qed.

Lemma accept_handler_table_ok s e :
  table_ok s -> accept_env_ok (config s) e -> table_ok (__accept_handler s e).
Proof.
  intros Hok (buf & Hm & Hlen & Hsize & Hbytes).
  pose proof (table_ok_count s Hok) as Hcount.
  destruct (Z.lt_ge_cases (accepted_fd e) 0) as [Hneg|Hfd].
  { rewrite accept_handler_refuses by (left; exact Hneg). exact Hok. }
  destruct (Z.le_gt_cases (max_clients (config s)) (client_count s)) as [Hfull|Hroom].
  { rewrite accept_handler_refuses by (right; exact Hfull). exact Hok. }
  destruct (Z.eq_dec (reg_client_sock e) OPRT_OK) as [Hreg|Hreg].
  - destruct (accept_handler_takes s e buf Hok Hfd) as (i & old & Hl & Hfree & _ & ->);
      try assumption; try lia.
    apply (table_ok_insert s i old); [exact Hok|exact Hl| |rewrite Hfree; cbn; lia].
    unfold slot_ok. cbn. split; [split; [intros _; exact Hfd|reflexivity]|].
    split; [reflexivity|]. intros _. repeat split; try assumption; lia.
  - destruct Hok as (Hmax & Hlens & Hall & Hc).
    destruct (find_free_slot (clients s)) as (i & old & Hfind); [lia|].
    pose proof Hfind as Hspec. apply list_find_Some in Hspec as (Hl & Hfree & _).
    unfold __accept_handler.
    destruct (Z.ltb_spec (accepted_fd e) 0); [lia|].
    destruct (Z.leb_spec (max_clients (config s)) (client_count s)); [lia|].
    rewrite take_ge by lia. rewrite Hfind, (init_client_ok _ _ _ Hm).
    change (negb (OPRT_OK =? OPRT_OK)) with false. cbv iota.
    destruct (Z.eqb_spec (reg_client_sock e) OPRT_OK); [contradiction|]. cbn [negb].
    apply (table_ok_insert s i old);
      [repeat split; assumption|exact Hl|apply slot_ok_cleanup|].
    rewrite Hfree. cbn. lia.
Qed.

Lemma socket_error_table_ok s sock :
  table_ok s -> 0 <= sock -> table_ok (__socket_error_handler s sock).
Proof.
  intros Hok Hsock. unfold __socket_error_handler.
  destruct (__find_client_by_fd s sock) as [i|] eqn:Hfind; [|exact Hok].
  destruct (find_client_spec s sock i Hok Hfind) as (c & Hl & Hfd & _).
  rewrite Hl.
  pose proof (table_ok_count s Hok) as Hcount.
  assert (Hconn : connected c = true).
  { destruct Hok as (_ & _ & Hall & _).
    pose proof (Forall_lookup_1 _ _ _ _ Hall Hl) as (Hiff & _). apply Hiff. lia. }
  assert (Hone : 1 <= client_count s).
  { destruct Hok as (_ & _ & _ & ->). exact (connected_count_lookup _ _ _ Hl Hconn). }
  destruct Hok as (Hmax & Hrest).
  rewrite u32_small by lia.
  apply (table_ok_insert s i c); [split; assumption|exact Hl|apply slot_ok_cleanup|].
  rewrite Hconn. cbn. lia.
Qed.

Lemma cleanup_connected_ok cs :
  Forall slot_ok cs ->
  Forall slot_ok ((fun c => if connected c then __cleanup_client c else c) <$> cs)
  /\ Forall (fun c => connected c = false)
       ((fun c => if connected c then __cleanup_client c else c) <$> cs).
Proof.
  induction 1 as [|c cs Hc _ [IH1 IH2]]; [split; constructor|]. cbn [fmap list_fmap].
  split; constructor; try assumption.
  - destruct (connected c); [apply slot_ok_cleanup|exact Hc].
  - destruct (connected c) eqn:E; [reflexivity|exact E].
Qed.

Lemma session_close_all_table_ok s :
  table_ok s -> table_ok (__session_close_all s).
Proof.
  intros Hok. pose proof (table_ok_take s Hok) as Htake.
  destruct Hok as (Hmax & Hlen & Hall & Hc).
  assert (Hdrop : drop (Z.to_nat (max_clients (config s))) (clients s) = []).
  { apply drop_ge. lia. }
  destruct (cleanup_connected_ok (clients s) Hall) as [Hok' Hnone].
  unfold __session_close_all, cleanup_connected, table_ok.
  destruct (0 <=? server_fd s); srv_simpl;
    rewrite Htake, Hdrop, app_nil_r;
    (split; [exact Hmax|]); (split; [rewrite length_fmap; exact Hlen|]);
    (split; [exact Hok'|]); symmetry; apply connected_count_none, Hnone.
Qed.

Lemma timer_tick_table s e :
  clients (__monitor_tm_cb s e) = clients s
  /\ client_count (__monitor_tm_cb s e) = client_count s
  /\ config (__monitor_tm_cb s e) = config s
  /\ initialized (__monitor_tm_cb s e) = initialized s.
Proof.
  unfold __monitor_tm_cb, __tcp_create_serv_fd.
  destruct (0 <=? server_fd s); [repeat split|].
  destruct (negb (iot_activated e)); [repeat split|].
  destruct (server_fd s <? 0).
  - destruct (__create_server_socket e <? 0).
    + change (OPRT_COM_ERROR <? 0) with true. cbv iota. repeat split.
    + destruct (negb (reg_lan_sock e =? OPRT_OK)).
      * destruct (reg_lan_sock e <? 0); repeat split.
      * cbn [server_fd set_server_fd].
        destruct (__create_server_socket e <? 0); repeat split.
  - destruct (server_fd s <? 0); repeat split.
Qed.

Lemma init_table_ok s cfg e :
  0 <= max_clients cfg < 2 ^ 32 ->
  (initialized s = true -> table_ok s) ->
  initialized (tuya_ai_monitor_init s (Some cfg) e).2 = true ->
  table_ok (tuya_ai_monitor_init s (Some cfg) e).2.
Proof.
  intros Hmax Hinv. unfold tuya_ai_monitor_init.
  destruct (initialized s) eqn:Hi; [intros _; apply Hinv; reflexivity|].
  destruct (negb (sock_loop_init e =? OPRT_OK)); [cbn [snd]; congruence|].
  destruct (negb (malloc_clients e)); [cbn; discriminate|].
  destruct (negb (mutex_create e =? OPRT_OK)); [cbn; discriminate|].
  destruct (negb (timer_create e =? OPRT_OK)); [cbn; discriminate|].
  intros _. unfold __ai_monitor_start. cbn [initialized running negb].
  assert (Hfree : Forall slot_ok (replicate (Z.to_nat (max_clients cfg)) client_free))
    by (apply Forall_replicate, slot_ok_free).
  assert (Hnone : connected_count (replicate (Z.to_nat (max_clients cfg)) client_free) = 0).
  { apply connected_count_none, Forall_replicate. reflexivity. }
  destruct (negb (biz_register e =? OPRT_OK)); unfold table_ok; srv_simpl;
    rewrite length_replicate, Hnone; repeat split; try assumption; lia.
Qed.

(** ** The read handler on a well-formed table *)

Lemma same_slot_identity_refl c : same_slot_identity c c.
Proof. unfold same_slot_identity. repeat split; tauto. Qed.

Lemma same_slot_identity_trans a b c :
  same_slot_identity a b -> same_slot_identity b c -> same_slot_identity a c.
Proof.
  unfold same_slot_identity.
  intros (?&?&?&?&?&?&?&?) (?&?&?&?&?&?&?&?). repeat split; try congruence. tauto.
Qed.

(** The packets of one pass change at most the subscriptions and the
    ping time of the slot, and what they send are answers to it. *)
Lemma handled_answers `{AiProtocol} fuel buf recv_len :
  forall st st',
    handled (parse_for_client fuel) buf recv_len st st' ->
    same_slot_identity st.1 st'.1
    /\ exists out, wire st'.2 = wire st.2 ++ out /\ answers_to (fd st.1) out.
Proof.
  induction 1 as [st|st p pkg_len rt st1 st' Hp Hhead Hpk Hfit Hparse Hrest IH].
  - split; [apply same_slot_identity_refl|]. exists []. rewrite app_nil_r.
    split; [reflexivity|constructor].
  - destruct st as [c w], st1 as [c1 w1]. unfold parse_for_client in Hparse.
    cbn [fst snd] in *.
    destruct (__parse_pkg fuel c _ pkg_len w) as [[[rt0 c0] w0]|] eqn:Hpp;
      [|discriminate].
    cbn in Hparse. injection Hparse as -> -> ->.
    destruct (parse_pkg_frame _ _ _ _ _ _ _ _ Hpp) as (Hid & _ & Hwire).
    destruct IH as (Hid' & out & Hout & Hans).
    split; [eapply same_slot_identity_trans; eassumption|].
    assert (Hfd : fd c1 = fd c) by apply Hid. rewrite Hfd in Hans.
    destruct Hwire as [Hw|(pkt & Hw & _)]; [apply (f_equal wire) in Hw|].
    + exists out. rewrite Hout, Hw. split; [reflexivity|exact Hans].
    + exists (SentBasic (fd c) AI_MONITOR_DIR_ACK pkt :: out).
      rewrite Hout, Hw, <- app_assoc. split; [reflexivity|].
      constructor; [split; reflexivity|exact Hans].
Qed.

Lemma read_handler_spec `{AiProtocol} fuel s sock rcv w s' w' :
  0 <= sizeof_AI_PACKET_HEAD_T ->
  table_ok s -> 0 <= sock -> recv_ok rcv ->
  __socket_read_handler fuel s sock rcv w = Some (s', w') ->
  table_ok s'
  /\ (exists cs n, s' = set_clients s cs n)
  /\ (forall j c, clients s !! j = Some c -> fd c <> sock ->
                  clients s' !! j = Some c)
  /\ exists out, wire w' = wire w ++ out /\ answers_to sock out.
Proof.
  intros Hsize Hok Hsock Hrcv. unfold __socket_read_handler.
  destruct (__find_client_by_fd s sock) as [i|] eqn:Hfind.
  2:{ intros [= <- <-]. split; [exact Hok|].
      split; [exists (clients s), (client_count s); destruct s; reflexivity|].
      split; [auto|]. exists []. rewrite app_nil_r. split; [reflexivity|constructor]. }
  destruct (find_client_spec s sock i Hok Hfind) as (client & Hl & Hfd & _).
  rewrite Hl. cbn [mbind option_bind]. cbv zeta.
  pose proof (table_ok_count s Hok) as Hcount.
  pose proof Hok as (Hmax & Hlen & Hall & Hc).
  pose proof (Forall_lookup_1 _ _ _ _ Hall Hl) as (Hiff & Hregs & Hbuf).
  assert (Hconn : connected client = true) by (apply Hiff; lia).
  destruct (Hbuf Hconn) as (Hblen & Hfill & Hbsize & Hbytes).
  assert (Hone : 1 <= client_count s)
    by (rewrite Hc; exact (connected_count_lookup _ _ _ Hl Hconn)).
  assert (Hothers : forall x j c, clients s !! j = Some c -> fd c <> sock ->
                                  <[i := x]> (clients s) !! j = Some c).
  { intros x j c Hj Hne. rewrite list_lookup_insert_ne; [exact Hj|].
    intros ->. rewrite Hl in Hj. injection Hj as ->. contradiction. }
  rewrite (u32_small (recv_buf_size client - recv_len client)) by lia.
  intros Hrun.
  match type of Hrun with
  | context [match ?g with [] => _ | _ :: _ => _ end] => remember g as got eqn:Hgot
  end.
  assert (Hgot_len : Z.of_nat (length got) <= recv_buf_size client - recv_len client).
  { subst got. destruct rcv; [cbn; lia|]. rewrite length_take. lia. }
  assert (Hgot_bytes : Forall (fun b => 0 <= b) got).
  { subst got. destruct rcv; [constructor|]. apply Forall_take, Hrcv. }
  clear Hgot. destruct got as [|b got'].
  { injection Hrun as <- <-. rewrite u32_small by lia.
    split.
    { apply (table_ok_insert s i client); [exact Hok|exact Hl|apply slot_ok_cleanup|].
      rewrite Hconn. cbn. lia. }
    split; [eauto|]. split; [intros j c; apply Hothers|].
    exists []. rewrite app_nil_r. split; [reflexivity|constructor]. }
  remember (b :: got') as got eqn:Hgot.
  assert (Hpos : 0 < Z.of_nat (length got)) by (subst got; cbn [length]; lia).
  clear Hgot.
  rewrite (u32_small (recv_len client + Z.of_nat (length got))) in Hrun by lia.
  set (buf := take (Z.to_nat (recv_len client)) (recv_buf client) ++ got
              ++ drop (Z.to_nat (recv_len client) + length got) (recv_buf client)) in *.
  assert (Hbuf_len : Z.of_nat (length buf) = recv_buf_size client).
  { unfold buf. rewrite !length_app, length_take, length_drop. lia. }
  assert (Hbuf_bytes : Forall (fun b => 0 <= b) buf).
  { unfold buf. rewrite !Forall_app. split; [apply Forall_take, Hbytes|].
    split; [exact Hgot_bytes|apply Forall_drop, Hbytes]. }
  destruct (consume_frames (parse_for_client fuel) buf _ (client, w))
    as [[[buf' n'] [c' w0]]|] eqn:Hcf; [|discriminate].
  cbn [mbind option_bind] in Hrun. injection Hrun as <- <-.
  destruct (consume_frames_bounds (parse_for_client fuel) Hsize buf
              (recv_len client + Z.of_nat (length got)) (client, w)
              buf' n' (c', w0) Hbuf_bytes) as (Hn' & Hlen' & _ & Hnn' & Hhandled);
    [lia|lia|exact Hcf|].
  destruct (handled_answers fuel buf _ _ _ Hhandled) as (Hid & out & Hout & Hans).
  cbn [fst snd] in Hid, Hout, Hans. rewrite Hfd in Hans.
  destruct Hid as (Hfd' & _ & Hconn' & _ & _ & Hsz & _ & Hrg).
  split.
  { apply (table_ok_insert s i client); [exact Hok|exact Hl| |].
    - unfold slot_ok, set_recv. cbn. rewrite Hconn', Hfd', Hsz.
      split; [exact Hiff|]. split; [apply Hrg, Hregs|]. intros _.
      repeat split; try assumption; lia.
    - unfold set_recv. cbn. rewrite Hconn', Hconn. lia. }
  split; [eauto|]. split; [intros j c; apply Hothers|].
  exists out. split; assumption.
Qed.

(** A slot whose bitmap was cleared is subscribed to nothing. *)
Lemma not_registered_after_clear c type :
  __is_client_registered (__client_register_clear c) type = false.
Proof.
  unfold __is_client_registered.
  destruct (_ || _); [reflexivity|].
  unfold reg_byte. rewrite registered_types_clear.
  destruct (replicate 8 0 !! Z.to_nat (type / 8)) as [b|] eqn:E; [|reflexivity].
  apply lookup_replicate in E as [-> _]. reflexivity.
Qed.

Lemma sample_server_ok : table_ok (sample_server (sample_client 64 [])).
Proof.
  unfold table_ok. split; [reflexivity|]. split; [reflexivity|]. split; [|reflexivity].
  constructor; [|repeat (constructor; [apply slot_ok_free|]); constructor].
  unfold slot_ok, sample_client.
  cbn [connected fd registered_types recv_buf recv_buf_size recv_len length app].
  split; [split; [lia|reflexivity]|]. split; [reflexivity|]. intros _.
  split; [reflexivity|]. split; [lia|]. split; [reflexivity|].
  apply Forall_replicate. lia.
Qed.

(** X11: on a well-formed table the accept handler refuses a failed
    accept and a connection beyond max_clients without any change.
    Otherwise, when the buffer is allocated and the socket registered,
    it takes the first slot that is not connected, fills it with the
    descriptor, the address, the time and an empty buffer of the
    configured size, raises the client count by one and changes nothing
    else.  The new client is subscribed to nothing, and when no slot
    held this descriptor before, the lookup by descriptor finds the new
    slot. *)
Theorem accept_takes_first_free_slot (s : ai_monitor_server_t) (e : accept_env) :
  table_ok s ->
  (accepted_fd e < 0 \/ max_clients (config s) <= client_count s ->
   __accept_handler s e = s)
  /\ (forall buf,
        0 <= accepted_fd e -> client_count s < max_clients (config s) ->
        client_malloc e = Some buf -> reg_client_sock e = OPRT_OK ->
        let new := mk_client (accepted_fd e) (peer_addr e) true (accept_time e) 0
                     buf (cfg_recv_buf_size (config s)) 0 (replicate 8 0) in
        exists i old,
          clients s !! i = Some old /\ connected old = false
          /\ (forall j c, (j < i)%nat -> clients s !! j = Some c ->
                          connected c = true)
          /\ __accept_handler s e
             = set_clients s (<[i := new]> (clients s)) (client_count s + 1)
          /\ (forall type, receives type new = false)
          /\ (Forall (fun c => fd c <> accepted_fd e) (clients s) ->
              __find_client_by_fd (__accept_handler s e) (accepted_fd e) = Some i)).
Proof.
  intros Hok. split; [apply accept_handler_refuses|].
  intros buf Hfd Hroom Hm Hreg new.
  destruct (accept_handler_takes s e buf Hok Hfd Hroom Hm Hreg)
    as (i & old & Hl & Hfree & Hbefore & Heq).
  exists i, old. split; [exact Hl|]. split; [exact Hfree|]. split; [exact Hbefore|].
  split; [exact Heq|]. split.
  { intros type. unfold receives.
    change (__is_client_registered new type)
      with (__is_client_registered (__client_register_clear new) type).
    rewrite not_registered_after_clear. apply andb_false_r. }
  intros Hfresh. rewrite Heq. unfold __find_client_by_fd, set_clients.
  cbn [config clients].
  destruct Hok as (_ & Hlen & _).
  rewrite take_ge by (rewrite length_insert; lia).
  match goal with
  | |- context [list_find ?P ?l] => assert (Hfind : list_find P l = Some (i, new))
  end.
  { apply list_find_Some. split; [|split].
    - apply list_lookup_insert_eq. apply lookup_lt_Some in Hl. exact Hl.
    - reflexivity.
    - intros j y Hj Hlt. rewrite list_lookup_insert_ne in Hj by lia.
      exact (Forall_lookup_1 _ _ _ _ Hfresh Hj). }
  rewrite Hfind. reflexivity.
Qed.

Lemma accept_takes_first_free_slot_witness :
  table_ok (sample_server (sample_client 64 []))
  /\ exists i,
       __find_client_by_fd
         (__accept_handler (sample_server (sample_client 64 [])) accept_ok) 9
       = Some i
       /\ client_count (__accept_handler (sample_server (sample_client 64 [])) accept_ok)
          = 2.
Proof.
  split; [exact sample_server_ok|].
  destruct (proj2 (accept_takes_first_free_slot (sample_server (sample_client 64 []))
                     accept_ok sample_server_ok) (replicate 1024 0))
    as (i & old & _ & _ & _ & Heq & _ & Hfind);
    [cbn; lia|cbn; lia|reflexivity|reflexivity|].
  exists i. split.
  - apply Hfind. repeat constructor; cbn; lia.
  - rewrite Heq. reflexivity.
Defined.

(** X12: when the accept handler has a free slot and the connection
    then fails.  If the registration with the socket loop fails, the
    slot is cleaned up again and the count stays: as many slots are
    connected as before.  If the allocation of the receive buffer fails,
    the slot is left marked connected with the descriptor of the closed
    socket and no buffer while the count stays: one more slot is
    connected than client_count says. *)
Theorem accept_failure_keeps_count (s : ai_monitor_server_t) (e : accept_env) :
  table_ok s -> 0 <= accepted_fd e -> client_count s < max_clients (config s) ->
  exists i old,
    clients s !! i = Some old /\ connected old = false
    /\ (forall buf,
          client_malloc e = Some buf -> reg_client_sock e <> OPRT_OK ->
          __accept_handler s e
          = set_clients s
              (<[i := __cleanup_client
                        (mk_client (accepted_fd e) (peer_addr e) true (accept_time e) 0
                           buf (cfg_recv_buf_size (config s)) 0 (replicate 8 0))]>
                 (clients s))
              (client_count s)
          /\ connected_count (clients (__accept_handler s e)) = client_count s)
    /\ (client_malloc e = None ->
        __accept_handler s e
        = set_clients s
            (<[i := mk_client (accepted_fd e) (peer_addr e) true (accept_time e) 0
                      [] (cfg_recv_buf_size (config s)) 0 (replicate 8 0)]>
               (clients s))
            (client_count s)
        /\ connected_count (clients (__accept_handler s e)) = client_count s + 1).
Proof.
  intros Hok Hfd Hroom.
  pose proof (table_ok_count s Hok) as Hcount.
  destruct Hok as (Hmax & Hlen & Hall & Hc).
  destruct (find_free_slot (clients s)) as (i & old & Hfind); [lia|].
  pose proof Hfind as Hspec. apply list_find_Some in Hspec as (Hl & Hfree & _).
  exists i, old. split; [exact Hl|]. split; [exact Hfree|].
  assert (Hstart :
            __accept_handler s e
            = (let '(ret, c) := __init_client (config s) e in
               if negb (ret =? OPRT_OK)
               then set_clients s (<[i := c]> (clients s)) (client_count s)
               else if negb (reg_client_sock e =? OPRT_OK)
                    then set_clients s (<[i := __cleanup_client c]> (clients s))
                           (client_count s)
                    else set_clients s (<[i := c]> (clients s))
                           (u32 (client_count s + 1)))).
  { unfold __accept_handler.
    destruct (Z.ltb_spec (accepted_fd e) 0); [lia|].
    destruct (Z.leb_spec (max_clients (config s)) (client_count s)); [lia|].
    rewrite take_ge by lia. rewrite Hfind. reflexivity. }
  split.
  - intros buf Hm Hreg. rewrite Hstart, (init_client_ok _ _ _ Hm).
    change (negb (OPRT_OK =? OPRT_OK)) with false. cbv iota.
    destruct (Z.eqb_spec (reg_client_sock e) OPRT_OK); [contradiction|]. cbn [negb].
    split; [reflexivity|]. unfold set_clients. cbn [clients].
    rewrite (connected_count_insert _ _ _ _ Hl), Hfree, Hc. cbn. lia.
  - intros Hm. rewrite Hstart. unfold __init_client. rewrite Hm.
    change (negb (OPRT_MALLOC_FAILED =? OPRT_OK)) with true. cbv iota.
    split; [reflexivity|]. unfold set_clients. cbn [clients].
    rewrite (connected_count_insert _ _ _ _ Hl), Hfree, Hc. cbn. lia.
Qed.

Lemma accept_failure_keeps_count_witness :
  let s := sample_server (sample_client 64 []) in
  let e := mk_accept_env 9 0 None 0 5000 in
  table_ok s
  /\ client_count (__accept_handler s e) = 1
  /\ connected_count (clients (__accept_handler s e)) = 2.
Proof.
  cbv zeta. split; [exact sample_server_ok|].
  destruct (accept_failure_keeps_count (sample_server (sample_client 64 []))
              (mk_accept_env 9 0 None 0 5000) sample_server_ok)
    as (i & old & _ & _ & _ & Hnone); [cbn; lia|cbn; lia|].
  destruct (Hnone eq_refl) as [Heq Hcnt]. split.
  - rewrite Heq. reflexivity.
  - rewrite Hcnt. reflexivity.
Defined.

(** X13: on a well-formed table, whatever bytes arrive on a client
    socket, one call of the read handler that returns leaves the table
    well formed: the fill length of the slot stays within its buffer and
    the client count still counts the connected slots.  It changes
    nothing of the server but the table and the count, leaves every slot
    of another descriptor as it is, and everything it hands to the
    encoder is addressed to the descriptor it read from, with direction
    ACK. *)
Theorem read_keeps_table_well_formed `{AiProtocol} (fuel : nat)
  (s : ai_monitor_server_t) (sock : Z) (rcv : recv_result) (w : world)
  (s' : ai_monitor_server_t) (w' : world) :
  0 <= sizeof_AI_PACKET_HEAD_T ->
  table_ok s -> 0 <= sock -> recv_ok rcv ->
  __socket_read_handler fuel s sock rcv w = Some (s', w') ->
  table_ok s'
  /\ (exists cs n, s' = set_clients s cs n)
  /\ (forall j c, clients s !! j = Some c -> fd c <> sock ->
                  clients s' !! j = Some c)
  /\ exists out, wire w' = wire w ++ out /\ answers_to sock out.
Proof. apply read_handler_spec. Qed.

Lemma read_keeps_table_well_formed_witness :
  exists s' w',
    __socket_read_handler 1 (sample_server (sample_client 64 [])) 7
      (RecvData (sample_frame 1 (sample_ping 5))) (world0 1000) = Some (s', w')
    /\ table_ok s'
    /\ exists out, wire w' = wire (world0 1000) ++ out /\ answers_to 7 out.
Proof.
  destruct (__socket_read_handler 1 (sample_server (sample_client 64 [])) 7
              (RecvData (sample_frame 1 (sample_ping 5))) (world0 1000))
    as [[s' w']|] eqn:Hrun; [|vm_compute in Hrun; discriminate].
  exists s', w'. split; [reflexivity|].
  assert (Hsize : 0 <= sizeof_AI_PACKET_HEAD_T) by (cbn; lia).
  assert (Hrcv : recv_ok (RecvData (sample_frame 1 (sample_ping 5)))).
  { vm_compute. repeat (constructor; [discriminate|]). constructor. }
  destruct (read_keeps_table_well_formed 1 (sample_server (sample_client 64 [])) 7
              (RecvData (sample_frame 1 (sample_ping 5))) (world0 1000) s' w'
              Hsize sample_server_ok ltac:(lia) Hrcv Hrun) as (Hok & _ & _ & Hout).
  split; assumption.
Defined.

Lemma read_handler_set `{AiProtocol} fuel s sock rcv w s' w' :
  __socket_read_handler fuel s sock rcv w = Some (s', w') ->
  exists cs n, s' = set_clients s cs n.
Proof.
  unfold __socket_read_handler.
  destruct (__find_client_by_fd s sock) as [i|].
  2:{ intros [= <- <-]. exists (clients s), (client_count s). destruct s; reflexivity. }
  destruct (clients s !! i) as [client|]; [|discriminate]. cbn [mbind option_bind].
  cbv zeta.
  match goal with
  | |- context [match ?g with [] => _ | _ :: _ => _ end] => destruct g
  end.
  - intros [= <- <-]. eauto.
  - destruct (consume_frames _ _ _ _) as [[[buf' n'] [c' w0]]|]; [|discriminate].
    cbn [mbind option_bind]. intros [= <- <-]. eauto.
Qed.

Lemma accept_handler_set s e :
  exists cs n, __accept_handler s e = set_clients s cs n.
Proof.
  assert (Hid : exists cs n, s = set_clients s cs n)
    by (exists (clients s), (client_count s); destruct s; reflexivity).
  unfold __accept_handler.
  destruct (accepted_fd e <? 0); [exact Hid|].
  destruct (_ <=? _); [exact Hid|].
  destruct (list_find _ _) as [[i c]|]; [|exact Hid].
  destruct (__init_client (config s) e) as [ret c0].
  destruct (negb (ret =? OPRT_OK)); [eauto|]. destruct (negb _); eauto.
Qed.

Lemma socket_error_set s sock :
  exists cs n, __socket_error_handler s sock = set_clients s cs n.
Proof.
  assert (Hid : exists cs n, s = set_clients s cs n)
    by (exists (clients s), (client_count s); destruct s; reflexivity).
  unfold __socket_error_handler.
  destruct (__find_client_by_fd s sock) as [i|]; [|exact Hid].
  destruct (clients s !! i); [eauto|exact Hid].
Qed.

(** X14: on a well-formed table, a socket error and a read that finds
    the peer closed (or failing) do the same to the client of that
    descriptor: its slot is cleaned up (not connected, descriptor -1, no
    buffer, no subscription), the client count drops by one, nothing else
    changes, the table stays well formed and has room for a new
    connection, and when no other slot held the descriptor a later
    lookup of it finds nothing.  For a descriptor that no slot holds
    both handlers return without any change. *)
Theorem disconnect_frees_the_slot `{AiProtocol}
  (s : ai_monitor_server_t) (sock : Z) :
  table_ok s -> 0 <= sock ->
  (__find_client_by_fd s sock = None ->
   __socket_error_handler s sock = s
   /\ forall fuel rcv w, __socket_read_handler fuel s sock rcv w = Some (s, w))
  /\ (forall i,
        __find_client_by_fd s sock = Some i ->
        exists c,
          clients s !! i = Some c /\ fd c = sock /\ connected c = true
          /\ let s' := set_clients s (<[i := __cleanup_client c]> (clients s))
                         (client_count s - 1) in
             __socket_error_handler s sock = s'
             /\ (forall fuel rc w,
                   __socket_read_handler fuel s sock (RecvClosed rc) w = Some (s', w))
             /\ table_ok s'
             /\ client_count s' < max_clients (config s')
             /\ fd (__cleanup_client c) = -1
             /\ recv_buf (__cleanup_client c) = []
             /\ (forall type, receives type (__cleanup_client c) = false)
             /\ ((forall j y, clients s !! j = Some y -> j <> i -> fd y <> sock) ->
                 __find_client_by_fd s' sock = None)).
Proof.
  intros Hok Hsock. split.
  { intros Hnone. unfold __socket_error_handler, __socket_read_handler.
    rewrite Hnone. split; reflexivity. }
  intros i Hfind.
  destruct (find_client_spec s sock i Hok Hfind) as (c & Hl & Hfd & _).
  pose proof (table_ok_count s Hok) as Hcount.
  assert (Hconn : connected c = true).
  { destruct Hok as (_ & _ & Hall & _).
    pose proof (Forall_lookup_1 _ _ _ _ Hall Hl) as (Hiff & _). apply Hiff. lia. }
  assert (Hone : 1 <= client_count s).
  { destruct Hok as (_ & _ & _ & ->). exact (connected_count_lookup _ _ _ Hl Hconn). }
  assert (Hmax : max_clients (config s) < 2 ^ 32) by apply Hok.
  exists c. split; [exact Hl|]. split; [exact Hfd|]. split; [exact Hconn|].
  cbv zeta. split.
  { unfold __socket_error_handler. rewrite Hfind, Hl, u32_small by lia. reflexivity. }
  split.
  { intros fuel rc w. unfold __socket_read_handler. rewrite Hfind, Hl.
    cbn [mbind option_bind]. rewrite (u32_small (client_count s - 1)) by lia.
    reflexivity. }
  split.
  { apply (table_ok_insert s i c); [exact Hok|exact Hl|apply slot_ok_cleanup|].
    rewrite Hconn. cbn. lia. }
  split; [unfold set_clients; cbn; lia|].
  split.
  { unfold __cleanup_client, __client_register_clear. cbn.
    destruct (Z.leb_spec 0 (fd c)); [reflexivity|lia]. }
  split; [reflexivity|]. split; [intros type; unfold receives; reflexivity|].
  intros Honly. unfold __find_client_by_fd, set_clients. cbn [config clients].
  destruct (list_find _ _) as [[k y]|] eqn:Hf; [exfalso|reflexivity].
  apply list_find_Some in Hf as (Hk & Hy & _).
  apply lookup_take_Some in Hk as [Hk _].
  apply list_lookup_insert_Some in Hk as [(-> & <- & _)|(Hne & Hk)].
  - unfold __cleanup_client, __client_register_clear in Hy. cbn in Hy.
    destruct (Z.leb_spec 0 (fd c)); lia.
  - exact (Honly k y Hk (not_eq_sym Hne) Hy).
Qed.

Lemma disconnect_frees_the_slot_witness :
  table_ok (sample_server (sample_client 64 []))
  /\ client_count (__socket_error_handler (sample_server (sample_client 64 [])) 7) = 0.
Proof.
  split; [exact sample_server_ok|].
  destruct (proj2 (disconnect_frees_the_slot (H := sample_protocol)
                     (sample_server (sample_client 64 [])) 7
                     sample_server_ok ltac:(lia)) 0%nat eq_refl)
    as (c & _ & _ & _ & Heq & _).
  rewrite Heq. reflexivity.
Defined.

(** ** The table in every state the service reaches *)

Lemma table_ok_same s s' :
  config s' = config s -> clients s' = clients s ->
  client_count s' = client_count s -> table_ok s -> table_ok s'.
Proof. unfold table_ok. intros -> -> ->. auto. Qed.

Lemma session_close_all_initialized s :
  initialized (__session_close_all s) = initialized s.
Proof. unfold __session_close_all. destruct (0 <=? server_fd s); reflexivity. Qed.

Lemma serving_table `{AiProtocol} s w :
  0 <= sizeof_AI_PACKET_HEAD_T ->
  serving s w -> initialized s = true -> table_ok s.
Proof.
  intros Hsize. induction 1 as [w|s w ev s' w' Hserv IH Hev Hstep]; [discriminate|].
  inversion Hstep as [s0 w0 lev|s0 w0 e|s0 w0 fuel sock rcv s1 w1 Hrun|s0 w0 sock];
    subst; clear Hstep.
  - destruct lev as [cfg e| |e|]; cbn [lifecycle_step].
    + destruct cfg as [cfg|]; [|exact IH]. apply init_table_ok; [exact Hev|exact IH].
    + unfold tuya_ai_monitor_deinit.
      destruct (initialized s) eqn:Hi; cbn [negb snd]; [discriminate|]. congruence.
    + destruct (timer_tick_table s e) as (Hc & Hn & Hcfg & Hi). rewrite Hi.
      intros Hinit. apply (table_ok_same s); auto.
    + unfold __accept_err. rewrite session_close_all_initialized. intros Hi.
      apply session_close_all_table_ok, IH, Hi.
  - destruct (accept_handler_set s e) as (cs & n & Heq). intros Hi.
    apply accept_handler_table_ok; [|exact Hev]. apply IH. rewrite Heq in Hi. exact Hi.
  - destruct (read_handler_set _ _ _ _ _ _ _ Hrun) as (cs & n & Heq). intros Hi.
    destruct Hev as [Hsock Hrcv].
    refine (proj1 (read_handler_spec fuel s sock rcv w s' w' Hsize _ Hsock Hrcv Hrun)).
    apply IH. rewrite Heq in Hi. exact Hi.
  - destruct (socket_error_set s sock) as (cs & n & Heq). intros Hi.
    apply socket_error_table_ok; [|exact Hev]. apply IH. rewrite Heq in Hi. exact Hi.
Qed.

(** X15: in every state the service reaches from the zeroed global by
    init, deinit, timer ticks, accept errors, accepts whose buffer
    allocation succeeds, reads that return and socket errors, an
    initialized server has a well-formed client table: max_clients slots, client_count is
    the number of connected slots and lies between 0 and max_clients, a
    slot is connected exactly when it holds a descriptor, and a
    connected slot has a buffer of recv_buf_size bytes with a fill
    length between 0 and that size. *)
Theorem client_table_invariant `{AiProtocol} (s : ai_monitor_server_t) (w : world) :
  0 <= sizeof_AI_PACKET_HEAD_T ->
  serving s w -> initialized s = true ->
  table_ok s /\ 0 <= client_count s <= max_clients (config s).
Proof.
  intros Hsize Hserv Hi. pose proof (serving_table s w Hsize Hserv Hi) as Hok.
  split; [exact Hok|apply table_ok_count, Hok].
Qed.

Lemma client_table_invariant_witness :
  let s := __accept_handler
             (run_lifecycle [EvInit (Some AI_MONITOR_CFG_DEFAULT) init_ok;
                             EvTimerTick tick_ok]) accept_ok in
  serving s (world0 0) /\ table_ok s /\ client_count s = 1.
Proof.
  cbv zeta.
  assert (Hserv : serving
                    (__accept_handler
                       (run_lifecycle [EvInit (Some AI_MONITOR_CFG_DEFAULT) init_ok;
                                       EvTimerTick tick_ok]) accept_ok) (world0 0)).
  { apply (serving_step
             (run_lifecycle [EvInit (Some AI_MONITOR_CFG_DEFAULT) init_ok;
                             EvTimerTick tick_ok]) (world0 0) (SvAccept accept_ok));
      [|exists (replicate 1024 0); split; [reflexivity|]; split; [reflexivity|];
        split; [reflexivity|apply Forall_replicate; lia]
       |apply step_accept].
    apply (serving_step
             (run_lifecycle [EvInit (Some AI_MONITOR_CFG_DEFAULT) init_ok])
             (world0 0) (SvLifecycle (EvTimerTick tick_ok)));
      [|exact I
       |apply (step_lifecycle
                 (run_lifecycle [EvInit (Some AI_MONITOR_CFG_DEFAULT) init_ok]))].
    apply (serving_step server_zero (world0 0)
             (SvLifecycle (EvInit (Some AI_MONITOR_CFG_DEFAULT) init_ok)));
      [apply serving_start|cbn; lia|apply (step_lifecycle server_zero)]. }
  split; [exact Hserv|].
  assert (Hsize : 0 <= sizeof_AI_PACKET_HEAD_T) by (cbn; lia).
  destruct (client_table_invariant _ _ Hsize Hserv eq_refl) as [Hok _].
  split; [exact Hok|reflexivity].
Defined.

(** X16: when everything in init succeeds except the registration of
    the fan-out hooks, init returns the status of that registration but
    leaves the server initialized, not running, with the creation timer
    started.  From then on every further init with a configuration
    returns OPRT_OK without starting the service, the is-running query
    answers false and broadcasts are refused, while a timer tick with
    the device activated still opens the listening socket; only deinit
    leads back to the zeroed state. *)
Theorem failed_start_stays_initialized `{AiProtocol} (s : ai_monitor_server_t)
  (cfg : ai_monitor_config_t) (e : init_env) :
  initialized s = false ->
  sock_loop_init e = OPRT_OK -> malloc_clients e = true ->
  mutex_create e = OPRT_OK -> timer_create e = OPRT_OK ->
  biz_register e <> OPRT_OK ->
  let s1 := (tuya_ai_monitor_init s (Some cfg) e).2 in
  (tuya_ai_monitor_init s (Some cfg) e).1 = biz_register e
  /\ initialized s1 = true /\ running s1 = false
  /\ tuya_ai_monitor_is_running s1 = false
  /\ timer s1 = TimerActive /\ server_fd s1 = -1
  /\ (forall cfg' e', tuya_ai_monitor_init s1 (Some cfg') e' = (OPRT_OK, s1))
  /\ (forall id attr head data w,
        tuya_ai_monitor_broadcast id attr head data s1 w = (OPRT_INVALID_PARM, w))
  /\ (forall e', listen_succeeds e' ->
        server_fd (__monitor_tm_cb s1 e') = socket_create e'
        /\ running (__monitor_tm_cb s1 e') = false)
  /\ tuya_ai_monitor_deinit s1 = (OPRT_OK, server_zero).
Proof.
  intros Hi Hs Hm Hmu Ht Hb. cbv zeta.
  assert (Heq : tuya_ai_monitor_init s (Some cfg) e
                = (biz_register e,
                   mk_server true false cfg (-1)
                     (replicate (Z.to_nat (max_clients cfg)) client_free) 0
                     (random16 e) (random32 e) true TimerActive)).
  { unfold tuya_ai_monitor_init, __ai_monitor_start. rewrite Hi, Hs, Hm, Hmu, Ht.
    change (negb (OPRT_OK =? OPRT_OK)) with false. cbn [negb initialized running].
    destruct (Z.eqb_spec (biz_register e) OPRT_OK); [contradiction|]. reflexivity. }
  rewrite Heq. cbn [fst snd initialized running timer server_fd].
  do 6 (split; [reflexivity|]).
  split; [intros cfg' e'; reflexivity|].
  split; [intros id attr head data w; reflexivity|].
  split; [|reflexivity].
  intros e' (Hact & Hsock & Hreuse & Hbind & Hlisten & Hreg).
  unfold __monitor_tm_cb, __tcp_create_serv_fd, __create_server_socket.
  cbn [server_fd]. rewrite Hact. change (0 <=? -1) with false.
  change (-1 <? 0) with true. cbn [negb].
  destruct (Z.ltb_spec (socket_create e') 0); [lia|].
  destruct (Z.ltb_spec (set_reuse e') 0); [lia|].
  destruct (Z.ltb_spec (bind_status e') 0); [lia|].
  destruct (Z.ltb_spec (listen_status e') 0); [lia|].
  destruct (Z.ltb_spec (socket_create e') 0); [lia|].
  rewrite Hreg. cbn.
  destruct (Z.ltb_spec (socket_create e') 0); [lia|]. split; reflexivity.
Qed.

Lemma failed_start_stays_initialized_witness :
  let e := mk_init_env 0 true 0 0 0x1234 0x56789ABC (-1) in
  let s1 := (tuya_ai_monitor_init server_zero (Some AI_MONITOR_CFG_DEFAULT) e).2 in
  biz_register e <> OPRT_OK
  /\ initialized s1 = true
  /\ tuya_ai_monitor_init s1 (Some AI_MONITOR_CFG_DEFAULT) init_ok = (OPRT_OK, s1).
Proof.
  cbv zeta.
  assert (Hb : biz_register (mk_init_env 0 true 0 0 0x1234 0x56789ABC (-1)) <> OPRT_OK)
    by discriminate.
  split; [exact Hb|].
  destruct (failed_start_stays_initialized (H := sample_protocol) server_zero
              AI_MONITOR_CFG_DEFAULT (mk_init_env 0 true 0 0 0x1234 0x56789ABC (-1))
              eq_refl eq_refl eq_refl eq_refl eq_refl Hb)
    as (_ & Hinit & _ & _ & _ & _ & Hagain & _).
  split; [exact Hinit|apply Hagain].
Defined.

(** ** What the scan for the magic word returns *)

Lemma memcmp_magic_inv data offset b :
  memcmp_magic data offset = Some b ->
  if b then read_bytes data offset 4 = Some MAGIC_BYTES
  else read_bytes data offset 4 <> Some MAGIC_BYTES.
Proof.
  unfold memcmp_magic. destruct (read_bytes data offset 4) as [bs|]; [|discriminate].
  cbn [mbind option_bind]. intros [= <-].
  destruct (bool_decide_reflect (bs = MAGIC_BYTES)) as [->|Hne]; [reflexivity|].
  intros [= Heq]. contradiction.
Qed.

Lemma sync_scan_first data n : forall offset r,
  (sync_scan data n offset).2 = Some r ->
  (r = OPRT_NOT_FOUND
   /\ forall k, offset <= k < offset + Z.of_nat n ->
                read_bytes data k 4 <> Some MAGIC_BYTES)
  \/ (offset <= r < offset + Z.of_nat n
      /\ read_bytes data r 4 = Some MAGIC_BYTES
      /\ forall k, offset <= k < r -> read_bytes data k 4 <> Some MAGIC_BYTES).
Proof.
  induction n as [|n IH]; intros offset r Hr; cbn [sync_scan] in Hr.
  { left. cbn in Hr. injection Hr as <-. split; [reflexivity|]. intros k Hk. lia. }
  destruct (memcmp_magic data offset) as [[|]|] eqn:Hcmp; cbn [snd] in Hr.
  - injection Hr as <-. right. split; [lia|].
    split; [exact (memcmp_magic_inv _ _ _ Hcmp)|]. intros k Hk. lia.
  - pose proof (memcmp_magic_inv _ _ _ Hcmp) as Hhere. cbv beta iota in Hhere.
    destruct (sync_scan data n (offset + 1)) as [probes r'] eqn:E.
    cbn [snd] in Hr. subst r'.
    destruct (IH (offset + 1) r) as [[-> Hnone]|(Hin & Hat & Hbefore)];
      [rewrite E; reflexivity| |].
    + left. split; [reflexivity|]. intros k Hk.
      destruct (Z.eq_dec k offset) as [->|]; [exact Hhere|apply Hnone; lia].
    + right. split; [lia|]. split; [exact Hat|]. intros k Hk.
      destruct (Z.eq_dec k offset) as [->|]; [exact Hhere|apply Hbefore; lia].
  - discriminate.
Qed.

(** X17: when the scan for the magic word returns, it returns the first
    offset among 0 .. len (len included) at which the four bytes of the
    magic lie, and the negative code "not found" exactly when they lie
    at none of these offsets; it returns whenever four bytes of the
    allocation follow the [len] bytes scanned. *)
Theorem find_sync_returns_first_magic (data : list Z) (len : Z) :
  0 <= len ->
  (forall r,
     __find_sync_frame data len = Some r ->
     (r = OPRT_NOT_FOUND
      /\ forall k, 0 <= k <= len -> read_bytes data k 4 <> Some MAGIC_BYTES)
     \/ (0 <= r <= len
         /\ read_bytes data r 4 = Some MAGIC_BYTES
         /\ forall k, 0 <= k < r -> read_bytes data k 4 <> Some MAGIC_BYTES))
  /\ (len + 4 <= Z.of_nat (length data) -> is_Some (__find_sync_frame data len)).
Proof.
  intros Hlen. unfold __find_sync_frame. split.
  - intros r Hr.
    destruct (sync_scan_first data (Z.to_nat (len + 1)) 0 r Hr)
      as [[-> Hnone]|(Hin & Hat & Hbefore)].
    + left. split; [reflexivity|]. intros k Hk. apply Hnone. lia.
    + right. split; [lia|]. split; [exact Hat|exact Hbefore].
  - intros Hroom. apply sync_scan_total; lia.
Qed.

Lemma find_sync_returns_first_magic_witness :
  __find_sync_frame ([1; 2] ++ MAGIC_BYTES ++ [0; 0; 0; 0]) 6 = Some 2
  /\ read_bytes ([1; 2] ++ MAGIC_BYTES ++ [0; 0; 0; 0]) 2 4 = Some MAGIC_BYTES.
Proof.
  assert (Hrun : __find_sync_frame ([1; 2] ++ MAGIC_BYTES ++ [0; 0; 0; 0]) 6 = Some 2)
    by reflexivity.
  split; [exact Hrun|].
  destruct (proj1 (find_sync_returns_first_magic
                     ([1; 2] ++ MAGIC_BYTES ++ [0; 0; 0; 0]) 6 ltac:(lia)) 2 Hrun)
    as [[Hbad _]|(_ & Hat & _)]; [discriminate Hbad|exact Hat].
Defined.
